(** * Gestion Locative: validation, aggregation and receipt rules

    A shallow embedding of [gestion_locative/app.py].

    Conventions of the embedding.
    - A Python [str] is a [string] whose characters are the code points
      below 256 (Latin-1); [len] is [String.length].
    - A Python [float] is a binary64 float ([PrimFloat.float]), with its
      infinities and its [nan]: comparisons are those of IEEE 754, all
      false on [nan], and additions round to nearest.  [sum] adds from the
      left, starting at 0, as CPython does up to version 3.11, and so does
      the [sum()] of SQLite in the order of the rows.
    - [None] is [None]; a dictionary of the form parsers is a record.
    - The database is a record of row lists; a query is a filter over a
      row list and a relationship is a lookup by key. *)

From Stdlib Require Import Bool List ZArith Lia Ascii String
  DecimalString Permutation Floats.
From Stdlib Require Uint63.
Import ListNotations.

#[local] Set Warnings "-inexact-float".

Local Open Scope string_scope.
Local Open Scope Z_scope.

(** ** Python strings *)

Module Str.

Definition code (c : ascii) : N := N_of_ascii c.

(** [c.isdigit()] on the code points below 256: the ASCII digits and
    the superscripts two, three and one. *)
Definition isdigit_char (c : ascii) : bool :=
  let n := code c in
  ((48 <=? n) && (n <=? 57) || (n =? 178) || (n =? 179) || (n =? 185))%N.

Fixpoint all_chars (f : ascii -> bool) (s : string) : bool :=
  match s with
  | EmptyString => true
  | String c r => f c && all_chars f r
  end.

(** [s.isdigit()]: at least one character, and all of them digits. *)
Definition isdigit (s : string) : bool :=
  match s with
  | EmptyString => false
  | _ => all_chars isdigit_char s
  end.

Definition len (s : string) : Z := Z.of_nat (String.length s).

(** [not s] *)
Definition falsy (s : string) : bool :=
  match s with EmptyString => true | _ => false end.

(** [not d.get(k)] for an optional text field *)
Definition falsy_opt (o : option string) : bool :=
  match o with None => true | Some s => falsy s end.

(** [s.split(sep)] for a one-character separator. *)
Fixpoint split (sep : ascii) (s : string) : list string :=
  match s with
  | EmptyString => [EmptyString]
  | String c r =>
      if Ascii.eqb c sep then EmptyString :: split sep r
      else match split sep r with
           | [] => [String c EmptyString]
           | w :: ws => String c w :: ws
           end
  end.

(** The characters [int] skips at both ends of its argument. *)
Definition is_int_space (c : ascii) : bool :=
  let n := code c in
  ((9 <=? n) && (n <=? 13) || (n =? 32) || (n =? 133) || (n =? 160))%N.

Definition is_decimal (c : ascii) : bool :=
  let n := code c in ((48 <=? n) && (n <=? 57))%N.

Definition digit_value (c : ascii) : Z := Z.of_N (code c) - 48.

Fixpoint lstrip (l : list ascii) : list ascii :=
  match l with
  | c :: r => if is_int_space c then lstrip r else l
  | [] => []
  end.

Definition strip (l : list ascii) : list ascii :=
  rev (lstrip (rev (lstrip l))).

(** Digits, single underscores allowed between two digits. *)
Fixpoint int_digits (acc : Z) (after_digit : bool) (l : list ascii)
  : option Z :=
  match l with
  | [] => if after_digit then Some acc else None
  | c :: r =>
      if is_decimal c then int_digits (10 * acc + digit_value c) true r
      else if Ascii.eqb c "_"%char
           then if after_digit then int_digits acc false r else None
           else None
  end.

(** [int(s)] in base ten; [None] stands for [ValueError]. *)
Definition int (s : string) : option Z :=
  match strip (list_ascii_of_string s) with
  | c :: r =>
      if Ascii.eqb c "+"%char then int_digits 0 false r
      else if Ascii.eqb c "-"%char
           then option_map Z.opp (int_digits 0 false r)
           else int_digits 0 false (c :: r)
  | [] => None
  end.

End Str.

(** ** Dates *)

Module Date.

Record t : Type := mk { year : Z; month : Z; day : Z }.

(** [a < b] on [datetime.date]: lexicographic on year, month, day. *)
Definition ltb (a b : t) : bool :=
  (year a <? year b)
  || ((year a =? year b)
      && ((month a <? month b)
          || ((month a =? month b) && (day a <? day b)))).

End Date.

(** ** Amounts *)

(** [x or 0]: a zero of either sign is false, and gives [0]. *)
Definition ou_zero (x : float) : float :=
  if (x =? 0)%float then 0%float else x.

(** What SQLite keeps of a float bound to a [FLOAT] column: [nan] is
    stored as [NULL], and a negative zero as zero. *)
Definition sqlite_float (x : float) : option float :=
  if PrimFloat.is_nan x then None else Some (ou_zero x).

(** An amount that is a number. *)
Definition est_nombre (x : float) : Prop := PrimFloat.is_nan x = false.

(** [mapM] in the option monad, for the loops whose body may raise. *)
Fixpoint pour_chaque {A B : Type} (f : A -> option B) (l : list A)
  : option (list B) :=
  match l with
  | [] => Some []
  | a :: r =>
      match f a with
      | None => None
      | Some b =>
          match pour_chaque f r with
          | None => None
          | Some bs => Some (b :: bs)
          end
      end
  end.

(** ** Constants *)

(** The accented letters of the messages, as Latin-1 characters. *)
Definition a_grave : string := String (ascii_of_N 224) "".
Definition e_grave : string := String (ascii_of_N 232) "".
Definition e_aigu : string := String (ascii_of_N 233) "".
Definition e_circ : string := String (ascii_of_N 234) "".
Definition o_circ : string := String (ascii_of_N 244) "".
Definition u_circ : string := String (ascii_of_N 251) "".

Definition CATEGORIES_PAIEMENT : list (string * string) :=
  [ ("loyer", "Loyer");
    ("eau_assainissement", "Eau et assainissement");
    ("ordures_menageres", "Ordures m" ++ e_aigu ++ "nag" ++ e_grave ++ "res");
    ("taxe_fonciere", "Taxe fonci" ++ e_grave ++ "re") ].

Definition MOIS_NOMS : list string :=
  [ ""; "Janvier"; "F" ++ e_aigu ++ "vrier"; "Mars"; "Avril"; "Mai"; "Juin";
    "Juillet"; "Ao" ++ u_circ ++ "t"; "Septembre"; "Octobre"; "Novembre";
    "D" ++ e_aigu ++ "cembre" ].

Definition MOIS_NOMS_COURTS : list string :=
  [ ""; "Jan"; "F" ++ e_aigu ++ "v"; "Mar"; "Avr"; "Mai"; "Jun";
    "Jul"; "Ao" ++ u_circ; "Sep"; "Oct"; "Nov"; "D" ++ e_aigu ++ "c" ].

(** The messages returned by the validators and flashed by the handlers. *)
Module Msg.
Definition bien_requis : string :=
  "Veuillez s" ++ e_aigu ++ "lectionner un bien.".
Definition bien_introuvable : string :=
  "Le bien s" ++ e_aigu ++ "lectionn" ++ e_aigu ++ " est introuvable.".
Definition raison_sociale_requise : string :=
  "La raison sociale est obligatoire pour un local commercial.".
Definition siret_requis : string :=
  "Le num" ++ e_aigu ++ "ro SIRET est obligatoire pour un local commercial.".
Definition siret_format : string :=
  "Le num" ++ e_aigu ++ "ro SIRET doit contenir exactement 14 chiffres.".
Definition nom_prenom_requis : string :=
  "Le nom et le pr" ++ e_aigu ++ "nom sont obligatoires.".
Definition debut_bail_requis : string :=
  "La date de d" ++ e_aigu ++ "but de bail est obligatoire.".
Definition loyer_positif : string :=
  "Le loyer mensuel doit " ++ e_circ ++ "tre un nombre positif.".
Definition depot_negatif : string :=
  "Le d" ++ e_aigu ++ "p" ++ o_circ ++ "t de garantie ne peut pas "
  ++ e_circ ++ "tre n" ++ e_aigu ++ "gatif.".
Definition jour_paiement_bornes : string :=
  "Le jour de paiement doit " ++ e_circ ++ "tre entre 1 et 28.".
Definition fin_avant_debut : string :=
  "La date de fin de bail doit " ++ e_circ ++ "tre post" ++ e_aigu
  ++ "rieure " ++ a_grave ++ " la date de d" ++ e_aigu ++ "but.".
Definition locataire_requis : string :=
  "Veuillez s" ++ e_aigu ++ "lectionner un locataire.".
Definition montant_positif : string :=
  "Le montant doit " ++ e_circ ++ "tre un nombre positif.".
Definition date_paiement_requise : string :=
  "La date de paiement est obligatoire.".
Definition mois_requis : string :=
  "Le mois concern" ++ e_aigu ++ " est obligatoire.".
Definition format_mois : string := "Format de mois invalide.".
End Msg.

(** ** Models *)

Module Bien.
Record t : Type := mk {
  id : Z;
  nom : string;
  type_bien : string;
  adresse : string;
  surface : option float;
  description : string;
  charges_mensuelles : option float;
  date_acquisition : option Date.t
}.
End Bien.

Module Locataire.
Record t : Type := mk {
  id : Z;
  nom : string;
  prenom : option string;
  email : string;
  telephone : string;
  date_naissance : option Date.t;
  raison_sociale : option string;
  siret : option string;
  dirigeant : option string;
  bien_id : Z;
  date_debut_bail : Date.t;
  date_fin_bail : option Date.t;
  loyer_mensuel : float;
  depot_garantie : option float;
  jour_paiement : Z;
  actif : bool
}.
End Locataire.

Module Bailleur.
Record t : Type := mk {
  id : Z;
  nom : string;
  adresse : string;
  code_postal : string;
  ville : string;
  telephone : string;
  email : string;
  siret : string
}.
End Bailleur.

Module Paiement.
Record t : Type := mk {
  id : Z;
  locataire_id : Z;
  montant : float;
  date_paiement : Date.t;
  mois_concerne : string;
  categorie : string;
  mode_paiement : string;
  commentaire : string;
  quittance_generee : bool
}.
End Paiement.

(** The four tables, each in the order its rows are returned. *)
Record Base : Type := mkBase {
  biens : list Bien.t;
  locataires : list Locataire.t;
  paiements : list Paiement.t;
  bailleurs : list Bailleur.t
}.

(** [Bien.query.get(id)] *)
Definition Bien_query_get (db : Base) (id : Z) : option Bien.t :=
  find (fun b => Bien.id b =? id) (biens db).

(** [Locataire.query.get_or_404(id)]; [None] is the 404 response. *)
Definition Locataire_query_get_or_404 (db : Base) (id : Z)
  : option Locataire.t :=
  find (fun l => Locataire.id l =? id) (locataires db).

(** The relationship [Bien.locataires] *)
Definition Bien_locataires (db : Base) (b : Bien.t) : list Locataire.t :=
  filter (fun l => Locataire.bien_id l =? Bien.id b) (locataires db).

(** The backref [Locataire.bien] *)
Definition Locataire_bien (db : Base) (l : Locataire.t) : option Bien.t :=
  Bien_query_get db (Locataire.bien_id l).

(** The relationship [Locataire.paiements] *)
Definition Locataire_paiements (db : Base) (l : Locataire.t)
  : list Paiement.t :=
  filter (fun p => Paiement.locataire_id p =? Locataire.id l) (paiements db).

(** [sum(...)] over amounts: Python adds from the left, starting at 0. *)
Definition py_sum (l : list float) : float :=
  fold_left PrimFloat.add l 0%float.

(** [Bien.locataire_actuel] *)
Definition locataire_actuel (db : Base) (b : Bien.t) : option Locataire.t :=
  find Locataire.actif (Bien_locataires db b).

(** [Locataire.loyer_total]; [None] stands for the [TypeError] of a rent
    added to charges that are [None]. *)
Definition loyer_total (db : Base) (l : Locataire.t) : option float :=
  match Locataire_bien db l with
  | Some b =>
      match Bien.charges_mensuelles b with
      | Some charges => Some (Locataire.loyer_mensuel l + charges)%float
      | None => None
      end
  | None => Some (Locataire.loyer_mensuel l + 0)%float
  end.

(** ** Form records and validators *)

Module LocataireData.
Record t : Type := mk {
  nom : string;
  prenom : option string;
  email : string;
  telephone : string;
  date_naissance : option Date.t;
  raison_sociale : option string;
  siret : option string;
  dirigeant : option string;
  bien_id : option Z;
  date_debut_bail : option Date.t;
  date_fin_bail : option Date.t;
  loyer_mensuel : option float;
  depot_garantie : option float;
  jour_paiement : option Z
}.
End LocataireData.

Module PaiementData.
Record t : Type := mk {
  locataire_id : option Z;
  montant : option float;
  date_paiement : option Date.t;
  mois_concerne : string;
  categorie : string;
  mode_paiement : string;
  commentaire : string
}.
End PaiementData.

(** [not v] for an optional integer: [None] and [0] are both false. *)
Definition falsy_int (o : option Z) : bool :=
  match o with None => true | Some n => n =? 0 end.

(** [not v] for an optional date: a date is always true. *)
Definition falsy_date (o : option Date.t) : bool :=
  match o with None => true | Some _ => false end.

(** [len(s) != 14 or not s.isdigit()] *)
Definition siret_mal_forme (s : string) : bool :=
  negb (Str.len s =? 14) || negb (Str.isdigit s).

(** The checks of [_validate_locataire_data] that follow its branch on
    the kind of property: they are the same for both kinds of tenant. *)
Definition controles_du_bail (data : LocataireData.t) : option string :=
  if falsy_date (LocataireData.date_debut_bail data)
  then Some Msg.debut_bail_requis
  else if match LocataireData.loyer_mensuel data with
          | None => true
          | Some l => (l <? 0)%float
          end
  then Some Msg.loyer_positif
  else if match LocataireData.depot_garantie data with
          | None => false
          | Some d => (d <? 0)%float
          end
  then Some Msg.depot_negatif
  else if match LocataireData.jour_paiement data with
          | None => false
          | Some j => (j <? 1) || (j >? 28)
          end
  then Some Msg.jour_paiement_bornes
  else if match LocataireData.date_fin_bail data,
                LocataireData.date_debut_bail data with
          | Some fin, Some debut => Date.ltb fin debut
          | _, _ => false
          end
  then Some Msg.fin_avant_debut
  else None.

Definition _validate_locataire_data (db : Base) (data : LocataireData.t)
  : option string :=
  match LocataireData.bien_id data with
  | None => Some Msg.bien_requis
  | Some bien_id =>
    if bien_id =? 0 then Some Msg.bien_requis else
    match Bien_query_get db bien_id with
    | None => Some Msg.bien_introuvable
    | Some bien =>
      if String.eqb (Bien.type_bien bien) "local_commercial" then
        if Str.falsy_opt (LocataireData.raison_sociale data)
        then Some Msg.raison_sociale_requise
        else match LocataireData.siret data with
             | None => Some Msg.siret_requis
             | Some siret =>
                 if Str.falsy siret then Some Msg.siret_requis
                 else if siret_mal_forme siret then Some Msg.siret_format
                 else controles_du_bail data
             end
      else
        if Str.falsy (LocataireData.nom data)
           || Str.falsy_opt (LocataireData.prenom data)
        then Some Msg.nom_prenom_requis
        else controles_du_bail data
    end
  end.

Definition _validate_paiement_data (data : PaiementData.t) : option string :=
  if falsy_int (PaiementData.locataire_id data)
  then Some Msg.locataire_requis
  else if match PaiementData.montant data with
          | None => true
          | Some m => (m <=? 0)%float
          end
  then Some Msg.montant_positif
  else if falsy_date (PaiementData.date_paiement data)
  then Some Msg.date_paiement_requise
  else if Str.falsy (PaiementData.mois_concerne data)
  then Some Msg.mois_requis
  else None.

(** A text of exactly 14 characters, each one of the digits 0 to 9. *)
Definition quatorze_chiffres (s : string) : bool :=
  (Str.len s =? 14) && Str.all_chars Str.is_decimal s.

(** ** Rules as the specification words them

    A rule is a check together with the message of its violation; a
    validator in the sense of the specification walks an ordered list of
    rules and reports the first one that does not hold. *)

Section Regles.

Variable A : Type.

Record regle : Type := mkRegle {
  respecte : A -> bool;
  message : string
}.

Fixpoint premiere_violation (regles : list regle) (data : A)
  : option string :=
  match regles with
  | [] => None
  | r :: suite =>
      if respecte r data then premiere_violation suite data
      else Some (message r)
  end.

Definition toutes_respectees (regles : list regle) (data : A) : Prop :=
  Forall (fun r => respecte r data = true) regles.


End Regles.

Arguments mkRegle {A} _ _.
Arguments respecte {A} _ _.
Arguments message {A} _.
Arguments premiere_violation {A} _ _.
Arguments toutes_respectees {A} _ _.

Module ReglesLocataire.

Import LocataireData.

Definition raison_sociale_non_vide : regle t :=
  mkRegle (fun d => negb (Str.falsy_opt (raison_sociale d)))
          Msg.raison_sociale_requise.

Definition siret_non_vide : regle t :=
  mkRegle (fun d => negb (Str.falsy_opt (siret d)))
          Msg.siret_requis.

Definition siret_14_chiffres : regle t :=
  mkRegle (fun d => match siret d with
                    | Some s => quatorze_chiffres s
                    | None => false
                    end)
          Msg.siret_format.

Definition nom_et_prenom_non_vides : regle t :=
  mkRegle (fun d => negb (Str.falsy (nom d))
                    && negb (Str.falsy_opt (prenom d)))
          Msg.nom_prenom_requis.

Definition debut_bail_present : regle t :=
  mkRegle (fun d => match date_debut_bail d with
                    | Some _ => true
                    | None => false
                    end)
          Msg.debut_bail_requis.

Definition loyer_present_et_positif : regle t :=
  mkRegle (fun d => match loyer_mensuel d with
                    | Some l => (0 <=? l)%float
                    | None => false
                    end)
          Msg.loyer_positif.

Definition depot_positif : regle t :=
  mkRegle (fun d => match depot_garantie d with
                    | Some g => (0 <=? g)%float
                    | None => true
                    end)
          Msg.depot_negatif.

Definition jour_entre_1_et_28 : regle t :=
  mkRegle (fun d => match jour_paiement d with
                    | Some j => (1 <=? j) && (j <=? 28)
                    | None => true
                    end)
          Msg.jour_paiement_bornes.

Definition fin_pas_avant_debut : regle t :=
  mkRegle (fun d => match date_fin_bail d, date_debut_bail d with
                    | Some fin, Some debut => negb (Date.ltb fin debut)
                    | _, _ => true
                    end)
          Msg.fin_avant_debut.

Definition bail : list (regle t) :=
  [ debut_bail_present; loyer_present_et_positif; depot_positif;
    jour_entre_1_et_28; fin_pas_avant_debut ].

Definition professionnel : list (regle t) :=
  [ raison_sociale_non_vide; siret_non_vide; siret_14_chiffres ].

Definition particulier : list (regle t) :=
  [ nom_et_prenom_non_vides ].

(** The ordered rules for a tenant of a property of the given type. *)
Definition pour_type (type_bien : string) : list (regle t) :=
  (if String.eqb type_bien "local_commercial"
   then professionnel else particulier) ++ bail.

End ReglesLocataire.

Module ReglesPaiement.

Import PaiementData.

Definition locataire_present : regle t :=
  mkRegle (fun d => negb (falsy_int (locataire_id d)))
          Msg.locataire_requis.

Definition montant_strictement_positif : regle t :=
  mkRegle (fun d => match montant d with
                    | Some m => (0 <? m)%float
                    | None => false
                    end)
          Msg.montant_positif.

Definition date_presente : regle t :=
  mkRegle (fun d => match date_paiement d with
                    | Some _ => true
                    | None => false
                    end)
          Msg.date_paiement_requise.

Definition mois_non_vide : regle t :=
  mkRegle (fun d => negb (Str.falsy (mois_concerne d)))
          Msg.mois_requis.

Definition toutes : list (regle t) :=
  [ locataire_present; montant_strictement_positif; date_presente;
    mois_non_vide ].

End ReglesPaiement.

(** ** Dictionaries

    A Python [dict] as an association list in insertion order: [set]
    overwrites the value of a key that is there and appends a new key at
    the end. *)

Section PyDict.

Variables K V : Type.
Variable eqb : K -> K -> bool.

Definition dict : Type := list (K * V).

Fixpoint get (k : K) (d : dict) : option V :=
  match d with
  | [] => None
  | (k', v) :: r => if eqb k' k then Some v else get k r
  end.

Definition mem (k : K) (d : dict) : bool :=
  match get k d with Some _ => true | None => false end.

Fixpoint set (k : K) (v : V) (d : dict) : dict :=
  match d with
  | [] => [(k, v)]
  | (k', v') :: r =>
      if eqb k' k then (k', v) :: r else (k', v') :: set k v r
  end.

(** [dict(pairs)] *)
Definition dict_of_pairs (pairs : list (K * V)) : dict :=
  fold_left (fun d kv => set (fst kv) (snd kv) d) pairs [].

End PyDict.

Arguments get {K V} eqb k d.
Arguments mem {K V} eqb k d.
Arguments set {K V} eqb k v d.
Arguments dict_of_pairs {K V} eqb pairs.

(** [query(key, func.sum(Paiement.montant)).group_by(key).all()]: one
    pair for each distinct key of the rows, with the sum of the amounts
    of the rows that carry it, added to 0 in the order of the rows. *)
Definition group_by_sum {K : Type} (eqb : K -> K -> bool)
  (key : Paiement.t -> K) (rows : list Paiement.t) : list (K * float) :=
  fold_left
    (fun acc p =>
       match get eqb (key p) acc with
       | Some s => set eqb (key p) (s + Paiement.montant p)%float acc
       | None => set eqb (key p) (0 + Paiement.montant p)%float acc
       end)
    rows [].

(** The rows that carry the key [k]. *)
Definition lignes_de {K : Type} (eqb : K -> K -> bool)
  (key : Paiement.t -> K) (k : K) (rows : list Paiement.t)
  : list Paiement.t :=
  filter (fun p => eqb (key p) k) rows.

(** [d.get(k, 0) or 0] *)
Definition get_or_0 {K : Type} (eqb : K -> K -> bool) (k : K)
  (d : list (K * float)) : float :=
  match get eqb k d with
  | Some v => ou_zero v
  | None => 0%float
  end.

(** ** Calendar *)

Definition isleap (year : Z) : bool :=
  (year mod 4 =? 0) && (negb (year mod 100 =? 0) || (year mod 400 =? 0)).

(** [calendar.monthrange(year, month)[1]] *)
Definition jours_du_mois (year month : Z) : Z :=
  if month =? 2 then (if isleap year then 29 else 28)
  else if (month =? 4) || (month =? 6) || (month =? 9) || (month =? 11)
       then 30 else 31.

(** A date that [datetime.date] can hold. *)
Definition date_valide (d : Date.t) : Prop :=
  1 <= Date.year d <= 9999
  /\ 1 <= Date.month d <= 12
  /\ 1 <= Date.day d <= jours_du_mois (Date.year d) (Date.month d).

(** [dt - relativedelta(months=i)] for [0 <= i <= 12], after dateutil:
    twelve months are normalised to one year; the month is moved back and
    wraps around January; the day is clipped to the length of the month
    reached; a year before 1 raises, which is [None] here. *)
Definition moins_mois (dt : Date.t) (i : Z) : option Date.t :=
  let years := i / 12 in
  let months := i mod 12 in
  let year := Date.year dt - years in
  let month := Date.month dt in
  let '(year, month) :=
    if months =? 0 then (year, month)
    else let month := month - months in
         if month <? 1 then (year - 1, month + 12) else (year, month) in
  let day := Z.min (jours_du_mois year month) (Date.day dt) in
  if year <? 1 then None else Some (Date.mk year month day).

Definition chiffre (n : Z) : ascii := ascii_of_N (48 + Z.to_N n).

Definition sur2 (n : Z) : string :=
  String (chiffre (n / 10 mod 10)) (String (chiffre (n mod 10)) "").

Definition sur4 (n : Z) : string :=
  String (chiffre (n / 1000 mod 10))
    (String (chiffre (n / 100 mod 10)) (sur2 n)).

(** [d.strftime('%Y-%m')], for the years 1000 to 9999, which every
    platform prints on four digits. *)
Definition strftime_Ym (d : Date.t) : string :=
  sur4 (Date.year d) ++ "-" ++ sur2 (Date.month d).

(** [str(n)] for an integer *)
Definition str_int (n : Z) : string := NilZero.string_of_int (Z.to_int n).

(** [l[i]] for a list of strings and an index that is in range. *)
Definition index_str (l : list string) (i : Z) : string :=
  nth (Z.to_nat i) l "".

(** [range(11, -1, -1)] *)
Definition range_11_0 : list Z := map Z.of_nat (rev (seq 0 12)).

(** ** Dashboard *)

(** The values that [index] computes for its page.  [revenus_mensuels]
    is [None] when a total rent raises: the handler then stops at that
    line and no page is rendered. *)
Module Index.
Record t : Type := mk {
  biens : list Bien.t;
  locataires_actifs : list Locataire.t;
  revenus_mensuels : option float;
  total_percu : float;
  loyers_en_retard : list Locataire.t;
  mois_actuel : string
}.
End Index.

Definition index (db : Base) (today : Date.t) : Index.t :=
  let biens := biens db in
  let locataires_actifs := filter Locataire.actif (locataires db) in
  let revenus_mensuels :=
    option_map py_sum (pour_chaque (loyer_total db) locataires_actifs) in
  let mois_actuel := strftime_Ym today in
  let paiements_mois :=
    filter (fun p => String.eqb (Paiement.mois_concerne p) mois_actuel)
           (paiements db) in
  let total_percu := py_sum (map Paiement.montant paiements_mois) in
  let loyers_en_retard :=
    filter
      (fun loc =>
         negb (existsb
                 (fun p => String.eqb (Paiement.mois_concerne p) mois_actuel)
                 (Locataire_paiements db loc))
         && (Date.day today >? Locataire.jour_paiement loc))
      locataires_actifs in
  Index.mk biens locataires_actifs revenus_mensuels total_percu
           loyers_en_retard mois_actuel.

(** ** Receipts *)

(** What a handler answers. *)
Inductive reponse (A : Type) : Type :=
| NotFound404
| FlashRedirect (message : string) (endpoint : string)
| Render (vue : A).

Arguments NotFound404 {A}.
Arguments FlashRedirect {A} message endpoint.
Arguments Render {A} vue.

Module Quittance.
Record t : Type := mk {
  locataire : Locataire.t;
  bailleur : option Bailleur.t;
  paiements : list Paiement.t;
  paiements_par_categorie : list (string * list Paiement.t);
  total_paiements : float;
  categories_labels : list (string * string);
  mois : string;
  mois_nom : string;
  annee : string;
  date_generation : Date.t
}.
End Quittance.

(** The [try] block of [generer_quittance]: the year text and the month
    number, or [None] when [ValueError] is raised. *)
Definition analyser_mois (mois : string) : option (string * Z) :=
  match Str.split "-"%char mois with
  | [annee; partie_mois] =>
      match Str.int partie_mois with
      | None => None
      | Some mois_num =>
          match Str.int annee with
          | None => None
          | Some _ =>
              if (mois_num <? 1) || (mois_num >? 12) then None
              else Some (annee, mois_num)
          end
      end
  | _ => None
  end.

(** One turn of the grouping loop of [generer_quittance]. *)
Definition ranger (d : list (string * list Paiement.t)) (p : Paiement.t)
  : list (string * list Paiement.t) :=
  let d := if negb (mem String.eqb (Paiement.categorie p) d)
           then set String.eqb (Paiement.categorie p) [] d
           else d in
  match get String.eqb (Paiement.categorie p) d with
  | Some l => set String.eqb (Paiement.categorie p) (l ++ [p])%list d
  | None => d
  end.

Definition grouper_par_categorie (paiements : list Paiement.t)
  : list (string * list Paiement.t) :=
  fold_left ranger paiements [].

Definition generer_quittance (db : Base) (today : Date.t)
  (locataire_id : Z) (mois : string) : reponse Quittance.t :=
  match Locataire_query_get_or_404 db locataire_id with
  | None => NotFound404
  | Some locataire =>
    match analyser_mois mois with
    | None => FlashRedirect Msg.format_mois "liste_quittances"
    | Some (annee, mois_num) =>
      let bailleur := hd_error (bailleurs db) in
      let paiements :=
        filter (fun p => (Paiement.locataire_id p =? locataire_id)
                         && String.eqb (Paiement.mois_concerne p) mois)
               (paiements db) in
      let paiements_par_categorie := grouper_par_categorie paiements in
      let total_paiements := py_sum (map Paiement.montant paiements) in
      let mois_nom := index_str MOIS_NOMS mois_num in
      Render (Quittance.mk locataire bailleur paiements
                paiements_par_categorie total_paiements CATEGORIES_PAIEMENT
                mois mois_nom annee today)
    end
  end.

(** ** Statistics *)

Module Revenu.
Record t : Type := mk { mois : string; total : float }.
End Revenu.

Module BienStat.
Record t : Type := mk {
  bien : Bien.t;
  locataire : option Locataire.t;
  total_percu : float
}.
End BienStat.

Module Statistiques.
Record t : Type := mk {
  revenus_mensuels : list Revenu.t;
  biens_stats : list BienStat.t
}.
End Statistiques.

(** The first loop of [statistiques]. *)
Definition revenus_des_12_mois (db : Base) (date_courante : Date.t)
  : option (list Revenu.t) :=
  match moins_mois date_courante 12 with
  | None => None
  | Some date_12_mois =>
    let mois_min := strftime_Ym date_12_mois in
    let revenus_bruts :=
      group_by_sum String.eqb Paiement.mois_concerne
        (filter (fun p => String.leb mois_min (Paiement.mois_concerne p))
                (paiements db)) in
    let revenus_dict := dict_of_pairs String.eqb revenus_bruts in
    pour_chaque
      (fun i =>
         match moins_mois date_courante i with
         | None => None
         | Some mois_date =>
           let mois_str := strftime_Ym mois_date in
           Some (Revenu.mk
                   (index_str MOIS_NOMS_COURTS (Date.month mois_date)
                    ++ " " ++ str_int (Date.year mois_date))
                   (get_or_0 String.eqb mois_str revenus_dict))
         end)
      range_11_0
  end.

(** The second loop of [statistiques]. *)
Definition stats_des_biens (db : Base) : list BienStat.t :=
  let totaux_par_locataire :=
    dict_of_pairs Z.eqb
      (group_by_sum Z.eqb Paiement.locataire_id (paiements db)) in
  map (fun bien =>
         let locataire := locataire_actuel db bien in
         let total_percu :=
           match locataire with
           | Some l => get_or_0 Z.eqb (Locataire.id l) totaux_par_locataire
           | None => 0%float
           end in
         BienStat.mk bien locataire total_percu)
      (biens db).

Definition statistiques (db : Base) (today : Date.t)
  : option Statistiques.t :=
  match revenus_des_12_mois db today with
  | None => None
  | Some revenus_mensuels =>
      Some (Statistiques.mk revenus_mensuels (stats_des_biens db))
  end.

(** ** A sample database

    The two properties are the ones [init_db] seeds; the tenants, the
    landlord and the payments are sample rows. *)

Module Demo.

Definition appartement : Bien.t :=
  Bien.mk 1 "Appartement Centre-Ville" "appartement"
    ("12 rue de la R" ++ e_aigu ++ "publique, 75001 Paris")
    (Some 65%float) "Appartement T3 lumineux avec balcon" (Some 150%float)
    (Some (Date.mk 2020 1 15)).

Definition local : Bien.t :=
  Bien.mk 2 "Local Commercial" "local_commercial"
    "45 avenue des Champs, 75008 Paris"
    (Some 120%float)
    ("Local commercial avec vitrine, id" ++ e_aigu
     ++ "al commerce de proximit" ++ e_aigu)
    (Some 200%float) (Some (Date.mk 2018 6 1)).

Definition claire : Locataire.t :=
  Locataire.mk 1 "Martin" (Some "Claire") "claire@example.org" "0102030405"
    None None None None 1 (Date.mk 2023 9 1) None 800%float (Some 800%float) 5 true.

Definition ancien : Locataire.t :=
  Locataire.mk 2 "Petit" (Some "Luc") "" "" None None None None
    1 (Date.mk 2021 1 1) (Some (Date.mk 2023 8 31)) 750%float (Some 750%float) 1
    false.

Definition fournil : Locataire.t :=
  Locataire.mk 3 "" None "contact@example.org" "" None
    (Some "Le Fournil SARL") (Some "12345678901234") (Some "A. Morel")
    2 (Date.mk 2022 1 1) None 1500%float (Some 3000%float) 10 true.

Definition bailleur : Bailleur.t :=
  Bailleur.mk 1 "SCI Exemple" "1 place du March" "75001" "Paris" "" "" "".

Definition versement (id loc : Z) (montant : float) (jour : Date.t)
  (mois categorie : string) : Paiement.t :=
  Paiement.mk id loc montant jour mois categorie "virement" "" false.

Definition versements : list Paiement.t :=
  [ versement 1 1 950%float (Date.mk 2024 2 4) "2024-02" "loyer";
    versement 2 3 1700%float (Date.mk 2024 2 9) "2024-02" "loyer";
    versement 3 1 950%float (Date.mk 2024 3 3) "2024-03" "loyer";
    versement 4 1 42.5%float (Date.mk 2024 3 3) "2024-03" "eau_assainissement";
    versement 5 2 900%float (Date.mk 2023 8 2) "2023-08" "loyer";
    versement 6 1 30%float (Date.mk 2024 3 18) "2024-03" "loyer";
    versement 7 2 900%float (Date.mk 2022 12 2) "2022-12" "loyer" ].

Definition base : Base :=
  mkBase [appartement; local] [claire; ancien; fournil] versements
         [bailleur].

Definition vide : Base := mkBase [] [] [] [].

Definition aujourd_hui : Date.t := Date.mk 2024 3 20.

(** A form for a tenant of the commercial premises, names left empty. *)
Definition formulaire_pro : LocataireData.t :=
  LocataireData.mk "" None "" "" None
    (Some "Le Fournil SARL") (Some "12345678901234") None
    (Some 2) (Some (Date.mk 2024 1 1)) None (Some 1500%float) (Some 0%float)
    (Some 10).

(** A form for a tenant of the apartment. *)
Definition formulaire_particulier : LocataireData.t :=
  LocataireData.mk "Martin" (Some "Claire") "" "" None None None None
    (Some 1) (Some (Date.mk 2024 1 1)) (Some (Date.mk 2025 1 1))
    (Some 800%float) (Some 800%float) (Some 5).

Definition formulaire_paiement : PaiementData.t :=
  PaiementData.mk (Some 1) (Some 950%float) (Some (Date.mk 2024 3 3))
    "2024-03" "loyer" "virement" "".

End Demo.

(** ** Statements and forms used in the sequel *)

(** The form [data] with its last name and first name replaced. *)
Definition avec_identite (nom : string) (prenom : option string)
  (data : LocataireData.t) : LocataireData.t :=
  LocataireData.mk nom prenom
    (LocataireData.email data) (LocataireData.telephone data)
    (LocataireData.date_naissance data)
    (LocataireData.raison_sociale data) (LocataireData.siret data)
    (LocataireData.dirigeant data) (LocataireData.bien_id data)
    (LocataireData.date_debut_bail data) (LocataireData.date_fin_bail data)
    (LocataireData.loyer_mensuel data) (LocataireData.depot_garantie data)
    (LocataireData.jour_paiement data).

(** A SIRET that passes the format check of the validator: 14
    characters, all of them accepted by [str.isdigit]. *)
Definition siret_bien_forme (s : string) : bool :=
  (Str.len s =? 14) && Str.isdigit s.

(** The SIRET sentence read on its own: for a tenant of commercial
    premises, a SIRET present in the input is accepted exactly when it is
    made of 14 digits, and any other is answered with the SIRET
    message. *)
Definition siret_seul_decide : Prop :=
  forall db data bien_id bien s,
    LocataireData.bien_id data = Some bien_id ->
    bien_id <> 0 ->
    Bien_query_get db bien_id = Some bien ->
    Bien.type_bien bien = "local_commercial" ->
    LocataireData.siret data = Some s ->
    s <> "" ->
    (quatorze_chiffres s = true ->
       _validate_locataire_data db data <> Some Msg.siret_format
       /\ _validate_locataire_data db data <> Some Msg.siret_requis)
    /\ (quatorze_chiffres s = false ->
       _validate_locataire_data db data = Some Msg.siret_format).

(** A commercial form without company name and with a SIRET too short. *)
Definition formulaire_sans_raison : LocataireData.t :=
  LocataireData.mk "" None "" "" None None (Some "123") None
    (Some 2) (Some (Date.mk 2024 1 1)) None (Some 1500%float) (Some 0%float)
    (Some 10).

(** A commercial form whose SIRET ends with a superscript two. *)
Definition formulaire_siret_exposant : LocataireData.t :=
  LocataireData.mk "" None "" "" None
    (Some "Le Fournil SARL")
    (Some ("1234567890123" ++ String (ascii_of_N 178) "")) None
    (Some 2) (Some (Date.mk 2024 1 1)) None (Some 1500%float) (Some 0%float)
    (Some 10).

(** A month token made of exactly two parts around one hyphen, the first
    an integer for [int], the second an integer from 1 to 12. *)
Definition mois_bien_forme (mois : string) : Prop :=
  exists annee partie n,
    Str.split "-"%char mois = [annee; partie]
    /\ Str.int annee <> None
    /\ Str.int partie = Some n
    /\ 1 <= n <= 12.

Definition erreur_de_format : reponse Quittance.t :=
  FlashRedirect Msg.format_mois "liste_quittances".

(** The receipt sentence read for every tenant id: the format error is
    the answer exactly when the token is not well formed. *)
Definition format_seul_decide : Prop :=
  forall db today locataire_id mois,
    generer_quittance db today locataire_id mois = erreur_de_format
    <-> ~ mois_bien_forme mois.

(** ** Sums of payments *)

(** The sum of the amounts of a list of payments, added in the order of
    the list. *)
Definition somme_montants (l : list Paiement.t) : float :=
  py_sum (map Paiement.montant l).

(** ** Months as the specification counts them *)

(** The rank of the month of a date, counted from January of year 0. *)
Definition mois_absolu (d : Date.t) : Z :=
  12 * Date.year d + (Date.month d - 1).

Definition annee_de (n : Z) : Z := n / 12.

Definition mois_de (n : Z) : Z := n mod 12 + 1.

(** The [YYYY-MM] token of the month of rank [n]. *)
Definition jeton (n : Z) : string :=
  sur4 (annee_de n) ++ "-" ++ sur2 (mois_de n).

(** The short month name and the year of the month of rank [n]. *)
Definition libelle (n : Z) : string :=
  index_str MOIS_NOMS_COURTS (mois_de n) ++ " " ++ str_int (annee_de n).

(** The ranks of the twelve months that end at the month of [today],
    oldest first. *)
Definition douze_mois (today : Date.t) : list Z :=
  map (fun i => mois_absolu today - i) range_11_0.

(** A token that is one of the tokens of the given months. *)
Definition dans_les_mois (rangs : list Z) (p : Paiement.t) : bool :=
  existsb (fun n => String.eqb (Paiement.mois_concerne p) (jeton n)) rangs.

(** ** Forms and rows at the edge of the amounts *)

(** A character of the ASCII range. *)
Definition est_ascii (c : ascii) : bool := (Str.code c <? 128)%N.

(** A tenant form whose rent and deposit, when given, are numbers, and
    whose SIRET, when given, is made of ASCII characters. *)
Definition formulaire_ordinaire (data : LocataireData.t) : Prop :=
  (forall l, LocataireData.loyer_mensuel data = Some l -> est_nombre l)
  /\ (forall g, LocataireData.depot_garantie data = Some g -> est_nombre g)
  /\ (forall s, LocataireData.siret data = Some s ->
                Str.all_chars est_ascii s = true).

(** A payment form whose amount, when given, is a number. *)
Definition paiement_ordinaire (data : PaiementData.t) : Prop :=
  forall m, PaiementData.montant data = Some m -> est_nombre m.

(** The form of a tenant of the apartment whose rent field was sent as
    the text [nan], which [float] reads. *)
Definition formulaire_loyer_nan : LocataireData.t :=
  LocataireData.mk "Martin" (Some "Claire") "" "" None None None None
    (Some 1) (Some (Date.mk 2024 1 1)) None
    (Some PrimFloat.nan) (Some 0%float) (Some 5).

(** The form of a payment whose amount field was sent as the text
    [nan]. *)
Definition formulaire_montant_nan : PaiementData.t :=
  PaiementData.mk (Some 1) (Some PrimFloat.nan) (Some (Date.mk 2024 3 3))
    "2024-03" "loyer" "virement" "".

(** Three payments of the first tenant for March 2024, the second one
    for water. *)
Definition versements_de_mars : list Paiement.t :=
  [ Demo.versement 1 1 49.9%float (Date.mk 2024 3 3) "2024-03" "loyer";
    Demo.versement 2 1 19.99%float (Date.mk 2024 3 3) "2024-03"
      "eau_assainissement";
    Demo.versement 3 1 33.33%float (Date.mk 2024 3 18) "2024-03" "loyer" ].

Definition base_de_mars : Base :=
  mkBase [Demo.appartement; Demo.local]
         [Demo.claire; Demo.ancien; Demo.fournil] versements_de_mars
         [Demo.bailleur].

(** Three payments of the first tenant, the second one for February. *)
Definition versements_de_deux_mois : list Paiement.t :=
  [ Demo.versement 1 1 49.9%float (Date.mk 2024 3 3) "2024-03" "loyer";
    Demo.versement 2 1 19.99%float (Date.mk 2024 2 3) "2024-02" "loyer";
    Demo.versement 3 1 33.33%float (Date.mk 2024 3 18) "2024-03" "loyer" ].

Definition base_de_deux_mois : Base :=
  mkBase [Demo.appartement; Demo.local]
         [Demo.claire; Demo.ancien; Demo.fournil] versements_de_deux_mois
         [Demo.bailleur].

(** The last clause of the sentence on the receipt read on its own: the
    grand total is the sum, over the groups, of the sums of their
    amounts. *)
Definition total_des_groupes_decide : Prop :=
  forall db today locataire_id mois vue,
    generer_quittance db today locataire_id mois = Render vue ->
    Quittance.total_paiements vue
    = py_sum (map (fun g => somme_montants (snd g))
                  (Quittance.paiements_par_categorie vue)).

(** The last clause of the sentence on the revenue series read on its
    own: the sum of the twelve totals is the sum of the amounts of the
    payments whose token is one of the twelve tokens. *)
Definition somme_des_douze_decide : Prop :=
  forall db today stats,
    statistiques db today = Some stats ->
    py_sum (map Revenu.total (Statistiques.revenus_mensuels stats))
    = somme_montants
        (filter (dans_les_mois (douze_mois today)) (paiements db)).

(** A property whose charges are [NULL], with a tenant. *)
Definition base_sans_charges : Base :=
  mkBase [ Bien.mk 1 "Studio" "appartement" "3 rue Haute" None "" None
             None ]
         [Demo.claire] [] [].

(** * The rest of the application *)

(** ** Receipt list *)

Module ListeQuittances.
Record t : Type := mk {
  locataires : list Locataire.t;
  now : string
}.
End ListeQuittances.

Definition liste_quittances (db : Base) (today : Date.t)
  : ListeQuittances.t :=
  ListeQuittances.mk (filter Locataire.actif (locataires db))
                     (strftime_Ym today).

(** The digits of a text, most significant first, read in base ten. *)
Definition valeur_chiffres (ds : list Z) (acc : Z) : Z :=
  fold_left (fun a d => 10 * a + d) ds acc.

(** ** Start-up: [cli.py] and the schema patch *)

(** [range(start, stop)] *)
Definition py_range (start stop : Z) : list Z :=
  map (fun k => start + Z.of_nat k) (seq 0 (Z.to_nat (stop - start))).

(** [_find_free_port]: [bind_ok port] tells whether binding the port
    succeeds; it is asked once for each port tried, in order. *)
Definition _find_free_port (bind_ok : Z -> bool) (start stop : Z) : Z :=
  match find bind_ok (py_range start stop) with
  | Some port => port
  | None => start
  end.

(** The schema as the inspector shows it: the tables with their columns,
    each a name and a type. *)
Definition Schema : Type := list (string * list (string * string)).

Definition migrations : list (string * string) :=
  [ ("raison_sociale", "VARCHAR(200)");
    ("siret", "VARCHAR(14)");
    ("dirigeant", "VARCHAR(200)") ].

(** [_migrate_db]: each [ALTER TABLE locataire ADD COLUMN] appends a
    column to the table. *)
Definition _migrate_db (schema : Schema) : Schema :=
  match get String.eqb "locataire" schema with
  | None => schema
  | Some colonnes_table =>
      let colonnes := map fst colonnes_table in
      set String.eqb "locataire"
        (fold_left
           (fun table col =>
              if existsb (String.eqb (fst col)) colonnes then table
              else (table ++ [col])%list)
           migrations colonnes_table)
        schema
  end.

(** The part of [init_db] that seeds the two sample properties. *)
Definition init_db (db : Base) : Base :=
  match biens db with
  | [] => mkBase [Demo.appartement; Demo.local] (locataires db)
                 (paiements db) (bailleurs db)
  | _ :: _ => db
  end.

(** The columns of [migrations] that a table does not have yet. *)
Definition colonnes_manquantes (table : list (string * string))
  : list (string * string) :=
  filter (fun col => negb (existsb (String.eqb (fst col)) (map fst table)))
         migrations.

(** ** Reading the forms *)

(** [c.isspace()] on the code points below 256. *)
Definition py_isspace (c : ascii) : bool :=
  let n := Str.code c in
  ((9 <=? n) && (n <=? 13) || (28 <=? n) && (n <=? 32)
   || (n =? 133) || (n =? 160))%N.

Fixpoint lstrip_espaces (l : list ascii) : list ascii :=
  match l with
  | c :: r => if py_isspace c then lstrip_espaces r else l
  | [] => []
  end.

(** [s.strip()] *)
Definition py_strip (s : string) : string :=
  string_of_list_ascii
    (rev (lstrip_espaces (rev (lstrip_espaces (list_ascii_of_string s))))).

(** [request.form]: the fields in the order they were sent; [get] gives
    the first value of a key. *)
Definition Form : Type := list (string * string).

(** [form.get(key)] *)
Definition form_get (form : Form) (key : string) : option string :=
  get String.eqb key form.

(** [form.get(key, default)] *)
Definition form_get_or (form : Form) (key default : string) : string :=
  match form_get form key with Some v => v | None => default end.

(** [s or None] *)
Definition ou_None (s : string) : option string :=
  if Str.falsy s then None else Some s.

(** [_safe_int] *)
Definition _safe_int (value : option string) (default : option Z)
  : option Z :=
  match value with
  | None => default
  | Some s =>
      if Str.falsy s then default
      else match Str.int s with
           | Some n => Some n
           | None => default
           end
  end.

Definition chiffre_de (c : ascii) (bas haut : Z) : option Z :=
  let n := Str.digit_value c in
  if Str.is_decimal c && (bas <=? n) && (n <=? haut) then Some n else None.

(** The month of [%m]: [1[0-2]|0[1-9]|[1-9]], with what follows it. *)
Definition lire_mois (l : list ascii) : option (Z * list ascii) :=
  match l with
  | c1 :: r1 =>
      match
        (match r1 with
         | c2 :: r2 =>
             match chiffre_de c1 1 1, chiffre_de c2 0 2 with
             | Some _, Some u => Some (10 + u, r2)
             | _, _ =>
                 match chiffre_de c1 0 0, chiffre_de c2 1 9 with
                 | Some _, Some u => Some (u, r2)
                 | _, _ => None
                 end
             end
         | [] => None
         end)
      with
      | Some res => Some res
      | None =>
          match chiffre_de c1 1 9 with
          | Some u => Some (u, r1)
          | None => None
          end
      end
  | [] => None
  end.

(** The day of [%d]: [3[0-1]|[1-2]\d|0[1-9]|[1-9]| [1-9]], with what
    follows it. *)
Definition lire_jour (l : list ascii) : option (Z * list ascii) :=
  match l with
  | c1 :: r1 =>
      match
        (match r1 with
         | c2 :: r2 =>
             match chiffre_de c1 3 3, chiffre_de c2 0 1 with
             | Some _, Some u => Some (30 + u, r2)
             | _, _ =>
                 match chiffre_de c1 1 2, chiffre_de c2 0 9 with
                 | Some d, Some u => Some (10 * d + u, r2)
                 | _, _ =>
                     match chiffre_de c1 0 0, chiffre_de c2 1 9 with
                     | Some _, Some u => Some (u, r2)
                     | _, _ => None
                     end
                 end
             end
         | [] => None
         end)
      with
      | Some res => Some res
      | None =>
          match chiffre_de c1 1 9 with
          | Some u => Some (u, r1)
          | None =>
              match r1 with
              | c2 :: r2 =>
                  if Ascii.eqb c1 " "
                  then match chiffre_de c2 1 9 with
                       | Some u => Some (u, r2)
                       | None => None
                       end
                  else None
              | [] => None
              end
          end
      end
  | [] => None
  end.

(** [datetime.strptime(value, '%Y-%m-%d').date()]; [None] stands for
    [ValueError]: four digits, a hyphen, a month, a hyphen, a day and
    nothing more, that make a date of the calendar from year 1 on. *)
Definition strptime_Ymd (value : string) : option Date.t :=
  match list_ascii_of_string value with
  | y1 :: y2 :: y3 :: y4 :: tiret :: r =>
      match chiffre_de y1 0 9, chiffre_de y2 0 9,
            chiffre_de y3 0 9, chiffre_de y4 0 9 with
      | Some a, Some b, Some c, Some d =>
          if Ascii.eqb tiret "-" then
            match lire_mois r with
            | Some (mois, tiret2 :: r') =>
                if Ascii.eqb tiret2 "-" then
                  match lire_jour r' with
                  | Some (jour, []) =>
                      let annee := 1000 * a + 100 * b + 10 * c + d in
                      if (1 <=? annee)
                         && (jour <=? jours_du_mois annee mois)
                      then Some (Date.mk annee mois jour)
                      else None
                  | _ => None
                  end
                else None
            | _ => None
            end
          else None
      | _, _, _, _ => None
      end
  | _ => None
  end.

(** [_safe_date] with its default format. *)
Definition _safe_date (value : option string) : option Date.t :=
  match value with
  | None => None
  | Some s => if Str.falsy s then None else strptime_Ymd s
  end.

(** [d.strftime('%Y-%m-%d')], the text a date field sends. *)
Definition strftime_Ymd (d : Date.t) : string :=
  sur4 (Date.year d) ++ "-" ++ sur2 (Date.month d) ++ "-"
  ++ sur2 (Date.day d).

Module BienData.
Record t : Type := mk {
  nom : string;
  type_bien : string;
  adresse : string;
  surface : option float;
  description : string;
  charges_mensuelles : option float;
  date_acquisition : option Date.t
}.
End BienData.

Section Formulaires.

(** [float(value)] is left open: it gives the float read, which may be
    an infinity or [nan], or [None] for [ValueError]. *)
Variable py_float : string -> option float.

(** [_safe_float] *)
Definition _safe_float (value : option string) (default : option float)
  : option float :=
  match value with
  | None => default
  | Some s =>
      if Str.falsy s then default
      else match py_float s with
           | Some x => Some x
           | None => default
           end
  end.

Definition _parse_bien_form (form : Form) : BienData.t :=
  BienData.mk
    (py_strip (form_get_or form "nom" ""))
    (form_get_or form "type_bien" "")
    (py_strip (form_get_or form "adresse" ""))
    (_safe_float (form_get form "surface") None)
    (form_get_or form "description" "")
    (_safe_float (form_get form "charges_mensuelles") (Some 0%float))
    (_safe_date (form_get form "date_acquisition")).

Definition _parse_locataire_form (form : Form) : LocataireData.t :=
  LocataireData.mk
    (py_strip (form_get_or form "nom" ""))
    (ou_None (py_strip (form_get_or form "prenom" "")))
    (form_get_or form "email" "")
    (form_get_or form "telephone" "")
    (_safe_date (form_get form "date_naissance"))
    (ou_None (py_strip (form_get_or form "raison_sociale" "")))
    (ou_None (py_strip (form_get_or form "siret" "")))
    (ou_None (py_strip (form_get_or form "dirigeant" "")))
    (_safe_int (form_get form "bien_id") None)
    (_safe_date (form_get form "date_debut_bail"))
    (_safe_date (form_get form "date_fin_bail"))
    (_safe_float (form_get form "loyer_mensuel") None)
    (_safe_float (form_get form "depot_garantie") (Some 0%float))
    (_safe_int (form_get form "jour_paiement") (Some 1)).

Definition _parse_paiement_form (form : Form) : PaiementData.t :=
  PaiementData.mk
    (_safe_int (form_get form "locataire_id") None)
    (_safe_float (form_get form "montant") None)
    (_safe_date (form_get form "date_paiement"))
    (form_get_or form "mois_concerne" "")
    (form_get_or form "categorie" "loyer")
    (form_get_or form "mode_paiement" "")
    (form_get_or form "commentaire" "").

End Formulaires.

(** ** Handlers that write *)

Module Flash.
Definition succes : string := "succ" ++ e_grave ++ "s !".
Definition bien_nom_requis : string := "Le nom du bien est obligatoire.".
Definition bien_adresse_requise : string := "L'adresse est obligatoire.".
Definition bien_charges_negatives : string :=
  "Les charges mensuelles ne peuvent pas " ++ e_circ ++ "tre n" ++ e_aigu
  ++ "gatives.".
Definition erreur_enregistrement : string :=
  "Erreur lors de l'enregistrement. V" ++ e_aigu ++ "rifiez les donn"
  ++ e_aigu ++ "es saisies.".
Definition bien_ajoute : string := "Bien ajout" ++ e_aigu ++ " avec " ++ succes.
Definition bien_modifie : string :=
  "Bien modifi" ++ e_aigu ++ " avec " ++ succes.
Definition bien_supprime : string :=
  "Bien supprim" ++ e_aigu ++ " avec " ++ succes.
Definition bien_suppression_erreur : string :=
  "Erreur lors de la suppression du bien.".
Definition locataire_ajoute : string :=
  "Locataire ajout" ++ e_aigu ++ " avec " ++ succes.
Definition locataire_modifie : string :=
  "Locataire modifi" ++ e_aigu ++ " avec " ++ succes.
Definition locataire_supprime : string :=
  "Locataire supprim" ++ e_aigu ++ " avec " ++ succes.
Definition locataire_suppression_erreur : string :=
  "Erreur lors de la suppression du locataire.".
Definition paiement_enregistre : string :=
  "Paiement enregistr" ++ e_aigu ++ " avec " ++ succes.
Definition paiement_modifie : string :=
  "Paiement modifi" ++ e_aigu ++ " avec " ++ succes.
Definition paiement_supprime : string :=
  "Paiement supprim" ++ e_aigu ++ " avec " ++ succes.
Definition paiement_suppression_erreur : string :=
  "Erreur lors de la suppression du paiement.".
Definition bailleur_requis : string :=
  "Le nom et l'adresse sont obligatoires.".
Definition parametres_enregistres : string :=
  "Param" ++ e_grave ++ "tres enregistr" ++ e_aigu ++ "s avec " ++ succes.
Definition parametres_erreur : string :=
  "Erreur lors de l'enregistrement des param" ++ e_grave ++ "tres.".
End Flash.

Inductive methode : Type := GET | POST.

Inductive categorie_flash : Type := danger | success.

(** What a handler that writes answers: a page rendered after an
    optional flash, a redirection after a flash, or the 404 response. *)
Inductive issue : Type :=
| Page (template : string) (flash : option (categorie_flash * string))
| Redirection (endpoint : string) (flash : categorie_flash * string)
| Introuvable.

(** The first row that satisfies [f] is replaced by its image. *)
Fixpoint modifier_premier {A : Type} (f : A -> bool) (g : A -> A)
  (l : list A) : list A :=
  match l with
  | [] => []
  | a :: r => if f a then g a :: r else a :: modifier_premier f g r
  end.

(** The first row that satisfies [f] is removed. *)
Fixpoint supprimer_premier {A : Type} (f : A -> bool) (l : list A)
  : list A :=
  match l with
  | [] => []
  | a :: r => if f a then r else a :: supprimer_premier f r
  end.

(** What a nullable [FLOAT] column keeps of an optional float. *)
Definition colonne_float (o : option float) : option float :=
  match o with
  | Some x => sqlite_float x
  | None => None
  end.

(** The [Bien] built from the parsed form, with the id the database
    gives it, as it is read back once stored. *)
Definition creer_bien (id : Z) (data : BienData.t) : Bien.t :=
  Bien.mk id (BienData.nom data) (BienData.type_bien data)
    (BienData.adresse data) (colonne_float (BienData.surface data))
    (BienData.description data)
    (colonne_float (BienData.charges_mensuelles data))
    (BienData.date_acquisition data).

(** The [Locataire] built from the parsed form, as it is read back once
    stored; [None] when a column that is not nullable would be left
    empty, which makes the commit raise: a field that is [None], or a
    rent that is [nan]. The parser never leaves the payment day out; [1]
    is the column's default. *)
Definition creer_locataire (id : Z) (actif : bool) (data : LocataireData.t)
  : option Locataire.t :=
  match LocataireData.bien_id data, LocataireData.date_debut_bail data,
        LocataireData.loyer_mensuel data with
  | Some bien_id, Some debut, Some loyer =>
      match sqlite_float loyer with
      | Some loyer_lu =>
          Some (Locataire.mk id (LocataireData.nom data)
                  (LocataireData.prenom data) (LocataireData.email data)
                  (LocataireData.telephone data)
                  (LocataireData.date_naissance data)
                  (LocataireData.raison_sociale data)
                  (LocataireData.siret data) (LocataireData.dirigeant data)
                  bien_id debut (LocataireData.date_fin_bail data) loyer_lu
                  (colonne_float (LocataireData.depot_garantie data))
                  (match LocataireData.jour_paiement data with
                   | Some j => j
                   | None => 1
                   end)
                  actif)
      | None => None
      end
  | _, _, _ => None
  end.

(** The [Paiement] built from the parsed form; [None] as for a
    tenant. *)
Definition creer_paiement (id : Z) (quittance_generee : bool)
  (data : PaiementData.t) : option Paiement.t :=
  match PaiementData.locataire_id data, PaiementData.montant data,
        PaiementData.date_paiement data with
  | Some locataire_id, Some montant, Some date_paiement =>
      match sqlite_float montant with
      | Some montant_lu =>
          Some (Paiement.mk id locataire_id montant_lu date_paiement
                  (PaiementData.mois_concerne data)
                  (PaiementData.categorie data)
                  (PaiementData.mode_paiement data)
                  (PaiementData.commentaire data) quittance_generee)
      | None => None
      end
  | _, _, _ => None
  end.

Definition avec_biens (db : Base) (l : list Bien.t) : Base :=
  mkBase l (locataires db) (paiements db) (bailleurs db).

Definition avec_locataires (db : Base) (l : list Locataire.t) : Base :=
  mkBase (biens db) l (paiements db) (bailleurs db).

Definition avec_paiements (db : Base) (l : list Paiement.t) : Base :=
  mkBase (biens db) (locataires db) l (bailleurs db).

Definition avec_bailleurs (db : Base) (l : list Bailleur.t) : Base :=
  mkBase (biens db) (locataires db) (paiements db) l.

(** [db.session.delete(bien)] with the cascade of the relationships: the
    tenants of the property go with it, and their payments with them. *)
Definition delete_bien (db : Base) (bien : Bien.t) : Base :=
  mkBase
    (supprimer_premier (fun b => Bien.id b =? Bien.id bien) (biens db))
    (filter (fun l => negb (Locataire.bien_id l =? Bien.id bien))
            (locataires db))
    (filter (fun p =>
               negb (existsb
                       (fun l => Paiement.locataire_id p =? Locataire.id l)
                       (Bien_locataires db bien)))
            (paiements db))
    (bailleurs db).

(** [db.session.delete(locataire)], with the payments of the tenant. *)
Definition delete_locataire (db : Base) (loc : Locataire.t) : Base :=
  mkBase
    (biens db)
    (supprimer_premier (fun l => Locataire.id l =? Locataire.id loc)
                       (locataires db))
    (filter (fun p => negb (Paiement.locataire_id p =? Locataire.id loc))
            (paiements db))
    (bailleurs db).

Definition delete_paiement (db : Base) (p : Paiement.t) : Base :=
  avec_paiements db
    (supprimer_premier (fun q => Paiement.id q =? Paiement.id p)
                       (paiements db)).

(** [Bien.query.get_or_404], [Paiement.query.get_or_404] *)
Definition Bien_query_get_or_404 (db : Base) (id : Z) : option Bien.t :=
  Bien_query_get db id.

Definition Paiement_query_get_or_404 (db : Base) (id : Z)
  : option Paiement.t :=
  find (fun p => Paiement.id p =? id) (paiements db).

Definition flash_danger (message : string)
  : option (categorie_flash * string) :=
  Some (danger, message).

(** The checks that [ajouter_bien] and [modifier_bien] make on the
    parsed form; [None] when the form passes. *)
Definition controles_du_bien (data : BienData.t) : option string :=
  if Str.falsy (BienData.nom data) then Some Flash.bien_nom_requis
  else if Str.falsy (BienData.adresse data)
  then Some Flash.bien_adresse_requise
  else if match BienData.charges_mensuelles data with
          | Some c => (c <? 0)%float
          | None => false
          end
  then Some Flash.bien_charges_negatives
  else None.

Section Handlers.

Variable py_float : string -> option float.

(** In each handler [commit_ok] tells whether the commit goes through
    (otherwise it raises and the session is rolled back), and [id_frais]
    is the id the database gives to a row that is added. *)

Definition ajouter_bien (db : Base) (m : methode) (form : Form)
  (id_frais : Z) (commit_ok : bool) : Base * issue :=
  match m with
  | GET => (db, Page "biens/formulaire.html" None)
  | POST =>
      let data := _parse_bien_form py_float form in
      match controles_du_bien data with
      | Some message =>
          (db, Page "biens/formulaire.html" (flash_danger message))
      | None =>
          if commit_ok
          then (avec_biens db (biens db ++ [creer_bien id_frais data]),
                Redirection "liste_biens" (success, Flash.bien_ajoute))
          else (db, Page "biens/formulaire.html"
                      (flash_danger Flash.erreur_enregistrement))
      end
  end.

Definition modifier_bien (db : Base) (id : Z) (m : methode) (form : Form)
  (commit_ok : bool) : Base * issue :=
  match Bien_query_get_or_404 db id with
  | None => (db, Introuvable)
  | Some bien =>
      match m with
      | GET => (db, Page "biens/formulaire.html" None)
      | POST =>
          let data := _parse_bien_form py_float form in
          match controles_du_bien data with
          | Some message =>
              (db, Page "biens/formulaire.html" (flash_danger message))
          | None =>
              if commit_ok
              then (avec_biens db
                      (modifier_premier
                         (fun b => Bien.id b =? id)
                         (fun b => creer_bien (Bien.id b) data)
                         (biens db)),
                    Redirection "detail_bien"
                      (success, Flash.bien_modifie))
              else (db, Page "biens/formulaire.html"
                          (flash_danger Flash.erreur_enregistrement))
          end
      end
  end.

Definition supprimer_bien (db : Base) (id : Z) (commit_ok : bool)
  : Base * issue :=
  match Bien_query_get_or_404 db id with
  | None => (db, Introuvable)
  | Some bien =>
      if commit_ok
      then (delete_bien db bien,
            Redirection "liste_biens" (success, Flash.bien_supprime))
      else (db, Redirection "liste_biens"
                  (danger, Flash.bien_suppression_erreur))
  end.

Definition ajouter_locataire (db : Base) (m : methode) (form : Form)
  (id_frais : Z) (commit_ok : bool) : Base * issue :=
  match m with
  | GET => (db, Page "locataires/formulaire.html" None)
  | POST =>
      let data := _parse_locataire_form py_float form in
      match _validate_locataire_data db data with
      | Some erreur =>
          (db, Page "locataires/formulaire.html" (flash_danger erreur))
      | None =>
          match creer_locataire id_frais true data with
          | Some locataire =>
              if commit_ok
              then (avec_locataires db (locataires db ++ [locataire]),
                    Redirection "liste_locataires"
                      (success, Flash.locataire_ajoute))
              else (db, Page "locataires/formulaire.html"
                          (flash_danger Flash.erreur_enregistrement))
          | None =>
              (db, Page "locataires/formulaire.html"
                     (flash_danger Flash.erreur_enregistrement))
          end
      end
  end.

Definition modifier_locataire (db : Base) (id : Z) (m : methode)
  (form : Form) (commit_ok : bool) : Base * issue :=
  match Locataire_query_get_or_404 db id with
  | None => (db, Introuvable)
  | Some locataire =>
      match m with
      | GET => (db, Page "locataires/formulaire.html" None)
      | POST =>
          let data := _parse_locataire_form py_float form in
          match _validate_locataire_data db data with
          | Some erreur =>
              (db, Page "locataires/formulaire.html" (flash_danger erreur))
          | None =>
              match creer_locataire id (mem String.eqb "actif" form) data
              with
              | Some modifie =>
                  if commit_ok
                  then (avec_locataires db
                          (modifier_premier
                             (fun l => Locataire.id l =? id)
                             (fun _ => modifie) (locataires db)),
                        Redirection "detail_locataire"
                          (success, Flash.locataire_modifie))
                  else (db, Page "locataires/formulaire.html"
                              (flash_danger Flash.erreur_enregistrement))
              | None =>
                  (db, Page "locataires/formulaire.html"
                         (flash_danger Flash.erreur_enregistrement))
              end
          end
      end
  end.

Definition supprimer_locataire (db : Base) (id : Z) (commit_ok : bool)
  : Base * issue :=
  match Locataire_query_get_or_404 db id with
  | None => (db, Introuvable)
  | Some locataire =>
      if commit_ok
      then (delete_locataire db locataire,
            Redirection "liste_locataires"
              (success, Flash.locataire_supprime))
      else (db, Redirection "liste_locataires"
                  (danger, Flash.locataire_suppression_erreur))
  end.

Definition ajouter_paiement (db : Base) (m : methode) (form : Form)
  (id_frais : Z) (commit_ok : bool) : Base * issue :=
  match m with
  | GET => (db, Page "paiements/formulaire.html" None)
  | POST =>
      let data := _parse_paiement_form py_float form in
      match _validate_paiement_data data with
      | Some erreur =>
          (db, Page "paiements/formulaire.html" (flash_danger erreur))
      | None =>
          match creer_paiement id_frais false data with
          | Some paiement =>
              if commit_ok
              then (avec_paiements db (paiements db ++ [paiement]),
                    Redirection "liste_paiements"
                      (success, Flash.paiement_enregistre))
              else (db, Page "paiements/formulaire.html"
                          (flash_danger Flash.erreur_enregistrement))
          | None =>
              (db, Page "paiements/formulaire.html"
                     (flash_danger Flash.erreur_enregistrement))
          end
      end
  end.

Definition modifier_paiement (db : Base) (id : Z) (m : methode)
  (form : Form) (commit_ok : bool) : Base * issue :=
  match Paiement_query_get_or_404 db id with
  | None => (db, Introuvable)
  | Some paiement =>
      match m with
      | GET => (db, Page "paiements/formulaire.html" None)
      | POST =>
          let data := _parse_paiement_form py_float form in
          match _validate_paiement_data data with
          | Some erreur =>
              (db, Page "paiements/formulaire.html" (flash_danger erreur))
          | None =>
              match creer_paiement id
                      (Paiement.quittance_generee paiement) data with
              | Some modifie =>
                  if commit_ok
                  then (avec_paiements db
                          (modifier_premier
                             (fun p => Paiement.id p =? id)
                             (fun _ => modifie) (paiements db)),
                        Redirection "liste_paiements"
                          (success, Flash.paiement_modifie))
                  else (db, Page "paiements/formulaire.html"
                              (flash_danger Flash.erreur_enregistrement))
              | None =>
                  (db, Page "paiements/formulaire.html"
                         (flash_danger Flash.erreur_enregistrement))
              end
          end
      end
  end.

Definition supprimer_paiement (db : Base) (id : Z) (commit_ok : bool)
  : Base * issue :=
  match Paiement_query_get_or_404 db id with
  | None => (db, Introuvable)
  | Some paiement =>
      if commit_ok
      then (delete_paiement db paiement,
            Redirection "liste_paiements"
              (success, Flash.paiement_supprime))
      else (db, Redirection "liste_paiements"
                  (danger, Flash.paiement_suppression_erreur))
  end.

End Handlers.

(** The landlord made of the fields of the settings form. *)
Definition bailleur_du_formulaire (id : Z) (nom adresse : string)
  (form : Form) : Bailleur.t :=
  Bailleur.mk id nom adresse
    (form_get_or form "code_postal" "") (form_get_or form "ville" "")
    (form_get_or form "telephone" "") (form_get_or form "email" "")
    (form_get_or form "siret" "").

Definition parametres (db : Base) (m : methode) (form : Form)
  (id_frais : Z) (commit_ok : bool) : Base * issue :=
  let bailleur := hd_error (bailleurs db) in
  match m with
  | GET => (db, Page "parametres.html" None)
  | POST =>
      let nom := py_strip (form_get_or form "nom" "") in
      let adresse := py_strip (form_get_or form "adresse" "") in
      if Str.falsy nom || Str.falsy adresse
      then (db, Page "parametres.html" (flash_danger Flash.bailleur_requis))
      else
        let lignes :=
          match bailleurs db with
          | b :: reste =>
              bailleur_du_formulaire (Bailleur.id b) nom adresse form
              :: reste
          | [] => [bailleur_du_formulaire id_frais nom adresse form]
          end in
        if commit_ok
        then (avec_bailleurs db lignes,
              Redirection "parametres"
                (success, Flash.parametres_enregistres))
        else (db, Page "parametres.html"
                    (flash_danger Flash.parametres_erreur))
  end.

(** ** Derived names *)

(** The text an f-string prints for an optional text. *)
Definition str_ou_None (o : option string) : string :=
  match o with Some s => s | None => "None" end.

(** [Locataire.nom_complet] *)
Definition nom_complet (l : Locataire.t) : string :=
  if Str.falsy_opt (Locataire.raison_sociale l)
  then str_ou_None (Locataire.prenom l) ++ " " ++ Locataire.nom l
  else str_ou_None (Locataire.raison_sociale l).

(** [Locataire.est_professionnel] *)
Definition est_professionnel (l : Locataire.t) : bool :=
  negb (Str.falsy_opt (Locataire.raison_sociale l)).
Definition blanc (s : string) : bool := Str.all_chars py_isspace s.

(** The text of a field of the form, empty when the field is missing. *)
Definition champ (form : Form) (key : string) : string :=
  form_get_or form key "".

(** ** Sample forms *)

(** A reading of the text [nan] and of the whole numbers below 2^53 in
    absolute value, used in the examples below. *)
Definition lire_nombre (s : string) : option float :=
  if String.eqb s "nan" then Some PrimFloat.nan
  else match Str.int s with
       | Some z =>
           if Z.abs z <? 2 ^ 53
           then Some (if z <? 0
                      then (- PrimFloat.of_uint63 (Uint63.of_Z (- z)))%float
                      else PrimFloat.of_uint63 (Uint63.of_Z z))
           else None
       | None => None
       end.


Definition formulaire_locataire_blanc : Form :=
  [ ("nom", "   "); ("prenom", "Claire"); ("bien_id", "1");
    ("date_debut_bail", "2024-01-01"); ("loyer_mensuel", "800") ].

Definition formulaire_locataire_ok : Form :=
  [ ("nom", " Martin "); ("prenom", "Claire"); ("bien_id", "1");
    ("date_debut_bail", "2024-01-01"); ("loyer_mensuel", "800");
    ("jour_paiement", "abc") ].

Definition formulaire_paiement_ok : Form :=
  [ ("locataire_id", "3"); ("montant", "1700");
    ("date_paiement", "2024-03-20"); ("mois_concerne", "2024-03") ].

Definition formulaire_bien_ok : Form :=
  [ ("nom", " Studio "); ("type_bien", "appartement");
    ("adresse", "3 rue Haute") ].

Definition formulaire_bailleur_ok : Form :=
  [ ("nom", "SCI Exemple"); ("adresse", "2 place Neuve");
    ("code_postal", "75002"); ("ville", "Paris") ].

(** ** Invariants of the stored rows *)

(** What the tenant validator guarantees of a tenant row. *)
Definition locataire_conforme (db : Base) (l : Locataire.t) : Prop :=
  (exists bien,
      Bien_query_get db (Locataire.bien_id l) = Some bien
      /\ (if String.eqb (Bien.type_bien bien) "local_commercial"
          then Str.falsy_opt (Locataire.raison_sociale l) = false
               /\ exists s, Locataire.siret l = Some s
                            /\ siret_bien_forme s = true
          else Str.falsy (Locataire.nom l) = false
               /\ Str.falsy_opt (Locataire.prenom l) = false))
  /\ (0 <=? Locataire.loyer_mensuel l)%float = true
  /\ (forall g, Locataire.depot_garantie l = Some g ->
                (0 <=? g)%float = true)
  /\ 1 <= Locataire.jour_paiement l <= 28
  /\ (forall fin, Locataire.date_fin_bail l = Some fin ->
                  Date.ltb fin (Locataire.date_debut_bail l) = false).

(** What the payment validator guarantees of a payment row. *)
Definition paiement_conforme (p : Paiement.t) : Prop :=
  Paiement.locataire_id p <> 0
  /\ (0 <? Paiement.montant p)%float = true
  /\ Paiement.mois_concerne p <> "".

(** What the checks on a property guarantee of a property row. *)
Definition bien_conforme (b : Bien.t) : Prop :=
  Bien.nom b <> "" /\ Bien.adresse b <> ""
  /\ (forall c, Bien.charges_mensuelles b = Some c ->
                (0 <=? c)%float = true).

(** Every tenant belongs to a property of the table and every payment
    to a tenant of the table. *)
Definition integrite (db : Base) : Prop :=
  (forall l, In l (locataires db) ->
             exists b, In b (biens db) /\ Bien.id b = Locataire.bien_id l)
  /\ (forall p, In p (paiements db) ->
                exists l, In l (locataires db)
                          /\ Locataire.id l = Paiement.locataire_id p).


(** A tenant form whose rent field holds the text [nan]. *)
Definition formulaire_locataire_nan : Form :=
  [ ("nom", "Martin"); ("prenom", "Claire"); ("bien_id", "1");
    ("date_debut_bail", "2024-01-01"); ("loyer_mensuel", "nan") ].

(** A payment form whose amount field holds the text [nan]. *)
Definition formulaire_paiement_nan : Form :=
  [ ("locataire_id", "3"); ("montant", "nan");
    ("date_paiement", "2024-03-20"); ("mois_concerne", "2024-03") ].

(** A property form whose charges field holds the text [nan]. *)
Definition formulaire_bien_nan : Form :=
  [ ("nom", "Studio"); ("type_bien", "appartement");
    ("adresse", "3 rue Haute"); ("charges_mensuelles", "nan") ].

(** A schema whose tenant table dates from before the business
    columns, and already has the SIRET. *)
Definition schema_ancien : Schema :=
  [ ("bien", [("id", "INTEGER"); ("nom", "VARCHAR(100)")]);
    ("locataire",
     [("id", "INTEGER"); ("nom", "VARCHAR(100)"); ("siret", "VARCHAR(14)")]) ].

(** The form of Claire Martin saved again without the field [actif]. *)
Definition formulaire_locataire_inactif : Form :=
  [ ("nom", "Martin"); ("prenom", "Claire"); ("bien_id", "1");
    ("date_debut_bail", "2023-09-01"); ("loyer_mensuel", "800");
    ("jour_paiement", "5") ].

(** * Properties *)

(** ** Comparisons of amounts *)

Lemma Prim2SF_zero : Prim2SF 0%float = S754_zero false.
Proof. reflexivity. Qed.

Lemma est_nombre_Prim2SF (x : float) :
  est_nombre x -> Prim2SF x <> S754_nan.
Proof.
  unfold est_nombre, PrimFloat.is_nan. rewrite FloatAxioms.eqb_spec.
  intros H E. rewrite E in H. discriminate H.
Qed.

(** On a number, [0 <= x] is the negation of [x < 0]. *)
Lemma leb_zero_negb_ltb (x : float) :
  est_nombre x -> (0 <=? x)%float = negb (x <? 0)%float.
Proof.
  intro H. apply est_nombre_Prim2SF in H.
  rewrite leb_spec, ltb_spec, Prim2SF_zero.
  destruct (Prim2SF x) as [s|s| |s m e]; try congruence;
    destruct s; reflexivity.
Qed.

(** On a number, [0 < x] is the negation of [x <= 0]. *)
Lemma ltb_zero_negb_leb (x : float) :
  est_nombre x -> (0 <? x)%float = negb (x <=? 0)%float.
Proof.
  intro H. apply est_nombre_Prim2SF in H.
  rewrite leb_spec, ltb_spec, Prim2SF_zero.
  destruct (Prim2SF x) as [s|s| |s m e]; try congruence;
    destruct s; reflexivity.
Qed.

Lemma leb_zero_nombre (x : float) : (0 <=? x)%float = true -> est_nombre x.
Proof.
  unfold est_nombre, PrimFloat.is_nan.
  rewrite leb_spec, FloatAxioms.eqb_spec, Prim2SF_zero.
  destruct (Prim2SF x) as [s|s| |s m e]; try discriminate;
    intros _; destruct s; try reflexivity;
    unfold SFeqb, SFcompare; cbn;
    now rewrite Z.compare_refl, Pos.compare_cont_refl.
Qed.

Lemma ltb_zero_nombre (x : float) : (0 <? x)%float = true -> est_nombre x.
Proof.
  unfold est_nombre, PrimFloat.is_nan.
  rewrite ltb_spec, FloatAxioms.eqb_spec, Prim2SF_zero.
  destruct (Prim2SF x) as [s|s| |s m e]; try discriminate;
    intros _; destruct s; try reflexivity;
    unfold SFeqb, SFcompare; cbn;
    now rewrite Z.compare_refl, Pos.compare_cont_refl.
Qed.

Lemma leb_zero_pas_negatif (x : float) :
  (0 <=? x)%float = true -> (x <? 0)%float = false.
Proof.
  intro H. pose proof (leb_zero_nombre x H) as Hn.
  rewrite (leb_zero_negb_ltb x Hn) in H.
  now destruct (x <? 0)%float.
Qed.

Lemma ltb_zero_pas_negatif (x : float) :
  (0 <? x)%float = true -> (x <=? 0)%float = false.
Proof.
  intro H. pose proof (ltb_zero_nombre x H) as Hn.
  rewrite (ltb_zero_negb_leb x Hn) in H.
  now destruct (x <=? 0)%float.
Qed.

(** A zero of either sign is not strictly positive. *)
Lemma eqb_zero_leb (x : float) :
  (x =? 0)%float = true -> (x <=? 0)%float = true.
Proof.
  rewrite leb_spec, FloatAxioms.eqb_spec, Prim2SF_zero.
  destruct (Prim2SF x) as [s|s| |s m e]; try discriminate;
    destruct s; try discriminate; reflexivity.
Qed.

Lemma ou_zero_nombre (x : float) : est_nombre x -> est_nombre (ou_zero x).
Proof.
  unfold ou_zero. intro H. now destruct (x =? 0)%float.
Qed.

Lemma ou_zero_positif (x : float) :
  (0 <=? x)%float = true -> (0 <=? ou_zero x)%float = true.
Proof.
  unfold ou_zero. intro H. now destruct (x =? 0)%float.
Qed.

Lemma ou_zero_strict (x : float) :
  (0 <? x)%float = true -> ou_zero x = x.
Proof.
  unfold ou_zero. intro H. destruct (x =? 0)%float eqn:E; [|reflexivity].
  apply eqb_zero_leb in E. apply ltb_zero_pas_negatif in H. congruence.
Qed.

(** What is read back from a [FLOAT] column is a number, and it is not
    negative when what was written was not. *)
Lemma sqlite_float_Some (x y : float) :
  sqlite_float x = Some y ->
  est_nombre x /\ y = ou_zero x /\ est_nombre y
  /\ ((x <? 0)%float = false -> (0 <=? y)%float = true)
  /\ ((x <=? 0)%float = false -> y = x /\ (0 <? y)%float = true).
Proof.
  unfold sqlite_float. destruct (PrimFloat.is_nan x) eqn:E; [discriminate|].
  intro H. injection H as <-.
  split; [exact E|]. split; [reflexivity|].
  split; [now apply ou_zero_nombre|].
  split.
  - intro Hn. apply ou_zero_positif.
    rewrite (leb_zero_negb_ltb x E), Hn. reflexivity.
  - intro Hn.
    assert (Hp : (0 <? x)%float = true)
      by (rewrite (ltb_zero_negb_leb x E), Hn; reflexivity).
    rewrite (ou_zero_strict x Hp). now split.
Qed.

Lemma sqlite_float_None (x : float) :
  sqlite_float x = None <-> PrimFloat.is_nan x = true.
Proof.
  unfold sqlite_float. destruct (PrimFloat.is_nan x); split; congruence.
Qed.

(** ** First violated rule *)

Section ReglesFacts.

Variable A : Type.

Lemma premiere_violation_None (regles : list (regle A)) (data : A) :
  premiere_violation regles data = None <-> toutes_respectees regles data.
Proof.
  unfold toutes_respectees.
  induction regles as [|r suite IH]; simpl.
  - split; [constructor | reflexivity].
  - destruct (respecte r data) eqn:E.
    + rewrite IH. split; intro H.
      * constructor; assumption.
      * inversion H; assumption.
    + split; [discriminate|].
      intro H. inversion H; congruence.
Qed.

Lemma premiere_violation_earliest (avant : list (regle A)) r apres (data : A) :
  toutes_respectees avant data ->
  respecte r data = false ->
  premiere_violation (avant ++ r :: apres) data = Some (message r).
Proof.
  unfold toutes_respectees.
  induction avant as [|r0 avant IH]; simpl; intros Hav Hr.
  - now rewrite Hr.
  - inversion Hav as [|? ? H0 Hrest]; subst.
    rewrite H0. now apply IH.
Qed.

Lemma premiere_violation_app (l1 l2 : list (regle A)) (data : A) :
  premiere_violation (l1 ++ l2) data
  = match premiere_violation l1 data with
    | Some m => Some m
    | None => premiere_violation l2 data
    end.
Proof.
  induction l1 as [|r l1 IH]; simpl; [reflexivity|].
  now destruct (respecte r data).
Qed.

End ReglesFacts.

(** ** Tenant validation *)

Local Arguments Str.len : simpl never.
Local Arguments Str.isdigit : simpl never.
Local Arguments controles_du_bail : simpl never.

Lemma jour_hors_bornes (j : Z) :
  (j <? 1) || (j >? 28) = negb ((1 <=? j) && (j <=? 28)).
Proof.
  destruct (Z.ltb_spec j 1), (Z.leb_spec 1 j), (Z.leb_spec j 28);
    rewrite Z.gtb_ltb; destruct (Z.ltb_spec 28 j); simpl; try reflexivity; lia.
Qed.

(** On a form whose amounts are numbers the lease checks are the walk
    over the lease rules. *)
Lemma controles_du_bail_regles (data : LocataireData.t) :
  (forall l, LocataireData.loyer_mensuel data = Some l -> est_nombre l) ->
  (forall g, LocataireData.depot_garantie data = Some g -> est_nombre g) ->
  controles_du_bail data = premiere_violation ReglesLocataire.bail data.
Proof.
  intros Hl Hg.
  unfold controles_du_bail, ReglesLocataire.bail. simpl.
  destruct (LocataireData.date_debut_bail data) as [debut|]; simpl;
    [|reflexivity].
  destruct (LocataireData.loyer_mensuel data) as [l|]; simpl;
    [|reflexivity].
  rewrite (leb_zero_negb_ltb l (Hl l eq_refl)).
  destruct (l <? 0)%float; simpl; [reflexivity|].
  destruct (LocataireData.depot_garantie data) as [g|]; simpl.
  - rewrite (leb_zero_negb_ltb g (Hg g eq_refl)).
    destruct (g <? 0)%float; simpl; [reflexivity|].
    destruct (LocataireData.jour_paiement data) as [j|]; simpl.
    + rewrite jour_hors_bornes.
      destruct ((1 <=? j) && (j <=? 28)); simpl; [|reflexivity].
      destruct (LocataireData.date_fin_bail data) as [fin|]; simpl;
        [destruct (Date.ltb fin debut)|]; reflexivity.
    + destruct (LocataireData.date_fin_bail data) as [fin|]; simpl;
        [destruct (Date.ltb fin debut)|]; reflexivity.
  - destruct (LocataireData.jour_paiement data) as [j|]; simpl.
    + rewrite jour_hors_bornes.
      destruct ((1 <=? j) && (j <=? 28)); simpl; [|reflexivity].
      destruct (LocataireData.date_fin_bail data) as [fin|]; simpl;
        [destruct (Date.ltb fin debut)|]; reflexivity.
    + destruct (LocataireData.date_fin_bail data) as [fin|]; simpl;
        [destruct (Date.ltb fin debut)|]; reflexivity.
Qed.

(** Whatever the amounts, a form that respects the lease rules passes
    the lease checks. *)
Lemma controles_du_bail_acceptes_par_les_regles (data : LocataireData.t) :
  toutes_respectees ReglesLocataire.bail data ->
  controles_du_bail data = None.
Proof.
  intro H.
  assert (Hl : forall l, LocataireData.loyer_mensuel data = Some l ->
                         est_nombre l).
  { intros l El. unfold toutes_respectees, ReglesLocataire.bail in H.
    inversion H as [|? ? _ H1]; subst. inversion H1 as [|? ? H2 _]; subst.
    cbn [respecte ReglesLocataire.loyer_present_et_positif] in H2.
    rewrite El in H2. now apply leb_zero_nombre. }
  assert (Hg : forall g, LocataireData.depot_garantie data = Some g ->
                         est_nombre g).
  { intros g Eg. unfold toutes_respectees, ReglesLocataire.bail in H.
    inversion H as [|? ? _ H1]; subst. inversion H1 as [|? ? _ H2]; subst.
    inversion H2 as [|? ? H3 _]; subst.
    cbn [respecte ReglesLocataire.depot_positif] in H3.
    rewrite Eg in H3. now apply leb_zero_nombre. }
  rewrite (controles_du_bail_regles data Hl Hg).
  now apply premiere_violation_None.
Qed.

Lemma siret_mal_forme_negb (s : string) :
  siret_mal_forme s = negb (siret_bien_forme s).
Proof.
  unfold siret_mal_forme, siret_bien_forme. now rewrite negb_andb.
Qed.

Lemma all_chars_forall (f : ascii -> bool) (s : string) :
  Str.all_chars f s = true
  <-> (forall c, In c (list_ascii_of_string s) -> f c = true).
Proof.
  induction s as [|a s IH]; simpl.
  - split; [intros _ c []|reflexivity].
  - rewrite andb_true_iff, IH. split.
    + intros [Ha Hs] c [<-|Hc]; auto.
    + intro H. split; [apply H; now left|].
      intros c Hc. apply H. now right.
Qed.

Lemma isdigit_char_ascii (c : ascii) :
  est_ascii c = true -> Str.isdigit_char c = Str.is_decimal c.
Proof.
  unfold est_ascii, Str.isdigit_char, Str.is_decimal. intro H.
  apply N.ltb_lt in H.
  destruct (N.eqb_spec (Str.code c) 178); [lia|].
  destruct (N.eqb_spec (Str.code c) 179); [lia|].
  destruct (N.eqb_spec (Str.code c) 185); [lia|].
  now rewrite !orb_false_r.
Qed.

Lemma all_chars_isdigit_ascii (s : string) :
  Str.all_chars est_ascii s = true ->
  Str.all_chars Str.isdigit_char s = Str.all_chars Str.is_decimal s.
Proof.
  induction s as [|c s IH]; simpl; [reflexivity|].
  intro H. apply andb_true_iff in H. destruct H as [Hc Hs].
  now rewrite (isdigit_char_ascii c Hc), (IH Hs).
Qed.

(** On the ASCII texts the format check of the validator asks for 14
    digits from 0 to 9. *)
Lemma siret_bien_forme_ascii (s : string) :
  Str.all_chars est_ascii s = true ->
  siret_bien_forme s = quatorze_chiffres s.
Proof.
  intro H. unfold siret_bien_forme, quatorze_chiffres, Str.isdigit.
  destruct s as [|c s]; [reflexivity|].
  now rewrite (all_chars_isdigit_ascii _ H).
Qed.

Lemma quatorze_chiffres_spec (s : string) :
  quatorze_chiffres s = true
  <-> String.length s = 14%nat
      /\ (forall c, In c (list_ascii_of_string s) ->
                    Str.is_decimal c = true).
Proof.
  unfold quatorze_chiffres, Str.len.
  rewrite andb_true_iff, Z.eqb_eq, all_chars_forall.
  split; intros [Hl Hd]; (split; [lia|exact Hd]).
Qed.

(** Once the property is resolved, the validator goes through the
    checks of the kind of tenant, then through the lease checks. *)
Lemma validate_locataire_code db data bien_id bien :
  LocataireData.bien_id data = Some bien_id ->
  bien_id <> 0 ->
  Bien_query_get db bien_id = Some bien ->
  _validate_locataire_data db data
  = if String.eqb (Bien.type_bien bien) "local_commercial"
    then if Str.falsy_opt (LocataireData.raison_sociale data)
         then Some Msg.raison_sociale_requise
         else if Str.falsy_opt (LocataireData.siret data)
         then Some Msg.siret_requis
         else match LocataireData.siret data with
              | Some siret =>
                  if siret_bien_forme siret then controles_du_bail data
                  else Some Msg.siret_format
              | None => Some Msg.siret_requis
              end
    else if Str.falsy (LocataireData.nom data)
            || Str.falsy_opt (LocataireData.prenom data)
         then Some Msg.nom_prenom_requis
         else controles_du_bail data.
Proof.
  intros Hid Hnz Hget. unfold _validate_locataire_data.
  rewrite Hid. apply Z.eqb_neq in Hnz. rewrite Hnz, Hget.
  destruct (String.eqb (Bien.type_bien bien) "local_commercial");
    [|reflexivity].
  destruct (Str.falsy_opt (LocataireData.raison_sociale data));
    [reflexivity|].
  destruct (LocataireData.siret data) as [siret|]; [|reflexivity].
  cbn [Str.falsy_opt]. destruct (Str.falsy siret); [reflexivity|].
  rewrite siret_mal_forme_negb.
  now destruct (siret_bien_forme siret).
Qed.

(** Once the property is resolved, and on an ordinary form, the
    validator is the walk over the ordered rules of the property's
    type. *)
Lemma validate_locataire_resolu db data bien_id bien :
  LocataireData.bien_id data = Some bien_id ->
  bien_id <> 0 ->
  Bien_query_get db bien_id = Some bien ->
  formulaire_ordinaire data ->
  _validate_locataire_data db data
  = premiere_violation (ReglesLocataire.pour_type (Bien.type_bien bien)) data.
Proof.
  intros Hid Hnz Hget (Hl & Hg & Hs).
  rewrite (validate_locataire_code db data bien_id bien Hid Hnz Hget).
  unfold ReglesLocataire.pour_type.
  rewrite premiere_violation_app, <- (controles_du_bail_regles data Hl Hg).
  destruct (String.eqb (Bien.type_bien bien) "local_commercial").
  - cbn [premiere_violation ReglesLocataire.professionnel respecte message
         ReglesLocataire.raison_sociale_non_vide
         ReglesLocataire.siret_non_vide ReglesLocataire.siret_14_chiffres].
    destruct (Str.falsy_opt (LocataireData.raison_sociale data));
      [reflexivity|].
    destruct (LocataireData.siret data) as [siret|]; [|reflexivity].
    cbn [negb Str.falsy_opt].
    destruct (Str.falsy siret); [reflexivity|]. cbn [negb].
    rewrite (siret_bien_forme_ascii siret (Hs siret eq_refl)).
    now destruct (quatorze_chiffres siret).
  - cbn [premiere_violation ReglesLocataire.particulier respecte message
         ReglesLocataire.nom_et_prenom_non_vides].
    destruct (Str.falsy (LocataireData.nom data)); [reflexivity|].
    now destruct (Str.falsy_opt (LocataireData.prenom data)).
Qed.

(** C1. The rent rule of the specification (rent given and at least 0)
    does not hold of a form whose rent is [nan], and the walk over the
    rules answers it with the rent message; tenant validation accepts the
    form, because its test [rent < 0] is false on [nan] as is
    [0 <= rent]. *)
Theorem validate_locataire_accepts_nan_rent :
  _validate_locataire_data Demo.base formulaire_loyer_nan = None
  /\ respecte ReglesLocataire.loyer_present_et_positif formulaire_loyer_nan
     = false
  /\ premiere_violation
       (ReglesLocataire.pour_type (Bien.type_bien Demo.appartement))
       formulaire_loyer_nan
     = Some Msg.loyer_positif
  /\ Bien_query_get Demo.base 1 = Some Demo.appartement.
Proof. repeat split. Qed.

(** C9. For a commercial property the validator does not read the last
    name and the first name: replacing them leaves its result unchanged,
    and a form with a company name, a well-formed SIRET and lease fields
    that pass their rules is accepted, also with both names empty. *)
Theorem validate_locataire_commercial_ignores_names :
  forall db data bien_id bien s,
    LocataireData.bien_id data = Some bien_id ->
    bien_id <> 0 ->
    Bien_query_get db bien_id = Some bien ->
    Bien.type_bien bien = "local_commercial" ->
    (forall nom prenom,
        _validate_locataire_data db (avec_identite nom prenom data)
        = _validate_locataire_data db data)
    /\ (Str.falsy_opt (LocataireData.raison_sociale data) = false ->
        LocataireData.siret data = Some s ->
        siret_bien_forme s = true ->
        toutes_respectees ReglesLocataire.bail data ->
        _validate_locataire_data db data = None
        /\ _validate_locataire_data db (avec_identite "" None data) = None).
Proof.
  intros db data bien_id bien s Hid Hnz Hget Hty.
  assert (Hind : forall nom prenom,
             _validate_locataire_data db (avec_identite nom prenom data)
             = _validate_locataire_data db data).
  { intros nom prenom.
    unfold _validate_locataire_data. cbn [avec_identite LocataireData.bien_id].
    rewrite Hid. apply Z.eqb_neq in Hnz. rewrite Hnz, Hget, Hty.
    reflexivity. }
  split; [exact Hind|].
  intros Hrs Hs Hwf Hbail.
  assert (Hnone : _validate_locataire_data db data = None).
  { rewrite (validate_locataire_code db data bien_id bien Hid Hnz Hget).
    rewrite Hty, Hrs, Hs, Hwf. cbn [String.eqb Ascii.eqb Bool.eqb].
    destruct s; [discriminate Hwf|]. cbn [Str.falsy_opt Str.falsy].
    now apply controles_du_bail_acceptes_par_les_regles. }
  split; [exact Hnone|]. now rewrite Hind.
Qed.

Lemma validate_locataire_commercial_ignores_names_witness :
  _validate_locataire_data Demo.base Demo.formulaire_pro = None
  /\ _validate_locataire_data Demo.base
       (avec_identite "" None Demo.formulaire_pro) = None.
Proof.
  apply (proj2 (validate_locataire_commercial_ignores_names
                  Demo.base Demo.formulaire_pro 2 Demo.local
                  "12345678901234" eq_refl ltac:(discriminate) eq_refl
                  eq_refl)).
  - reflexivity.
  - reflexivity.
  - reflexivity.
  - repeat constructor.
Defined.

(** The two sample forms of the database pass their validators. *)
Example formulaires_acceptes :
  _validate_locataire_data Demo.base Demo.formulaire_particulier = None
  /\ _validate_paiement_data Demo.formulaire_paiement = None.
Proof. split; reflexivity. Qed.

(** ** SIRET *)

(** C8, as the code has it. For a tenant of commercial premises whose
    company name is not empty, a SIRET made of ASCII characters passes
    the SIRET checks exactly when it has 14 characters that are all
    digits from 0 to 9: validation then goes on to the lease checks, and
    accepts when the lease rules hold; any other such SIRET that is not
    empty is answered with the message asking for exactly 14 digits. *)
Theorem validate_locataire_siret_after_company_name :
  forall db data bien_id bien s,
    LocataireData.bien_id data = Some bien_id ->
    bien_id <> 0 ->
    Bien_query_get db bien_id = Some bien ->
    Bien.type_bien bien = "local_commercial" ->
    Str.falsy_opt (LocataireData.raison_sociale data) = false ->
    LocataireData.siret data = Some s ->
    s <> "" ->
    Str.all_chars est_ascii s = true ->
    (quatorze_chiffres s = true
     <-> String.length s = 14%nat
         /\ (forall c, In c (list_ascii_of_string s) ->
                       Str.is_decimal c = true))
    /\ (quatorze_chiffres s = true ->
        _validate_locataire_data db data = controles_du_bail data)
    /\ (quatorze_chiffres s = false ->
        _validate_locataire_data db data = Some Msg.siret_format)
    /\ (toutes_respectees ReglesLocataire.bail data ->
        (_validate_locataire_data db data = None
         <-> quatorze_chiffres s = true)).
Proof.
  intros db data bien_id bien s Hid Hnz Hget Hty Hrs Hs Hne Hascii.
  assert (Hcode : _validate_locataire_data db data
                  = if quatorze_chiffres s
                    then controles_du_bail data
                    else Some Msg.siret_format).
  { rewrite (validate_locataire_code db data bien_id bien Hid Hnz Hget).
    rewrite Hty, Hrs, Hs. cbn [String.eqb Ascii.eqb Bool.eqb].
    destruct s as [|c s]; [congruence|]. cbn [Str.falsy_opt Str.falsy].
    now rewrite (siret_bien_forme_ascii _ Hascii). }
  split; [apply quatorze_chiffres_spec|].
  split; [intro H; now rewrite Hcode, H|].
  split; [intro H; now rewrite Hcode, H|].
  intro Hbail. rewrite Hcode.
  destruct (quatorze_chiffres s).
  - split; [reflexivity|]. intros _.
    now apply controles_du_bail_acceptes_par_les_regles.
  - split; discriminate.
Qed.

Lemma validate_locataire_siret_after_company_name_witness :
  _validate_locataire_data Demo.base Demo.formulaire_pro = None
  <-> quatorze_chiffres "12345678901234" = true.
Proof.
  apply (proj2 (proj2 (proj2
    (validate_locataire_siret_after_company_name
       Demo.base Demo.formulaire_pro 2 Demo.local "12345678901234"
       eq_refl ltac:(discriminate) eq_refl eq_refl eq_refl eq_refl
       ltac:(discriminate) eq_refl)))).
  repeat constructor.
Defined.

(** [str.isdigit] also accepts the superscript digits: a SIRET of 13
    digits followed by a superscript two passes the validation. *)
Example siret_exposant_accepte :
  _validate_locataire_data Demo.base formulaire_siret_exposant = None.
Proof. reflexivity. Qed.

(** The SIRET sentence read on its own does not hold: without a company
    name the answer is the company-name message, whatever the SIRET. *)
Lemma siret_seul_decide_refuted : ~ siret_seul_decide.
Proof.
  intro H.
  destruct (H Demo.base formulaire_sans_raison 2 Demo.local "123"
              eq_refl ltac:(discriminate) eq_refl eq_refl eq_refl
              ltac:(discriminate)) as [_ Hbad].
  specialize (Hbad eq_refl).
  vm_compute in Hbad. discriminate Hbad.
Qed.

(** ** Payment validation *)

(** On a form whose amount is a number, payment validation is the walk
    over its four rules. *)
Lemma validate_paiement_regles (data : PaiementData.t) :
  paiement_ordinaire data ->
  _validate_paiement_data data
  = premiere_violation ReglesPaiement.toutes data.
Proof.
  intro Hm.
  unfold _validate_paiement_data, ReglesPaiement.toutes.
  cbn [premiere_violation respecte message ReglesPaiement.locataire_present
       ReglesPaiement.montant_strictement_positif
       ReglesPaiement.date_presente ReglesPaiement.mois_non_vide].
  destruct (falsy_int (PaiementData.locataire_id data)); [reflexivity|].
  cbn [negb].
  destruct (PaiementData.montant data) as [m|] eqn:Em; [|reflexivity].
  rewrite (ltb_zero_negb_leb m (Hm m Em)).
  destruct (m <=? 0)%float; [reflexivity|]. cbn [negb].
  destruct (PaiementData.date_paiement data); [|reflexivity].
  cbn [falsy_date].
  now destruct (Str.falsy (PaiementData.mois_concerne data)).
Qed.

(** C6. The amount rule of the specification (amount given and strictly
    positive) does not hold of a form whose amount is [nan], and the walk
    over the rules answers it with the amount message; payment
    validation accepts the form, because its test [amount <= 0] is false
    on [nan] as is [0 < amount]. *)
Theorem validate_paiement_accepts_nan_amount :
  _validate_paiement_data formulaire_montant_nan = None
  /\ respecte ReglesPaiement.montant_strictement_positif
       formulaire_montant_nan = false
  /\ premiere_violation ReglesPaiement.toutes formulaire_montant_nan
     = Some Msg.montant_positif.
Proof. repeat split. Qed.

(** ** Receipts: the month token *)

Lemma analyser_mois_Some (mois annee : string) (n : Z) :
  analyser_mois mois = Some (annee, n)
  <-> exists partie,
        Str.split "-"%char mois = [annee; partie]
        /\ Str.int annee <> None
        /\ Str.int partie = Some n
        /\ 1 <= n <= 12.
Proof.
  unfold analyser_mois.
  destruct (Str.split "-"%char mois) as [|a [|p [|x l]]].
  - split; [discriminate|]. intros (p & H & _). discriminate H.
  - split; [discriminate|]. intros (p & H & _). discriminate H.
  - destruct (Str.int p) as [m|] eqn:Ep.
    + destruct (Str.int a) as [y|] eqn:Ea.
      * destruct ((m <? 1) || (m >? 12)) eqn:Eb.
        -- split; [discriminate|].
           intros (p' & H & _ & Hp & Hn).
           injection H as -> ->. rewrite Ep in Hp. injection Hp as ->.
           apply orb_true_iff in Eb.
           rewrite Z.ltb_lt, Z.gtb_ltb, Z.ltb_lt in Eb.
           lia.
        -- apply orb_false_iff in Eb.
           rewrite Z.ltb_ge, Z.gtb_ltb, Z.ltb_ge in Eb.
           split.
           ++ intro H. injection H as -> ->. exists p.
              rewrite Ea. repeat split; try lia; [discriminate|assumption].
           ++ intros (p' & H & _ & Hp & _).
              injection H as -> ->. rewrite Ep in Hp. now injection Hp as ->.
      * split; [discriminate|].
        intros (p' & H & Ha & _). injection H as -> ->. congruence.
    + split; [discriminate|].
      intros (p' & H & _ & Hp & _). injection H as -> ->. congruence.
  - split; [discriminate|]. intros (p' & H & _). discriminate H.
Qed.

Lemma analyser_mois_None (mois : string) :
  analyser_mois mois = None <-> ~ mois_bien_forme mois.
Proof.
  split.
  - intros Hnone (annee & partie & n & H).
    assert (Hs : analyser_mois mois = Some (annee, n))
      by (apply analyser_mois_Some; now exists partie).
    congruence.
  - intro Hnot. destruct (analyser_mois mois) as [[annee n]|] eqn:E;
      [|reflexivity].
    exfalso. apply Hnot. apply analyser_mois_Some in E.
    destruct E as (partie & H). now exists annee, partie, n.
Qed.

(** C3, as the code has it. The tenant is looked up first: an unknown id
    is answered 404 whatever the token. For a known tenant the answer is
    the month-format error exactly when the token is not two parts around
    one hyphen with an integer first and an integer from 1 to 12 second;
    otherwise the receipt carries the full month name found at the parsed
    month number and the first part as year text, so that "2024-03" gives
    "Mars" and "2024". *)
Theorem generer_quittance_month_format :
  forall db today locataire_id mois,
    (Locataire_query_get_or_404 db locataire_id = None ->
     generer_quittance db today locataire_id mois = NotFound404)
    /\ (forall locataire,
          Locataire_query_get_or_404 db locataire_id = Some locataire ->
          (generer_quittance db today locataire_id mois = erreur_de_format
           <-> ~ mois_bien_forme mois)
          /\ (forall annee partie n,
                Str.split "-"%char mois = [annee; partie] ->
                Str.int annee <> None ->
                Str.int partie = Some n ->
                1 <= n <= 12 ->
                exists vue,
                  generer_quittance db today locataire_id mois = Render vue
                  /\ Quittance.mois_nom vue = index_str MOIS_NOMS n
                  /\ Quittance.annee vue = annee
                  /\ Quittance.mois vue = mois
                  /\ Quittance.locataire vue = locataire)
          /\ (mois = "2024-03" ->
              exists vue,
                generer_quittance db today locataire_id mois = Render vue
                /\ Quittance.mois_nom vue = "Mars"
                /\ Quittance.annee vue = "2024")
          /\ (mois = "2024" \/ mois = "2024-13" ->
              generer_quittance db today locataire_id mois
              = erreur_de_format)).
Proof.
  intros db today locataire_id mois. split.
  - intro Hnone. unfold generer_quittance. now rewrite Hnone.
  - intros locataire Hloc.
    assert (Hok : forall annee n,
               analyser_mois mois = Some (annee, n) ->
               exists vue,
                 generer_quittance db today locataire_id mois = Render vue
                 /\ Quittance.mois_nom vue = index_str MOIS_NOMS n
                 /\ Quittance.annee vue = annee
                 /\ Quittance.mois vue = mois
                 /\ Quittance.locataire vue = locataire).
    { intros annee n Hparse. unfold generer_quittance.
      rewrite Hloc, Hparse. eexists. split; [reflexivity|].
      repeat split. }
    split; [|split; [|split]].
    + rewrite <- analyser_mois_None. unfold generer_quittance.
      rewrite Hloc. destruct (analyser_mois mois) as [[annee n]|].
      * split; discriminate.
      * split; reflexivity.
    + intros annee partie n Hsplit Ha Hp Hn. apply Hok.
      apply analyser_mois_Some. now exists partie.
    + intros ->. destruct (Hok "2024" 3 eq_refl) as (vue & H1 & H2 & H3 & _).
      exists vue. repeat split; assumption.
    + intros [-> | ->]; unfold generer_quittance; now rewrite Hloc.
Qed.

Lemma generer_quittance_month_format_witness :
  exists vue,
    generer_quittance Demo.base Demo.aujourd_hui 1 "2024-03" = Render vue
    /\ Quittance.mois_nom vue = "Mars"
    /\ Quittance.annee vue = "2024".
Proof.
  apply (proj1 (proj2 (proj2 (proj2
    (generer_quittance_month_format Demo.base Demo.aujourd_hui 1 "2024-03")
    Demo.claire eq_refl)))).
  reflexivity.
Defined.

(** The receipt sentence read for every tenant id does not hold: with no
    such tenant the malformed token "2024" is answered 404, not the
    format error. *)
Lemma format_seul_decide_refuted : ~ format_seul_decide.
Proof.
  intro H.
  destruct (H Demo.vide Demo.aujourd_hui 1 "2024") as [_ Hback].
  assert (Hmal : ~ mois_bien_forme "2024").
  { intros (annee & partie & n & Hsplit & _). discriminate Hsplit. }
  specialize (Hback Hmal). discriminate Hback.
Qed.

(** ** Sums *)

Lemma py_sum_snoc (l : list float) (x : float) :
  py_sum (l ++ [x]) = (py_sum l + x)%float.
Proof. unfold py_sum. now rewrite fold_left_app. Qed.

Lemma somme_montants_snoc (l : list Paiement.t) (p : Paiement.t) :
  somme_montants (l ++ [p])
  = (somme_montants l + Paiement.montant p)%float.
Proof. unfold somme_montants. rewrite map_app. apply py_sum_snoc. Qed.

Lemma filter_tous (A : Type) (garde : A -> bool) (lignes : list A) :
  Forall (fun x => garde x = true) lignes -> filter garde lignes = lignes.
Proof.
  intro H. induction H as [|x reste Hx _ IH]; simpl; [reflexivity|].
  now rewrite Hx, IH.
Qed.

Lemma pour_chaque_map (A B : Type) (f : A -> option B) (g : A -> B)
  (l : list A) :
  (forall a, In a l -> f a = Some (g a)) ->
  pour_chaque f l = Some (map g l).
Proof.
  induction l as [|a l IH]; intro H; simpl; [reflexivity|].
  rewrite (H a) by now left.
  rewrite IH; [reflexivity|]. intros b Hb. apply H. now right.
Qed.

(** ** Dictionaries *)

Section PyDictFacts.

Variables K V : Type.
Variable eqb : K -> K -> bool.
Hypothesis eqb_spec : forall a b, eqb a b = true <-> a = b.

Lemma eqb_refl_true (k : K) : eqb k k = true.
Proof. now apply eqb_spec. Qed.

Lemma eqb_neq_false (a b : K) : a <> b -> eqb a b = false.
Proof.
  intro H. destruct (eqb a b) eqn:E; [|reflexivity].
  apply eqb_spec in E. contradiction.
Qed.

Lemma get_set_same (k : K) (v : V) (d : dict K V) :
  get eqb k (set eqb k v d) = Some v.
Proof.
  induction d as [|[k' v'] d IH]; simpl.
  - now rewrite eqb_refl_true.
  - destruct (eqb k' k) eqn:E; simpl; now rewrite E.
Qed.

Lemma get_set_other (k k0 : K) (v : V) (d : dict K V) :
  k <> k0 -> get eqb k0 (set eqb k v d) = get eqb k0 d.
Proof.
  intro Hne. induction d as [|[k' v'] d IH]; simpl.
  - now rewrite (eqb_neq_false k k0 Hne).
  - destruct (eqb k' k) eqn:E; simpl.
    + apply eqb_spec in E. subst k'.
      now rewrite (eqb_neq_false k k0 Hne).
    + now rewrite IH.
Qed.

Lemma get_None_not_key (k : K) (d : dict K V) :
  get eqb k d = None <-> ~ In k (map fst d).
Proof.
  induction d as [|[k' v'] d IH]; simpl.
  - split; [intros _ []|reflexivity].
  - destruct (eqb k' k) eqn:E.
    + apply eqb_spec in E. split; [discriminate|]. intro H. exfalso. auto.
    + rewrite IH. split.
      * intros H [Heq|Hin]; [|auto].
        subst. rewrite eqb_refl_true in E. discriminate.
      * intros H Hin. apply H. now right.
Qed.

Lemma keys_set_present (k : K) (v : V) (d : dict K V) :
  In k (map fst d) -> map fst (set eqb k v d) = map fst d.
Proof.
  induction d as [|[k' v'] d IH]; simpl; [intros []|].
  intro Hin. destruct (eqb k' k) eqn:E; simpl; [reflexivity|].
  f_equal. apply IH. destruct Hin as [Heq|Hin]; [|assumption].
  subst. rewrite eqb_refl_true in E. discriminate.
Qed.

Lemma set_absent (k : K) (v : V) (d : dict K V) :
  ~ In k (map fst d) -> set eqb k v d = (d ++ [(k, v)])%list.
Proof.
  induction d as [|[k' v'] d IH]; simpl; [reflexivity|].
  intro Hnot. rewrite eqb_neq_false by (intro; subst; auto).
  f_equal. apply IH. auto.
Qed.

Lemma get_In (k : K) (v : V) (d : dict K V) :
  get eqb k d = Some v -> In (k, v) d.
Proof.
  induction d as [|[k' v'] d IH]; simpl; [discriminate|].
  destruct (eqb k' k) eqn:E.
  - apply eqb_spec in E. intro H. injection H as ->. subst. now left.
  - intro H. right. now apply IH.
Qed.

Lemma get_Some_key (k : K) (v : V) (d : dict K V) :
  get eqb k d = Some v -> In k (map fst d).
Proof.
  intro H. apply get_In in H. change k with (fst (k, v)). now apply in_map.
Qed.

Lemma NoDup_snoc (k : K) (l : list K) :
  ~ In k l -> NoDup l -> NoDup (l ++ [k]).
Proof.
  intros Hnot Hnd. induction Hnd as [|x l Hx Hnd IH]; simpl.
  - constructor; [intros []|constructor].
  - constructor.
    + intro Hin. apply in_app_or in Hin. destruct Hin as [Hin|[Heq|[]]].
      * contradiction.
      * subst. apply Hnot. now left.
    + apply IH. intro Hin. apply Hnot. now right.
Qed.

Lemma NoDup_keys_set (k : K) (v : V) (d : dict K V) :
  NoDup (map fst d) -> NoDup (map fst (set eqb k v d)).
Proof.
  intro Hnd. destruct (get eqb k d) as [v0|] eqn:E.
  - rewrite keys_set_present; [assumption|]. exact (get_Some_key k v0 d E).
  - apply get_None_not_key in E. rewrite (set_absent k v d E).
    rewrite map_app. simpl. now apply NoDup_snoc.
Qed.

Lemma In_get (k : K) (v : V) (d : dict K V) :
  NoDup (map fst d) -> In (k, v) d -> get eqb k d = Some v.
Proof.
  induction d as [|[k' v'] d IH]; simpl; [intros _ []|].
  intros Hnd [Heq|Hin].
  - injection Heq as -> ->. now rewrite eqb_refl_true.
  - inversion Hnd as [|? ? Hnot Hnd']; subst.
    destruct (eqb k' k) eqn:E.
    + apply eqb_spec in E. subst k'. exfalso. apply Hnot.
      change k with (fst (k, v)). now apply in_map.
    + now apply IH.
Qed.

(** Built from pairs with distinct keys, a dictionary is those pairs. *)
Lemma dict_of_pairs_NoDup (pairs : list (K * V)) :
  NoDup (map fst pairs) -> dict_of_pairs eqb pairs = pairs.
Proof.
  unfold dict_of_pairs.
  assert (H : forall l d, NoDup (map fst (d ++ l)) ->
            fold_left (fun (d : dict K V) kv => set eqb (fst kv) (snd kv) d) l d
            = (d ++ l)%list).
  { induction l as [|[k v] l IH]; intros d Hnd; simpl.
    - now rewrite app_nil_r.
    - rewrite set_absent.
      + rewrite IH; rewrite <- app_assoc; [reflexivity|assumption].
      + rewrite map_app in Hnd. simpl in Hnd.
        apply NoDup_remove_2 in Hnd. intro Hin. apply Hnd.
        apply in_or_app. now left. }
  intro Hnd. now apply (H pairs []).
Qed.

End PyDictFacts.

(** ** Grouped sums *)

Section GroupBy.

Variable K : Type.
Variable eqb : K -> K -> bool.
Hypothesis eqb_spec : forall a b, eqb a b = true <-> a = b.
Variable key : Paiement.t -> K.

Lemma group_by_sum_snoc (rows : list Paiement.t) (p : Paiement.t) :
  group_by_sum eqb key (rows ++ [p])
  = match get eqb (key p) (group_by_sum eqb key rows) with
    | Some s => set eqb (key p) (s + Paiement.montant p)%float
                    (group_by_sum eqb key rows)
    | None => set eqb (key p) (0 + Paiement.montant p)%float
                  (group_by_sum eqb key rows)
    end.
Proof.
  unfold group_by_sum. now rewrite fold_left_app.
Qed.

Lemma group_by_sum_NoDup (rows : list Paiement.t) :
  NoDup (map fst (group_by_sum eqb key rows)).
Proof.
  induction rows as [|p rows IH] using rev_ind.
  - constructor.
  - rewrite group_by_sum_snoc.
    destruct (get eqb (key p) (group_by_sum eqb key rows));
      now apply NoDup_keys_set.
Qed.

(** The sum of a group is the sum of its rows, in their order. *)
Lemma group_by_sum_get (rows : list Paiement.t) (k : K) :
  get eqb k (group_by_sum eqb key rows)
  = match lignes_de eqb key k rows with
    | [] => None
    | l => Some (somme_montants l)
    end.
Proof.
  induction rows as [|p rows IH] using rev_ind.
  - reflexivity.
  - rewrite group_by_sum_snoc. unfold lignes_de in *.
    rewrite filter_app. simpl.
    destruct (eqb (key p) k) eqn:E.
    + apply eqb_spec in E. subst k. rewrite IH.
      destruct (filter (fun p0 => eqb (key p0) (key p)) rows) as [|x r].
      * now rewrite (get_set_same K float eqb eqb_spec).
      * rewrite (get_set_same K float eqb eqb_spec).
        rewrite <- somme_montants_snoc. reflexivity.
    + assert (Hne : key p <> k).
      { intro Heq. apply eqb_spec in Heq. congruence. }
      rewrite app_nil_r.
      destruct (get eqb (key p) (group_by_sum eqb key rows)) as [s|];
        rewrite (get_set_other K float eqb eqb_spec _ _ _ _ Hne); exact IH.
Qed.

(** What the handlers read in the dictionary of the grouped sums. *)
Lemma get_or_0_group_by_sum (rows : list Paiement.t) (k : K) :
  get_or_0 eqb k (dict_of_pairs eqb (group_by_sum eqb key rows))
  = ou_zero (somme_montants (lignes_de eqb key k rows)).
Proof.
  rewrite (dict_of_pairs_NoDup K float eqb eqb_spec)
    by apply group_by_sum_NoDup.
  unfold get_or_0. rewrite group_by_sum_get.
  now destruct (lignes_de eqb key k rows).
Qed.

End GroupBy.

Lemma string_eqb_spec (a b : string) : String.eqb a b = true <-> a = b.
Proof. apply String.eqb_eq. Qed.


(** ** Dashboard *)





(** The total rent of a tenant whose property has no charges raises, and
    so does the monthly revenue of the dashboard. *)
Example loyer_total_sans_charges :
  loyer_total base_sans_charges Demo.claire = None
  /\ Index.revenus_mensuels (index base_sans_charges Demo.aujourd_hui)
     = None.
Proof. split; reflexivity. Qed.

(** C5. A tenant is on the late list of the dashboard exactly when the
    tenant is active, none of the tenant's payments, whatever their
    category, bears the token of the current month, and today's day of
    the month is strictly greater than the tenant's payment day. *)
Theorem loyers_en_retard_iff :
  forall db today loc,
    Index.mois_actuel (index db today) = strftime_Ym today
    /\ (In loc (Index.loyers_en_retard (index db today))
        <-> In loc (locataires db)
            /\ Locataire.actif loc = true
            /\ (forall p, In p (paiements db) ->
                          Paiement.locataire_id p = Locataire.id loc ->
                          Paiement.mois_concerne p <> strftime_Ym today)
            /\ Date.day today > Locataire.jour_paiement loc).
Proof.
  intros db today loc. split; [reflexivity|].
  cbn [index Index.loyers_en_retard].
  rewrite filter_In, filter_In, andb_true_iff, negb_true_iff.
  assert (Hno :
    existsb (fun p => String.eqb (Paiement.mois_concerne p)
                                 (strftime_Ym today))
            (Locataire_paiements db loc) = false
    <-> (forall p, In p (paiements db) ->
                   Paiement.locataire_id p = Locataire.id loc ->
                   Paiement.mois_concerne p <> strftime_Ym today)).
  { split.
    - intros Hex p Hin Hid Hmois.
      assert (Ht : existsb (fun p => String.eqb (Paiement.mois_concerne p)
                                       (strftime_Ym today))
                     (Locataire_paiements db loc) = true).
      { apply existsb_exists. exists p. split.
        - unfold Locataire_paiements. apply filter_In. split; [assumption|].
          now apply Z.eqb_eq.
        - now apply String.eqb_eq. }
      congruence.
    - intro Hall.
      destruct (existsb _ (Locataire_paiements db loc)) eqn:E;
        [|reflexivity].
      apply existsb_exists in E. destruct E as (p & Hin & Hm).
      unfold Locataire_paiements in Hin. apply filter_In in Hin.
      destruct Hin as [Hin Hid]. apply Z.eqb_eq in Hid.
      apply String.eqb_eq in Hm. exfalso. exact (Hall p Hin Hid Hm). }
  rewrite Hno, Z.gtb_ltb, Z.ltb_lt.
  split.
  - intros [[Hin Hact] [Hp Hd]]. repeat split; try assumption. lia.
  - intros (Hin & Hact & Hp & Hd). repeat split; try assumption. lia.
Qed.

Lemma loyers_en_retard_iff_witness :
  In Demo.fournil
     (Index.loyers_en_retard (index Demo.base Demo.aujourd_hui)).
Proof.
  apply (proj2 (proj2
    (loyers_en_retard_iff Demo.base Demo.aujourd_hui Demo.fournil))).
  split; [simpl; tauto|].
  split; [reflexivity|].
  split; [|reflexivity].
  intros p Hin Hid. simpl in Hin.
  repeat (destruct Hin as [<-|Hin];
          [first [discriminate Hid | vm_compute; discriminate]|]).
  destruct Hin.
Defined.

(** ** Statistics per property *)






(** ** Receipts: the grouping by category *)

Local Open Scope list_scope.

Section Rangement.

Variable A : Type.
Variable eqb : string -> string -> bool.

Lemma concat_set_present (k : string) (l x : list A)
  (d : dict string (list A)) :
  get eqb k d = Some l ->
  Permutation (List.concat (map snd (set eqb k (l ++ x) d)))
              (x ++ List.concat (map snd d)).
Proof.
  induction d as [|[k' v'] d IH]; simpl; [discriminate|].
  destruct (eqb k' k) eqn:E; simpl.
  - intro H. injection H as ->.
    rewrite <- app_assoc.
    rewrite (app_assoc x l). rewrite (app_assoc l x).
    apply Permutation_app_tail. apply Permutation_app_comm.
  - intro H. specialize (IH H).
    rewrite (Permutation_app_head v' IH).
    rewrite !app_assoc. apply Permutation_app_tail.
    apply Permutation_app_comm.
Qed.

End Rangement.

Lemma ranger_get_same (d : list (string * list Paiement.t))
  (p : Paiement.t) :
  get String.eqb (Paiement.categorie p) (ranger d p)
  = Some (match get String.eqb (Paiement.categorie p) d with
          | Some l => l
          | None => []
          end ++ [p])%list.
Proof.
  unfold ranger, mem.
  destruct (get String.eqb (Paiement.categorie p) d) as [l|] eqn:E;
    cbn [negb].
  - rewrite E. apply (get_set_same _ _ _ string_eqb_spec).
  - rewrite (get_set_same _ _ _ string_eqb_spec).
    apply (get_set_same _ _ _ string_eqb_spec).
Qed.

Lemma ranger_get_other (d : list (string * list Paiement.t))
  (p : Paiement.t) (k : string) :
  Paiement.categorie p <> k ->
  get String.eqb k (ranger d p) = get String.eqb k d.
Proof.
  intro Hne. unfold ranger, mem.
  destruct (get String.eqb (Paiement.categorie p) d) as [l|] eqn:E;
    cbn [negb].
  - rewrite E. now apply (get_set_other _ _ _ string_eqb_spec).
  - rewrite (get_set_same _ _ _ string_eqb_spec).
    rewrite (get_set_other _ _ _ string_eqb_spec) by assumption.
    now apply (get_set_other _ _ _ string_eqb_spec).
Qed.

Lemma ranger_NoDup (d : list (string * list Paiement.t)) (p : Paiement.t) :
  NoDup (map fst d) -> NoDup (map fst (ranger d p)).
Proof.
  intro Hnd. unfold ranger, mem.
  destruct (get String.eqb (Paiement.categorie p) d) as [l|] eqn:E;
    cbn [negb].
  - rewrite E. now apply (NoDup_keys_set _ _ _ string_eqb_spec).
  - rewrite (get_set_same _ _ _ string_eqb_spec).
    now do 2 apply (NoDup_keys_set _ _ _ string_eqb_spec).
Qed.

Lemma ranger_concat (d : list (string * list Paiement.t))
  (p : Paiement.t) :
  Permutation (List.concat (map snd (ranger d p)))
              (p :: List.concat (map snd d)).
Proof.
  unfold ranger, mem.
  destruct (get String.eqb (Paiement.categorie p) d) as [l|] eqn:E;
    cbn [negb].
  - rewrite E.
    apply (concat_set_present _ String.eqb _ l [p] d E).
  - rewrite (get_set_same _ _ _ string_eqb_spec).
    pose proof (concat_set_present _ String.eqb
                  (Paiement.categorie p) [] [p]
                  (set String.eqb (Paiement.categorie p) [] d)
                  (get_set_same _ _ _ string_eqb_spec _ _ _)) as H.
    simpl in H. rewrite H. constructor.
    apply (get_None_not_key _ _ _ string_eqb_spec) in E.
    rewrite (set_absent _ _ _ string_eqb_spec _ _ _ E).
    rewrite map_app, List.concat_app. simpl. now rewrite app_nil_r.
Qed.

Lemma grouper_snoc (ps : list Paiement.t) (p : Paiement.t) :
  grouper_par_categorie (ps ++ [p]) = ranger (grouper_par_categorie ps) p.
Proof.
  unfold grouper_par_categorie. now rewrite fold_left_app.
Qed.

Lemma grouper_NoDup (ps : list Paiement.t) :
  NoDup (map fst (grouper_par_categorie ps)).
Proof.
  induction ps as [|p ps IH] using rev_ind.
  - constructor.
  - rewrite grouper_snoc. now apply ranger_NoDup.
Qed.

Lemma grouper_concat (ps : list Paiement.t) :
  Permutation (List.concat (map snd (grouper_par_categorie ps))) ps.
Proof.
  induction ps as [|p ps IH] using rev_ind.
  - constructor.
  - rewrite grouper_snoc, ranger_concat, IH.
    apply Permutation_cons_append.
Qed.

Lemma grouper_get (ps : list Paiement.t) (k : string) :
  get String.eqb k (grouper_par_categorie ps)
  = match lignes_de String.eqb Paiement.categorie k ps with
    | [] => None
    | l => Some l
    end.
Proof.
  induction ps as [|p ps IH] using rev_ind.
  - reflexivity.
  - rewrite grouper_snoc. unfold lignes_de in *. rewrite filter_app. simpl.
    destruct (String.eqb (Paiement.categorie p) k) eqn:E.
    + apply String.eqb_eq in E. subst k.
      rewrite ranger_get_same, IH.
      destruct (filter _ ps); reflexivity.
    + apply String.eqb_neq in E.
      rewrite (ranger_get_other _ _ _ E), IH, app_nil_r. reflexivity.
Qed.

(** C10. In an assembled receipt the groups partition the fetched
    payments: the categories of the groups are pairwise distinct, each
    group is not empty and holds exactly the fetched payments of its
    category in their order, every fetched payment is in the group of its
    category and in no other, and the groups put end to end are a
    rearrangement of the fetched payments.  The grand total is the sum
    of the amounts of the fetched payments, added in their order; with a
    single group it is the sum of the group. *)
Theorem quittance_groups_partition_payments :
  forall db today locataire_id mois vue,
    generer_quittance db today locataire_id mois = Render vue ->
    let fetched := Quittance.paiements vue in
    let groupes := Quittance.paiements_par_categorie vue in
    fetched
    = filter (fun p => (Paiement.locataire_id p =? locataire_id)
                       && String.eqb (Paiement.mois_concerne p) mois)
             (paiements db)
    /\ NoDup (map fst groupes)
    /\ (forall k l, In (k, l) groupes ->
          l <> []
          /\ l = filter (fun p => String.eqb (Paiement.categorie p) k)
                        fetched)
    /\ (forall p, In p fetched ->
          exists l, In (Paiement.categorie p, l) groupes /\ In p l)
    /\ (forall p k l, In (k, l) groupes -> In p l ->
          k = Paiement.categorie p /\ In p fetched)
    /\ Permutation (List.concat (map snd groupes)) fetched
    /\ Quittance.total_paiements vue = somme_montants fetched
    /\ (forall k l, groupes = [(k, l)] ->
          l = fetched /\ Quittance.total_paiements vue = somme_montants l).
Proof.
  intros db today locataire_id mois vue Hrender.
  unfold generer_quittance in Hrender.
  destruct (Locataire_query_get_or_404 db locataire_id) as [loc|];
    [|discriminate].
  destruct (analyser_mois mois) as [[annee n]|]; [|discriminate].
  injection Hrender as <-. cbn [Quittance.paiements
    Quittance.paiements_par_categorie Quittance.total_paiements].
  set (fetched := filter _ (paiements db)).
  assert (Hgroup : forall k l,
             In (k, l) (grouper_par_categorie fetched) ->
             l <> []
             /\ l = filter (fun p => String.eqb (Paiement.categorie p) k)
                           fetched).
  { intros k l Hin.
    apply (In_get _ _ _ string_eqb_spec _ _ _ (grouper_NoDup fetched)) in Hin.
    rewrite grouper_get in Hin. unfold lignes_de in Hin.
    destruct (filter _ fetched) as [|x r]; [discriminate|].
    injection Hin as <-. split; [discriminate|reflexivity]. }
  assert (Hdans : forall p, In p fetched ->
             exists l, In (Paiement.categorie p, l)
                          (grouper_par_categorie fetched) /\ In p l).
  { intros p Hin.
    pose proof (grouper_get fetched (Paiement.categorie p)) as Hget.
    unfold lignes_de in Hget.
    assert (Hp : In p (filter (fun q => String.eqb (Paiement.categorie q)
                                          (Paiement.categorie p)) fetched)).
    { apply filter_In. split; [assumption|apply String.eqb_refl]. }
    destruct (filter _ fetched) as [|x r] eqn:E; [destruct Hp|].
    exists (x :: r). split; [|exact Hp].
    now apply (get_In _ _ _ string_eqb_spec). }
  split; [reflexivity|].
  split; [apply grouper_NoDup|].
  split; [exact Hgroup|].
  split; [exact Hdans|].
  split.
  { intros p k l Hin Hp. destruct (Hgroup k l Hin) as [_ ->].
    apply filter_In in Hp. destruct Hp as [Hf Hk].
    apply String.eqb_eq in Hk. now split. }
  split; [apply grouper_concat|].
  split; [reflexivity|].
  intros k l Hseul.
  assert (Hl : l = fetched).
  { destruct (Hgroup k l) as [_ ->]; [rewrite Hseul; now left|].
    apply filter_tous, Forall_forall. intros p Hp.
    destruct (Hdans p Hp) as (l' & Hin' & _).
    rewrite Hseul in Hin'. destruct Hin' as [Heq|[]].
    injection Heq as Hk _. apply String.eqb_eq. now symmetry. }
  split; [exact Hl|]. now rewrite Hl.
Qed.

Lemma quittance_groups_partition_payments_witness :
  exists vue,
    generer_quittance Demo.base Demo.aujourd_hui 1 "2024-03" = Render vue
    /\ NoDup (map fst (Quittance.paiements_par_categorie vue)).
Proof.
  eexists. split.
  - reflexivity.
  - exact (proj1 (proj2
      (quittance_groups_partition_payments Demo.base Demo.aujourd_hui 1
         "2024-03" _ eq_refl))).
Defined.

(** The last clause of the sentence on the receipt does not hold: with
    49.9 and 33.33 for the rent and 19.99 for water in between, the grand
    total is 103.22 and the sum of the sums of the two groups is
    103.21999999999998. *)
Lemma total_des_groupes_refuted : ~ total_des_groupes_decide.
Proof.
  intro H.
  specialize (H base_de_mars Demo.aujourd_hui 1 "2024-03" _ eq_refl).
  vm_compute in H. discriminate H.
Qed.

(** ** Calendar *)

Local Open Scope Z_scope.

Lemma moins_mois_spec (today : Date.t) (i : Z) :
  date_valide today -> 1 < Date.year today -> 0 <= i <= 12 ->
  exists d,
    moins_mois today i = Some d
    /\ Date.year d = annee_de (mois_absolu today - i)
    /\ Date.month d = mois_de (mois_absolu today - i).
Proof.
  intros (Hy & Hm & _) Hy1 Hi.
  unfold moins_mois, annee_de, mois_de, mois_absolu.
  destruct today as [y m d]. cbn [Date.year Date.month Date.day] in *.
  destruct (Z.eqb_spec (i mod 12) 0) as [E0|E0].
  - destruct (Z.ltb_spec (y - i / 12) 1) as [Hlt|Hge].
    + exfalso. Z.div_mod_to_equations. lia.
    + eexists. split; [reflexivity|].
      cbn [Date.year Date.month]. Z.div_mod_to_equations. lia.
  - destruct (Z.ltb_spec (m - i mod 12) 1) as [Hw|Hw].
    + destruct (Z.ltb_spec (y - i / 12 - 1) 1) as [Hlt|Hge].
      * exfalso. Z.div_mod_to_equations. lia.
      * eexists. split; [reflexivity|].
        cbn [Date.year Date.month]. Z.div_mod_to_equations. lia.
    + destruct (Z.ltb_spec (y - i / 12) 1) as [Hlt|Hge].
      * exfalso. Z.div_mod_to_equations. lia.
      * eexists. split; [reflexivity|].
        cbn [Date.year Date.month]. Z.div_mod_to_equations. lia.
Qed.

Lemma chiffre_compare (x y : Z) :
  0 <= x <= 9 -> 0 <= y <= 9 ->
  Ascii.compare (chiffre x) (chiffre y) = (x ?= y).
Proof.
  intros Hx Hy. unfold Ascii.compare, chiffre.
  rewrite !N_ascii_embedding by lia.
  rewrite <- N2Z.inj_compare, !N2Z.inj_add, !Z2N.id by lia.
  apply Z.add_compare_mono_l.
Qed.

Lemma chiffre_mod_compare (x y : Z) :
  Ascii.compare (chiffre (x mod 10)) (chiffre (y mod 10))
  = (x mod 10 ?= y mod 10).
Proof.
  pose proof (Z.mod_pos_bound x 10 ltac:(lia)).
  pose proof (Z.mod_pos_bound y 10 ltac:(lia)).
  apply chiffre_compare; lia.
Qed.

(** On the years of four digits the tokens are ordered as the months. *)
Lemma jeton_compare (a b : Z) :
  0 <= a < 120000 -> 0 <= b < 120000 ->
  String.compare (jeton a) (jeton b) = (a ?= b).
Proof.
  intros Ha Hb.
  unfold jeton, sur4, sur2, annee_de, mois_de.
  cbn [append String.compare].
  rewrite !chiffre_mod_compare.
  change (Ascii.compare "-" "-") with Eq.
  symmetry.
  repeat match goal with
  | |- context [match (?x ?= ?y) with _ => _ end] =>
      destruct (Z.compare_spec x y)
  end.
  all: first [ apply Z.compare_eq_iff | apply Z.compare_lt_iff
             | apply Z.compare_gt_iff ];
       Z.div_mod_to_equations; lia.
Qed.

Lemma jeton_leb (a b : Z) :
  0 <= a -> a <= b -> b < 120000 ->
  String.leb (jeton a) (jeton b) = true.
Proof.
  intros Ha Hab Hb. unfold String.leb.
  rewrite jeton_compare by lia.
  destruct (Z.compare_spec a b); try reflexivity. lia.
Qed.

Lemma jeton_inj (a b : Z) :
  0 <= a < 120000 -> 0 <= b < 120000 -> jeton a = jeton b -> a = b.
Proof.
  intros Ha Hb Heq. apply Z.compare_eq_iff.
  rewrite <- (jeton_compare a b Ha Hb), Heq.
  pose proof (String.compare_antisym (jeton b) (jeton b)) as H.
  destruct (String.compare (jeton b) (jeton b)); trivial; discriminate H.
Qed.

Lemma strftime_Ym_jeton (d : Date.t) (n : Z) :
  Date.year d = annee_de n -> Date.month d = mois_de n ->
  strftime_Ym d = jeton n.
Proof.
  intros Hy Hm. unfold strftime_Ym, jeton. now rewrite Hy, Hm.
Qed.

Lemma mois_absolu_bornes (today : Date.t) :
  date_valide today -> 1 < Date.year today ->
  24 <= mois_absolu today < 120000.
Proof.
  intros (Hy & Hm & _) H1. unfold mois_absolu. lia.
Qed.

Lemma mois_absolu_self (today : Date.t) :
  date_valide today ->
  annee_de (mois_absolu today) = Date.year today
  /\ mois_de (mois_absolu today) = Date.month today.
Proof.
  intros (Hy & Hm & _). unfold annee_de, mois_de, mois_absolu.
  Z.div_mod_to_equations. lia.
Qed.

(** ** The twelve months of the statistics *)

Lemma range_11_0_bornes (i : Z) : In i range_11_0 -> 0 <= i <= 11.
Proof.
  intro H. vm_compute in H.
  repeat (destruct H as [<-|H]; [lia|]). destruct H.
Qed.

Lemma douze_mois_explicit (today : Date.t) :
  douze_mois today
  = map (fun k => mois_absolu today - 11 + k)
        [0; 1; 2; 3; 4; 5; 6; 7; 8; 9; 10; 11].
Proof.
  unfold douze_mois. cbn [range_11_0 seq rev app map Z.of_nat].
  repeat (f_equal; try lia).
Qed.

Lemma filter_eqb_after_leb (mois_min jeton_n : string)
  (l : list Paiement.t) :
  String.leb mois_min jeton_n = true ->
  lignes_de String.eqb Paiement.mois_concerne jeton_n
    (filter (fun p => String.leb mois_min (Paiement.mois_concerne p)) l)
  = filter (fun p => String.eqb (Paiement.mois_concerne p) jeton_n) l.
Proof.
  intro Hleb. unfold lignes_de.
  induction l as [|p l IH]; simpl; [reflexivity|].
  destruct (String.eqb (Paiement.mois_concerne p) jeton_n) eqn:E.
  - apply String.eqb_eq in E. subst jeton_n. rewrite Hleb. simpl.
    rewrite String.eqb_refl. f_equal. exact IH.
  - destruct (String.leb mois_min (Paiement.mois_concerne p)); simpl;
      [rewrite E|]; exact IH.
Qed.

Lemma Forall2_map_map (A B C : Type) (R : B -> C -> Prop)
  (f : A -> B) (h : A -> C) (l : list A) :
  (forall a, In a l -> R (f a) (h a)) ->
  Forall2 R (map f l) (map h l).
Proof.
  induction l as [|a l IH]; intro H; simpl; constructor.
  - apply H. now left.
  - apply IH. intros b Hb. apply H. now right.
Qed.

Lemma filter_aucun (A : Type) (f : A -> bool) (l : list A) :
  (forall a, In a l -> f a = false) -> filter f l = [].
Proof.
  induction l as [|a l IH]; intro H; simpl; [reflexivity|].
  rewrite (H a) by now left. apply IH. intros b Hb. apply H. now right.
Qed.

Lemma range_11_0_NoDup : NoDup range_11_0.
Proof.
  vm_compute. repeat (constructor; [simpl; lia|]). constructor.
Qed.

Lemma douze_mois_bornes (today : Date.t) (n : Z) :
  date_valide today -> 1 < Date.year today ->
  In n (douze_mois today) ->
  mois_absolu today - 11 <= n <= mois_absolu today /\ 0 <= n < 120000.
Proof.
  intros Hv Hy Hin. unfold douze_mois in Hin.
  apply in_map_iff in Hin. destruct Hin as (i & <- & Hi).
  apply range_11_0_bornes in Hi.
  pose proof (mois_absolu_bornes today Hv Hy). lia.
Qed.

Lemma douze_mois_jetons_NoDup (today : Date.t) :
  date_valide today -> 1 < Date.year today ->
  NoDup (map jeton (douze_mois today)).
Proof.
  intros Hv Hy. apply NoDup_map_NoDup_ForallPairs.
  - intros x y Hx Hyy Heq.
    apply (douze_mois_bornes today x Hv Hy) in Hx.
    apply (douze_mois_bornes today y Hv Hy) in Hyy.
    apply jeton_inj; tauto.
  - unfold douze_mois. apply NoDup_map_NoDup_ForallPairs.
    + intros x y _ _ Heq. lia.
    + apply range_11_0_NoDup.
Qed.

(** C2. For a date of today that [datetime.date] can hold, in a year
    that is printed on four digits, the revenue series of the statistics
    has exactly 12 entries, for the twelve consecutive months that end at
    the month of today, oldest first; each entry is labelled with the
    short month name and the year, and its total is the sum, added in the
    order of the rows, of the amounts of all the payments whose token is
    the [YYYY-MM] token of the month (a sum that is a zero being shown as
    0), which is 0 for a month without payment; the twelve tokens are
    pairwise distinct, so that a payment is counted in at most one
    entry. *)
Theorem statistiques_trailing_twelve_months :
  forall db today,
    date_valide today ->
    1000 < Date.year today ->
    exists stats,
      statistiques db today = Some stats
      /\ let revenus := Statistiques.revenus_mensuels stats in
         List.length revenus = 12%nat
         /\ douze_mois today
            = map (fun k => mois_absolu today - 11 + k)
                  [0; 1; 2; 3; 4; 5; 6; 7; 8; 9; 10; 11]
         /\ jeton (mois_absolu today) = strftime_Ym today
         /\ map Revenu.mois revenus = map libelle (douze_mois today)
         /\ Forall2
              (fun e n =>
                 Revenu.total e
                 = ou_zero
                     (somme_montants
                        (filter (fun p =>
                                   String.eqb (Paiement.mois_concerne p)
                                              (jeton n))
                                (paiements db)))
                 /\ ((forall p, In p (paiements db) ->
                                Paiement.mois_concerne p <> jeton n) ->
                     Revenu.total e = 0%float))
              revenus (douze_mois today)
         /\ NoDup (map jeton (douze_mois today)).
Proof.
  intros db today Hv Hy1000.
  assert (Hy : 1 < Date.year today) by lia.
  pose proof (mois_absolu_bornes today Hv Hy) as HN.
  destruct (moins_mois_spec today 12 Hv Hy ltac:(lia))
    as (d12 & H12 & Hy12 & Hm12).
  pose proof (strftime_Ym_jeton d12 _ Hy12 Hm12) as Hmin.
  pose proof (douze_mois_jetons_NoDup today Hv Hy) as Hdistincts.
  set (N := mois_absolu today) in *.
  set (dict := dict_of_pairs String.eqb
         (group_by_sum String.eqb Paiement.mois_concerne
            (filter (fun p => String.leb (jeton (N - 12))
                                         (Paiement.mois_concerne p))
                    (paiements db)))).
  set (g := fun i => Revenu.mk (libelle (N - i))
                       (get_or_0 String.eqb (jeton (N - i)) dict)).
  assert (Hrev : revenus_des_12_mois db today = Some (map g range_11_0)).
  { unfold revenus_des_12_mois. rewrite H12, Hmin. fold dict.
    apply pour_chaque_map. intros i Hi.
    apply range_11_0_bornes in Hi.
    destruct (moins_mois_spec today i Hv Hy ltac:(lia))
      as (d & Hd & Hyd & Hmd).
    rewrite Hd. unfold g, libelle. fold N in Hyd, Hmd.
    now rewrite (strftime_Ym_jeton d _ Hyd Hmd), Hyd, Hmd. }
  assert (Htot : forall i, In i range_11_0 ->
            Revenu.total (g i)
            = ou_zero
                (somme_montants
                   (filter (fun p => String.eqb (Paiement.mois_concerne p)
                                                (jeton (N - i)))
                           (paiements db)))).
  { intros i Hi. apply range_11_0_bornes in Hi. unfold g, dict.
    cbn [Revenu.total].
    rewrite (get_or_0_group_by_sum string String.eqb string_eqb_spec).
    rewrite filter_eqb_after_leb; [reflexivity|].
    apply jeton_leb; lia. }
  exists (Statistiques.mk (map g range_11_0) (stats_des_biens db)).
  split; [unfold statistiques; now rewrite Hrev|].
  cbn [Statistiques.revenus_mensuels].
  split; [now rewrite length_map|].
  split; [apply douze_mois_explicit|].
  split.
  { symmetry. destruct (mois_absolu_self today Hv) as [H1 H2].
    apply strftime_Ym_jeton; now symmetry. }
  split.
  { unfold douze_mois. rewrite !map_map. reflexivity. }
  split; [|exact Hdistincts].
  unfold douze_mois. apply Forall2_map_map. intros i Hi.
  fold N. split; [now apply Htot|].
  intro Hno. rewrite (Htot i Hi).
  assert (Hnil : filter (fun p => String.eqb (Paiement.mois_concerne p)
                                             (jeton (N - i)))
                        (paiements db) = []).
  { apply filter_aucun. intros p Hp.
    apply String.eqb_neq. now apply Hno. }
  rewrite Hnil. reflexivity.
Qed.

Lemma statistiques_trailing_twelve_months_witness :
  exists stats,
    statistiques Demo.base Demo.aujourd_hui = Some stats
    /\ List.length (Statistiques.revenus_mensuels stats) = 12%nat.
Proof.
  destruct (statistiques_trailing_twelve_months Demo.base Demo.aujourd_hui)
    as (stats & Hs & Hl & _).
  - unfold date_valide. vm_compute. intuition discriminate.
  - reflexivity.
  - exists stats. split; [exact Hs|exact Hl].
Defined.

(** The last clause of the sentence on the revenue series does not hold:
    with 49.9 and 33.33 paid for March and 19.99 for February in
    between, the twelve totals add up to 103.21999999999998 and the
    payments of the twelve months to 103.22. *)
Lemma somme_des_douze_refuted : ~ somme_des_douze_decide.
Proof.
  intro H.
  specialize (H base_de_deux_mois Demo.aujourd_hui _ eq_refl).
  vm_compute in H. discriminate H.
Qed.

(** * Properties of the rest of the application *)

(** ** Reading back the digits that were printed *)

Lemma chiffre_cases (n : Z) :
  0 <= n <= 9 ->
  Str.is_decimal (chiffre n) = true
  /\ Str.is_int_space (chiffre n) = false
  /\ Ascii.eqb (chiffre n) "-" = false
  /\ Ascii.eqb (chiffre n) "+" = false
  /\ Ascii.eqb (chiffre n) "_" = false
  /\ Str.digit_value (chiffre n) = n.
Proof.
  intro H.
  assert (Hn : In n [0; 1; 2; 3; 4; 5; 6; 7; 8; 9]) by (cbn [In]; lia).
  cbn [In] in Hn.
  repeat (destruct Hn as [<- | Hn]; [repeat split; reflexivity|]).
  destruct Hn.
Qed.

Lemma int_digits_chiffres (ds : list Z) (acc : Z) (apres : bool) :
  Forall (fun d => 0 <= d <= 9) ds ->
  ds <> [] \/ apres = true ->
  Str.int_digits acc apres (map chiffre ds)
  = Some (valeur_chiffres ds acc).
Proof.
  revert acc apres.
  induction ds as [|d ds IH]; intros acc apres Hds Hne; simpl.
  - destruct Hne as [Hne | ->]; [congruence|reflexivity].
  - inversion Hds as [|? ? Hd Hrest]; subst.
    destruct (chiffre_cases d Hd) as (H1 & _ & _ & _ & _ & H6).
    rewrite H1, H6. apply IH; [assumption|now right].
Qed.

Lemma lstrip_chiffre (d : Z) (l : list ascii) :
  0 <= d <= 9 -> Str.lstrip (chiffre d :: l) = chiffre d :: l.
Proof.
  intro Hd. simpl.
  destruct (chiffre_cases d Hd) as (_ & H2 & _). now rewrite H2.
Qed.

Lemma strip_chiffres (ds : list Z) :
  Forall (fun d => 0 <= d <= 9) ds ->
  Str.strip (map chiffre ds) = map chiffre ds.
Proof.
  intro Hds. unfold Str.strip.
  assert (Hl : forall l, Forall (fun d => 0 <= d <= 9) l ->
               Str.lstrip (map chiffre l) = map chiffre l).
  { intros [|d l] Hl; [reflexivity|].
    inversion Hl; subst. now apply lstrip_chiffre. }
  rewrite (Hl ds Hds), <- map_rev, Hl.
  - now rewrite map_rev, rev_involutive.
  - now apply Forall_rev.
Qed.

(** [int] reads back a text made of decimal digits. *)
Lemma int_chiffres (ds : list Z) :
  Forall (fun d => 0 <= d <= 9) ds ->
  ds <> [] ->
  Str.int (string_of_list_ascii (map chiffre ds))
  = Some (valeur_chiffres ds 0).
Proof.
  intros Hds Hne. unfold Str.int.
  rewrite list_ascii_of_string_of_list_ascii, (strip_chiffres ds Hds).
  destruct ds as [|d ds]; [congruence|].
  cbn [map]. inversion Hds as [|? ? Hd Hrest]; subst.
  destruct (chiffre_cases d Hd) as (_ & _ & _ & H4 & _).
  rewrite H4.
  assert (Hm : Ascii.eqb (chiffre d) "-" = false)
    by apply (chiffre_cases d Hd).
  rewrite Hm.
  change (chiffre d :: map chiffre ds) with (map chiffre (d :: ds)).
  apply int_digits_chiffres; [assumption|left; discriminate].
Qed.

Lemma mod10_bornes (n : Z) : 0 <= n mod 10 <= 9.
Proof. pose proof (Z.mod_pos_bound n 10 ltac:(lia)). lia. Qed.

Lemma int_sur2 (n : Z) : 0 <= n < 100 -> Str.int (sur2 n) = Some n.
Proof.
  intro Hn.
  change (sur2 n)
    with (string_of_list_ascii (map chiffre [n / 10 mod 10; n mod 10])).
  rewrite int_chiffres.
  - f_equal. unfold valeur_chiffres. cbn [fold_left].
    Z.div_mod_to_equations. lia.
  - repeat constructor; apply mod10_bornes.
  - discriminate.
Qed.

Lemma int_sur4 (n : Z) : 0 <= n < 10000 -> Str.int (sur4 n) = Some n.
Proof.
  intro Hn.
  change (sur4 n)
    with (string_of_list_ascii
            (map chiffre [n / 1000 mod 10; n / 100 mod 10;
                          n / 10 mod 10; n mod 10])).
  rewrite int_chiffres.
  - f_equal. unfold valeur_chiffres. cbn [fold_left].
    Z.div_mod_to_equations. lia.
  - repeat constructor; apply mod10_bornes.
  - discriminate.
Qed.

Lemma split_jeton (y m : Z) :
  Str.split "-" (sur4 y ++ "-" ++ sur2 m)%string = [sur4 y; sur2 m].
Proof.
  unfold sur4, sur2. cbn [append Str.split].
  repeat match goal with
  | |- context [Ascii.eqb (chiffre (?x mod 10)) "-"] =>
      rewrite (proj1 (proj2 (proj2 (chiffre_cases (x mod 10)
                                       (mod10_bornes x)))))
  end.
  reflexivity.
Qed.

(** The token printed for a date is read back by the receipt parser. *)
Lemma analyser_mois_strftime (d : Date.t) :
  0 <= Date.year d <= 9999 -> 1 <= Date.month d <= 12 ->
  analyser_mois (strftime_Ym d)
  = Some (sur4 (Date.year d), Date.month d).
Proof.
  intros Hy Hm. unfold analyser_mois, strftime_Ym.
  rewrite split_jeton, int_sur2 by lia. rewrite int_sur4 by lia.
  destruct (Z.ltb_spec (Date.month d) 1); [lia|].
  rewrite Z.gtb_ltb.
  destruct (Z.ltb_spec 12 (Date.month d)); [lia|]. reflexivity.
Qed.

(** ** Receipts *)

Lemma find_of_In (A : Type) (f : A -> bool) (l : list A) (x : A) :
  In x l -> f x = true -> exists y, find f l = Some y /\ f y = true.
Proof.
  induction l as [|a l IH]; simpl; [intros []|].
  intros [-> | Hin] Hx.
  - rewrite Hx. now exists x.
  - destruct (f a) eqn:E; [now exists a|]. now apply IH.
Qed.

Lemma find_true (A : Type) (f : A -> bool) (l : list A) (y : A) :
  find f l = Some y -> f y = true /\ In y l.
Proof.
  intro H. apply find_some in H. tauto.
Qed.

(** X1. The month token that the receipt list hands out for today is
    accepted by receipt generation for every tenant of that list: the
    receipt is rendered for that tenant id, with the full name of today's
    month and today's year on four digits. *)
Theorem quittance_du_mois_de_la_liste :
  forall db today jour_generation loc,
    date_valide today ->
    1000 <= Date.year today ->
    In loc (ListeQuittances.locataires (liste_quittances db today)) ->
    exists vue,
      generer_quittance db jour_generation (Locataire.id loc)
        (ListeQuittances.now (liste_quittances db today)) = Render vue
      /\ Quittance.mois_nom vue = index_str MOIS_NOMS (Date.month today)
      /\ Quittance.annee vue = sur4 (Date.year today)
      /\ Locataire.id (Quittance.locataire vue) = Locataire.id loc
      /\ In (Quittance.mois_nom vue) (tl MOIS_NOMS).
Proof.
  intros db today jour loc (Hy & Hm & _) _ Hin.
  cbn [liste_quittances ListeQuittances.locataires ListeQuittances.now]
    in *.
  apply filter_In in Hin. destruct Hin as [Hin _].
  destruct (find_of_In _ (fun l => Locataire.id l =? Locataire.id loc)
              (locataires db) loc Hin (Z.eqb_refl _)) as (loc' & Hf & Hid).
  apply Z.eqb_eq in Hid.
  unfold generer_quittance, Locataire_query_get_or_404.
  rewrite Hf, analyser_mois_strftime by lia.
  eexists. split; [reflexivity|].
  cbn [Quittance.mois_nom Quittance.annee Quittance.locataire].
  repeat split; try assumption.
  assert (Hc : Date.month today = 1 \/ Date.month today = 2
               \/ Date.month today = 3 \/ Date.month today = 4
               \/ Date.month today = 5 \/ Date.month today = 6
               \/ Date.month today = 7 \/ Date.month today = 8
               \/ Date.month today = 9 \/ Date.month today = 10
               \/ Date.month today = 11 \/ Date.month today = 12) by lia.
  repeat (destruct Hc as [-> | Hc]; [cbn; tauto|]).
  rewrite Hc. cbn. tauto.
Qed.

Lemma quittance_du_mois_de_la_liste_witness :
  exists vue,
    generer_quittance Demo.base Demo.aujourd_hui 3 "2024-03" = Render vue
    /\ Quittance.mois_nom vue = "Mars".
Proof.
  destruct (quittance_du_mois_de_la_liste Demo.base Demo.aujourd_hui
              Demo.aujourd_hui Demo.fournil)
    as (vue & H1 & H2 & _).
  - unfold date_valide. vm_compute. intuition discriminate.
  - vm_compute. discriminate.
  - vm_compute. tauto.
  - exists vue. split; [exact H1|exact H2].
Defined.

(** X2. For a known tenant and a well-formed month token, a receipt is
    rendered also when the tenant has no payment under that token: it
    then lists no payment and no category, its total is 0, and it
    carries the first landlord row, or none when the table is empty. *)
Theorem quittance_sans_paiement :
  forall db today locataire_id mois locataire,
    Locataire_query_get_or_404 db locataire_id = Some locataire ->
    mois_bien_forme mois ->
    (forall p, In p (paiements db) ->
               Paiement.locataire_id p = locataire_id ->
               Paiement.mois_concerne p <> mois) ->
    exists vue,
      generer_quittance db today locataire_id mois = Render vue
      /\ Quittance.paiements vue = []
      /\ Quittance.paiements_par_categorie vue = []
      /\ Quittance.total_paiements vue = 0%float
      /\ Quittance.bailleur vue = hd_error (bailleurs db)
      /\ (bailleurs db = [] -> Quittance.bailleur vue = None).
Proof.
  intros db today locataire_id mois locataire Hloc Hwf Hno.
  destruct Hwf as (annee & partie & n & Hwf).
  assert (Hparse : analyser_mois mois = Some (annee, n))
    by (apply analyser_mois_Some; now exists partie).
  assert (Hnil : filter (fun p => (Paiement.locataire_id p =? locataire_id)
                                  && String.eqb (Paiement.mois_concerne p)
                                                mois)
                        (paiements db) = []).
  { apply filter_aucun. intros p Hp.
    destruct (Z.eqb_spec (Paiement.locataire_id p) locataire_id) as [E|E];
      [|reflexivity].
    simpl. apply String.eqb_neq. now apply Hno. }
  unfold generer_quittance. rewrite Hloc, Hparse, Hnil.
  eexists. split; [reflexivity|].
  cbn. repeat split. now intros ->.
Qed.

Lemma quittance_sans_paiement_witness :
  exists vue,
    generer_quittance Demo.base Demo.aujourd_hui 3 "2024-03" = Render vue
    /\ Quittance.paiements vue = [].
Proof.
  destruct (quittance_sans_paiement Demo.base Demo.aujourd_hui 3 "2024-03"
              Demo.fournil eq_refl)
    as (vue & H1 & H2 & _).
  - exists "2024", "03", 3. repeat split; try reflexivity; try lia.
    discriminate.
  - intros p Hin Hid. simpl in Hin.
    repeat (destruct Hin as [<- | Hin];
            [first [discriminate Hid | vm_compute; discriminate]|]).
    destruct Hin.
  - exists vue. split; [exact H1|exact H2].
Defined.

(** ** Dashboard and statistics *)

Lemma revenus_des_12_mois_valeur (db : Base) (today : Date.t) :
  date_valide today -> 1 < Date.year today ->
  exists revenus,
    revenus_des_12_mois db today = Some revenus
    /\ Forall2
         (fun e i =>
            Revenu.mois e = libelle (mois_absolu today - i)
            /\ Revenu.total e
               = ou_zero
                   (somme_montants
                      (filter (fun p =>
                                 String.eqb (Paiement.mois_concerne p)
                                            (jeton (mois_absolu today - i)))
                              (paiements db))))
         revenus range_11_0.
Proof.
  intros Hv Hy.
  pose proof (mois_absolu_bornes today Hv Hy) as HN.
  destruct (moins_mois_spec today 12 Hv Hy ltac:(lia))
    as (d12 & H12 & Hy12 & Hm12).
  pose proof (strftime_Ym_jeton d12 _ Hy12 Hm12) as Hmin.
  set (N := mois_absolu today) in *.
  set (dict := dict_of_pairs String.eqb
         (group_by_sum String.eqb Paiement.mois_concerne
            (filter (fun p => String.leb (jeton (N - 12))
                                         (Paiement.mois_concerne p))
                    (paiements db)))).
  set (g := fun i => Revenu.mk (libelle (N - i))
                       (get_or_0 String.eqb (jeton (N - i)) dict)).
  exists (map g range_11_0). split.
  - unfold revenus_des_12_mois. rewrite H12, Hmin. fold dict.
    apply pour_chaque_map. intros i Hi.
    apply range_11_0_bornes in Hi.
    destruct (moins_mois_spec today i Hv Hy ltac:(lia))
      as (d & Hd & Hyd & Hmd).
    rewrite Hd. unfold g, libelle. fold N in Hyd, Hmd.
    now rewrite (strftime_Ym_jeton d _ Hyd Hmd), Hyd, Hmd.
  - rewrite <- (map_id range_11_0) at 2.
    apply Forall2_map_map. intros i Hi.
    apply range_11_0_bornes in Hi. unfold g, dict.
    cbn [Revenu.total Revenu.mois]. split; [reflexivity|].
    rewrite (get_or_0_group_by_sum string String.eqb string_eqb_spec).
    rewrite filter_eqb_after_leb; [reflexivity|].
    apply jeton_leb; lia.
Qed.

Lemma Forall2_nth_error_droite (A B : Type) (R : A -> B -> Prop)
  (l : list A) (l' : list B) (k : nat) (b : B) :
  Forall2 R l l' -> nth_error l' k = Some b ->
  exists a, nth_error l k = Some a /\ R a b.
Proof.
  intro H. revert k. induction H as [|x y l l' Hxy _ IH]; intros k Hk.
  - destruct k; discriminate Hk.
  - destruct k as [|k]; simpl in *.
    + injection Hk as <-. now exists x.
    + now apply IH.
Qed.

Lemma ou_zero_eqb (x : float) :
  est_nombre x -> (ou_zero x =? x)%float = true.
Proof.
  unfold ou_zero, est_nombre, PrimFloat.is_nan. intro H.
  apply negb_false_iff in H.
  destruct (x =? 0)%float eqn:E; [|exact H].
  rewrite FloatAxioms.eqb_spec, Prim2SF_zero in *.
  destruct (Prim2SF x) as [sg|sg| |sg m e]; try destruct sg;
    cbn in E; try discriminate E; reflexivity.
Qed.

(** X3. The amount collected this month on the dashboard is the total
    of the last entry of the twelve-month series of the statistics: both
    are the sum, added in the order of the rows, of the payments that
    bear the token of today's month, a sum that is a zero being shown as
    0 in the series, so that the two are equal numbers whenever the sum
    is a number. *)
Theorem total_percu_is_last_month_of_series :
  forall db today,
    date_valide today ->
    1000 < Date.year today ->
    exists stats dernier,
      statistiques db today = Some stats
      /\ nth_error (Statistiques.revenus_mensuels stats) 11 = Some dernier
      /\ Revenu.total dernier
         = ou_zero (Index.total_percu (index db today))
      /\ (est_nombre (Index.total_percu (index db today)) ->
          (Revenu.total dernier
           =? Index.total_percu (index db today))%float = true)
      /\ Index.total_percu (index db today)
         = somme_montants
             (filter (fun p => String.eqb (Paiement.mois_concerne p)
                                          (strftime_Ym today))
                     (paiements db)).
Proof.
  intros db today Hv Hy.
  destruct (revenus_des_12_mois_valeur db today Hv ltac:(lia))
    as (revenus & Hrev & Hall).
  assert (Htok : jeton (mois_absolu today) = strftime_Ym today).
  { symmetry. destruct (mois_absolu_self today Hv) as [H1 H2].
    apply strftime_Ym_jeton; now symmetry. }
  assert (Hidx : Index.total_percu (index db today)
                 = somme_montants
                     (filter (fun p =>
                                String.eqb (Paiement.mois_concerne p)
                                           (strftime_Ym today))
                             (paiements db))) by reflexivity.
  destruct (Forall2_nth_error_droite _ _ _ _ _ 11%nat 0 Hall eq_refl)
    as (dernier & Hnth & _ & Hlast).
  exists (Statistiques.mk revenus (stats_des_biens db)), dernier.
  split; [unfold statistiques; now rewrite Hrev|].
  split; [exact Hnth|].
  assert (Heq : Revenu.total dernier
                = ou_zero (Index.total_percu (index db today))).
  { rewrite Hidx, Hlast, Z.sub_0_r, Htok. reflexivity. }
  split; [exact Heq|].
  split; [|exact Hidx].
  intro Hn. rewrite Heq. now apply ou_zero_eqb.
Qed.

Lemma total_percu_is_last_month_of_series_witness :
  exists stats dernier,
    statistiques Demo.base Demo.aujourd_hui = Some stats
    /\ nth_error (Statistiques.revenus_mensuels stats) 11 = Some dernier.
Proof.
  destruct (total_percu_is_last_month_of_series Demo.base Demo.aujourd_hui)
    as (stats & dernier & H1 & H2 & _).
  - unfold date_valide. vm_compute. intuition discriminate.
  - reflexivity.
  - exists stats, dernier. split; [exact H1|exact H2].
Defined.

(** X4. When every active tenant has a payment day from 1 to 28, nobody
    is late on the first day of a month, and from the 29th on the late
    list is exactly the active tenants without any payment bearing the
    token of the current month. *)
Theorem loyers_en_retard_premier_et_fin_de_mois :
  forall db today,
    (forall loc, In loc (locataires db) ->
                 Locataire.actif loc = true ->
                 1 <= Locataire.jour_paiement loc <= 28) ->
    (Date.day today <= 1 ->
     Index.loyers_en_retard (index db today) = [])
    /\ (28 < Date.day today ->
        Index.loyers_en_retard (index db today)
        = filter
            (fun loc =>
               negb (existsb
                       (fun p => String.eqb (Paiement.mois_concerne p)
                                            (strftime_Ym today))
                       (Locataire_paiements db loc)))
            (filter Locataire.actif (locataires db))).
Proof.
  intros db today Hjour. cbn [index Index.loyers_en_retard]. split.
  - intro Hd. apply filter_aucun. intros loc Hin.
    apply filter_In in Hin. destruct Hin as [Hin Hact].
    specialize (Hjour loc Hin Hact). rewrite Z.gtb_ltb.
    destruct (Z.ltb_spec (Locataire.jour_paiement loc) (Date.day today));
      [lia|]. apply andb_false_r.
  - intro Hd. apply filter_ext_in. intros loc Hin.
    apply filter_In in Hin. destruct Hin as [Hin Hact].
    specialize (Hjour loc Hin Hact). rewrite Z.gtb_ltb.
    destruct (Z.ltb_spec (Locataire.jour_paiement loc) (Date.day today));
      [|lia]. apply andb_true_r.
Qed.

Lemma loyers_en_retard_premier_et_fin_de_mois_witness :
  Index.loyers_en_retard (index Demo.base (Date.mk 2024 4 1)) = [].
Proof.
  apply (proj1 (loyers_en_retard_premier_et_fin_de_mois Demo.base
                  (Date.mk 2024 4 1)
                  ltac:(intros loc Hin _; simpl in Hin;
                        repeat (destruct Hin as [<- | Hin];
                                [vm_compute; intuition discriminate|]);
                        destruct Hin))).
  vm_compute. discriminate.
Defined.

(** ** Start-up *)

Lemma py_range_cons (start stop : Z) :
  start < stop ->
  py_range start stop = start :: py_range (start + 1) stop.
Proof.
  intro H. unfold py_range.
  replace (Z.to_nat (stop - start))
    with (S (Z.to_nat (stop - (start + 1)))) by lia.
  cbn [seq map]. f_equal; [lia|].
  rewrite <- seq_shift, map_map. apply map_ext. intro k. lia.
Qed.

Lemma py_range_nil (start stop : Z) :
  stop <= start -> py_range start stop = [].
Proof.
  intro H. unfold py_range.
  replace (Z.to_nat (stop - start)) with 0%nat by lia. reflexivity.
Qed.

Lemma find_py_range (f : Z -> bool) (n : nat) (start stop : Z) :
  Z.to_nat (stop - start) = n ->
  match find f (py_range start stop) with
  | Some x =>
      start <= x < stop /\ f x = true
      /\ (forall q, start <= q < x -> f q = false)
  | None => forall q, start <= q < stop -> f q = false
  end.
Proof.
  revert start. induction n as [|n IH]; intros start Hn.
  - rewrite py_range_nil by lia. simpl. intros q Hq. lia.
  - rewrite py_range_cons by lia. simpl.
    destruct (f start) eqn:E.
    + repeat split; try lia; try assumption.
    + specialize (IH (start + 1) ltac:(lia)).
      destruct (find f (py_range (start + 1) stop)) as [x|].
      * destruct IH as (Hx & Hfx & Hbefore).
        repeat split; try lia; try assumption.
        intros q Hq. destruct (Z.eq_dec q start) as [-> | Hne];
          [assumption|]. apply Hbefore. lia.
      * intros q Hq. destruct (Z.eq_dec q start) as [-> | Hne];
          [assumption|]. apply IH. lia.
Qed.

(** X5. [_find_free_port] returns the lowest port of the range on which
    binding succeeds; when binding fails on every port of the range it
    falls back to the first port, on which binding has just failed, and
    for a range that is not empty the result always lies in the range. *)
Theorem find_free_port_lowest_or_fallback :
  forall bind_ok start stop,
    let port := _find_free_port bind_ok start stop in
    ((exists p, start <= p < stop /\ bind_ok p = true) ->
     start <= port < stop
     /\ bind_ok port = true
     /\ (forall q, start <= q < port -> bind_ok q = false))
    /\ ((forall p, start <= p < stop -> bind_ok p = false) ->
        port = start)
    /\ (start < stop -> start <= port < stop)
    /\ (start < stop -> bind_ok port = false ->
        port = start
        /\ forall p, start <= p < stop -> bind_ok p = false).
Proof.
  intros bind_ok start stop port. unfold port, _find_free_port.
  pose proof (find_py_range bind_ok _ start stop eq_refl) as H.
  destruct (find bind_ok (py_range start stop)) as [x|].
  - destruct H as (Hx & Hfx & Hbefore).
    repeat split; try lia; try assumption.
    + intro Hall. specialize (Hall x Hx). congruence.
    + congruence.
    + intros p Hp. congruence.
  - split; [intros (p & Hp & Hfp); specialize (H p Hp); congruence|].
    split; [reflexivity|].
    split; [lia|]. intros _ _. split; [reflexivity|exact H].
Qed.

Lemma find_free_port_lowest_or_fallback_witness :
  5000 <= _find_free_port (fun p => 5002 <=? p) 5000 5100 < 5100
  /\ (5002 <=? _find_free_port (fun p => 5002 <=? p) 5000 5100) = true
  /\ (forall q,
        5000 <= q < _find_free_port (fun p => 5002 <=? p) 5000 5100 ->
        (5002 <=? q) = false).
Proof.
  apply (proj1 (find_free_port_lowest_or_fallback
                  (fun p => 5002 <=? p) 5000 5100)).
  exists 5002. split; [lia|reflexivity].
Defined.

Lemma set_meme_valeur (K V : Type) (eqb : K -> K -> bool) (k : K) (v : V)
  (d : dict K V) :
  (forall a b, eqb a b = true <-> a = b) ->
  get eqb k d = Some v -> set eqb k v d = d.
Proof.
  intro Hspec. induction d as [|[k' v'] d IH]; simpl; [discriminate|].
  destruct (eqb k' k) eqn:E.
  - intro H. now injection H as ->.
  - intro H. f_equal. now apply IH.
Qed.

Lemma migrations_fold (colonnes : list string)
  (l table : list (string * string)) :
  fold_left
    (fun table col =>
       if existsb (String.eqb (fst col)) colonnes then table
       else table ++ [col])
    l table
  = table ++ filter (fun col =>
                       negb (existsb (String.eqb (fst col)) colonnes)) l.
Proof.
  revert table. induction l as [|col l IH]; intro table; simpl.
  - now rewrite app_nil_r.
  - rewrite IH. destruct (existsb (String.eqb (fst col)) colonnes); simpl.
    + reflexivity.
    + now rewrite <- app_assoc.
Qed.

Lemma migrate_db_table (schema : Schema) (table : list (string * string)) :
  get String.eqb "locataire" schema = Some table ->
  _migrate_db schema
  = set String.eqb "locataire" (table ++ colonnes_manquantes table) schema.
Proof.
  intro H. unfold _migrate_db. rewrite H. now rewrite migrations_fold.
Qed.

Lemma colonnes_manquantes_apres (table : list (string * string)) :
  colonnes_manquantes (table ++ colonnes_manquantes table) = [].
Proof.
  unfold colonnes_manquantes at 1. apply filter_aucun.
  intros col Hcol. apply negb_false_iff.
  destruct (existsb (String.eqb (fst col)) (map fst table)) eqn:E.
  - rewrite map_app, existsb_app, E. reflexivity.
  - rewrite map_app, existsb_app, E. simpl.
    apply existsb_exists. exists (fst col). split.
    + apply in_map. unfold colonnes_manquantes. apply filter_In.
      split; [assumption|]. now rewrite E.
    + apply String.eqb_refl.
Qed.

(** X6. The schema patch only adds: when there is no tenant table the
    schema is unchanged; otherwise the tenant table keeps its columns in
    place and receives at its end those of the three business columns
    whose name it lacks, so that it has all three afterwards; no other
    table and no table name changes, and patching twice is patching
    once. *)
Theorem migrate_db_additive_idempotent :
  forall schema : Schema,
    map fst (_migrate_db schema) = map fst schema
    /\ (forall t, t <> "locataire" ->
          get String.eqb t (_migrate_db schema) = get String.eqb t schema)
    /\ (get String.eqb "locataire" schema = None ->
        _migrate_db schema = schema)
    /\ (forall table,
          get String.eqb "locataire" schema = Some table ->
          get String.eqb "locataire" (_migrate_db schema)
          = Some (table ++ colonnes_manquantes table)
          /\ (forall col, In col migrations ->
                In (fst col)
                   (map fst (table ++ colonnes_manquantes table)))
          /\ (colonnes_manquantes table = [] ->
              _migrate_db schema = schema))
    /\ _migrate_db (_migrate_db schema) = _migrate_db schema.
Proof.
  intro schema.
  destruct (get String.eqb "locataire" schema) as [table|] eqn:E.
  - rewrite (migrate_db_table schema table E).
    assert (Hget : get String.eqb "locataire"
                     (set String.eqb "locataire"
                        (table ++ colonnes_manquantes table) schema)
                   = Some (table ++ colonnes_manquantes table))
      by apply (get_set_same _ _ _ string_eqb_spec).
    split.
    { apply (keys_set_present _ _ _ string_eqb_spec).
      exact (get_Some_key _ _ _ string_eqb_spec _ _ _ E). }
    split.
    { intros t Ht. apply (get_set_other _ _ _ string_eqb_spec).
      congruence. }
    split; [discriminate|].
    split.
    { intros table' H. injection H as <-. split; [exact Hget|]. split.
      - intros col Hcol.
        destruct (existsb (String.eqb (fst col)) (map fst table)) eqn:Ex.
        + apply existsb_exists in Ex. destruct Ex as (x & Hx & Heq).
          apply String.eqb_eq in Heq. rewrite Heq, map_app.
          apply in_or_app. now left.
        + rewrite map_app. apply in_or_app. right. apply in_map.
          unfold colonnes_manquantes. apply filter_In.
          split; [assumption|]. now rewrite Ex.
      - intros ->. rewrite app_nil_r.
        now apply (set_meme_valeur _ _ _ _ _ _ string_eqb_spec). }
    rewrite (migrate_db_table _ _ Hget), colonnes_manquantes_apres,
      app_nil_r.
    now apply (set_meme_valeur _ _ _ _ _ _ string_eqb_spec).
  - assert (Hid : _migrate_db schema = schema)
      by (unfold _migrate_db; now rewrite E).
    rewrite !Hid. repeat split; try reflexivity; discriminate.
Qed.

Lemma migrate_db_additive_idempotent_witness :
  get String.eqb "locataire" (_migrate_db schema_ancien)
  = Some [ ("id", "INTEGER"); ("nom", "VARCHAR(100)");
           ("siret", "VARCHAR(14)"); ("raison_sociale", "VARCHAR(200)");
           ("dirigeant", "VARCHAR(200)") ].
Proof.
  exact (proj1 (proj1 (proj2 (proj2 (proj2
    (migrate_db_additive_idempotent schema_ancien)))) _ eq_refl)).
Defined.

(** X7. [init_db] seeds the two sample properties exactly when the
    property table is empty; it never changes a database that has a
    property, never touches the other tables, leaves a property table
    that is not empty, and doing it twice is doing it once. *)
Theorem init_db_seeds_once :
  forall db,
    (biens db = [] ->
     biens (init_db db) = [Demo.appartement; Demo.local])
    /\ (biens db <> [] -> init_db db = db)
    /\ locataires (init_db db) = locataires db
    /\ paiements (init_db db) = paiements db
    /\ bailleurs (init_db db) = bailleurs db
    /\ biens (init_db db) <> []
    /\ init_db (init_db db) = init_db db.
Proof.
  intro db. unfold init_db.
  destruct (biens db) as [|b l] eqn:E; simpl.
  - repeat split; try discriminate; congruence.
  - rewrite E. repeat split; try discriminate; congruence.
Qed.

Lemma init_db_seeds_once_witness :
  biens (init_db Demo.vide) = [Demo.appartement; Demo.local].
Proof.
  apply (proj1 (init_db_seeds_once Demo.vide)). reflexivity.
Defined.

(** ** Reading dates *)

Lemma chiffre_de_bornes (c : ascii) (bas haut n : Z) :
  chiffre_de c bas haut = Some n -> bas <= n <= haut.
Proof.
  unfold chiffre_de.
  destruct (Str.is_decimal c); simpl; [|discriminate].
  destruct (Z.leb_spec bas (Str.digit_value c)) as [Hb|Hb]; simpl;
    [|discriminate].
  destruct (Z.leb_spec (Str.digit_value c) haut) as [Hh|Hh];
    [|discriminate].
  intro Heq. injection Heq as <-. lia.
Qed.

Lemma chiffre_de_chiffre (n bas haut : Z) :
  0 <= n <= 9 ->
  chiffre_de (chiffre n) bas haut
  = if (bas <=? n) && (n <=? haut) then Some n else None.
Proof.
  intro Hn. unfold chiffre_de.
  destruct (chiffre_cases n Hn) as (H1 & _ & _ & _ & _ & H6).
  now rewrite H1, H6.
Qed.

Ltac cas_chiffres :=
  repeat match goal with
  | |- context [match chiffre_de ?c ?a ?b with _ => _ end] =>
      let E := fresh "E" in destruct (chiffre_de c a b) eqn:E
  | |- context [if Ascii.eqb ?a ?b then _ else _] =>
      destruct (Ascii.eqb a b)
  end;
  try discriminate;
  let H := fresh "H" in
  intro H;
  match type of H with
  | Some (?v, _) = Some (?m, _) =>
      assert (m = v) by congruence; subst m; clear H
  end;
  repeat match goal with
  | E : chiffre_de _ _ _ = Some _ |- _ => apply chiffre_de_bornes in E
  end;
  lia.

Lemma lire_mois_bornes (l r : list ascii) (m : Z) :
  lire_mois l = Some (m, r) -> 1 <= m <= 12.
Proof.
  unfold lire_mois. destruct l as [|c1 [|c2 r2]];
    [discriminate| |]; cas_chiffres.
Qed.

Lemma lire_jour_bornes (l r : list ascii) (j : Z) :
  lire_jour l = Some (j, r) -> 1 <= j <= 31.
Proof.
  unfold lire_jour. destruct l as [|c1 [|c2 r2]];
    [discriminate| |]; cas_chiffres.
Qed.

Lemma strptime_Ymd_valide (s : string) (d : Date.t) :
  strptime_Ymd s = Some d -> date_valide d.
Proof.
  unfold strptime_Ymd.
  destruct (list_ascii_of_string s) as [|y1 [|y2 [|y3 [|y4 [|t r]]]]];
    try discriminate.
  destruct (chiffre_de y1 0 9) as [a|] eqn:Ea; [|discriminate].
  destruct (chiffre_de y2 0 9) as [b|] eqn:Eb; [|discriminate].
  destruct (chiffre_de y3 0 9) as [c|] eqn:Ec; [|discriminate].
  destruct (chiffre_de y4 0 9) as [e|] eqn:Ee; [|discriminate].
  destruct (Ascii.eqb t "-"); [|discriminate].
  destruct (lire_mois r) as [[m [|t2 r']]|] eqn:Em; try discriminate.
  destruct (Ascii.eqb t2 "-"); [|discriminate].
  destruct (lire_jour r') as [[j [|x r'']]|] eqn:Ej; try discriminate.
  destruct ((1 <=? 1000 * a + 100 * b + 10 * c + e)
            && (j <=? jours_du_mois (1000 * a + 100 * b + 10 * c + e) m))
    eqn:Ev; [|discriminate].
  intro H.
  assert (Hd : d = Date.mk (1000 * a + 100 * b + 10 * c + e) m j)
    by congruence.
  subst d. clear H.
  apply andb_true_iff in Ev. destruct Ev as [Hy Hj].
  apply Z.leb_le in Hy. apply Z.leb_le in Hj.
  apply chiffre_de_bornes in Ea, Eb, Ec, Ee.
  apply lire_mois_bornes in Em. apply lire_jour_bornes in Ej.
  unfold date_valide. cbn [Date.year Date.month Date.day]. lia.
Qed.

Lemma lire_mois_sur2 (m : Z) (r : list ascii) :
  1 <= m <= 12 ->
  lire_mois (chiffre (m / 10 mod 10) :: chiffre (m mod 10) :: r)
  = Some (m, r).
Proof.
  intro H.
  assert (Hc : m = 1 \/ m = 2 \/ m = 3 \/ m = 4 \/ m = 5 \/ m = 6
               \/ m = 7 \/ m = 8 \/ m = 9 \/ m = 10 \/ m = 11 \/ m = 12)
    by lia.
  repeat (destruct Hc as [-> | Hc]; [reflexivity|]).
  subst m. reflexivity.
Qed.

Lemma lire_jour_sur2 (j : Z) (r : list ascii) :
  1 <= j <= 31 ->
  lire_jour (chiffre (j / 10 mod 10) :: chiffre (j mod 10) :: r)
  = Some (j, r).
Proof.
  intro H.
  assert (Hc : j = 1 \/ j = 2 \/ j = 3 \/ j = 4 \/ j = 5 \/ j = 6
               \/ j = 7 \/ j = 8 \/ j = 9 \/ j = 10 \/ j = 11 \/ j = 12
               \/ j = 13 \/ j = 14 \/ j = 15 \/ j = 16 \/ j = 17
               \/ j = 18 \/ j = 19 \/ j = 20 \/ j = 21 \/ j = 22
               \/ j = 23 \/ j = 24 \/ j = 25 \/ j = 26 \/ j = 27
               \/ j = 28 \/ j = 29 \/ j = 30 \/ j = 31) by lia.
  repeat (destruct Hc as [-> | Hc]; [reflexivity|]).
  subst j. reflexivity.
Qed.

Lemma jours_du_mois_bornes (y m : Z) : 28 <= jours_du_mois y m <= 31.
Proof.
  unfold jours_du_mois.
  destruct (m =? 2); [destruct (isleap y); lia|].
  destruct ((m =? 4) || (m =? 6) || (m =? 9) || (m =? 11)); lia.
Qed.

Lemma chiffre_de_mod10 (n : Z) :
  chiffre_de (chiffre (n mod 10)) 0 9 = Some (n mod 10).
Proof.
  pose proof (mod10_bornes n) as H.
  rewrite chiffre_de_chiffre by assumption.
  destruct (Z.leb_spec 0 (n mod 10)); [|lia].
  destruct (Z.leb_spec (n mod 10) 9); [reflexivity|lia].
Qed.

Lemma strptime_strftime (d : Date.t) :
  date_valide d -> strptime_Ymd (strftime_Ymd d) = Some d.
Proof.
  intros (Hy & Hm & Hd).
  pose proof (jours_du_mois_bornes (Date.year d) (Date.month d)) as Hb.
  unfold strptime_Ymd, strftime_Ymd, sur4, sur2.
  cbn [append list_ascii_of_string].
  rewrite !chiffre_de_mod10.
  change (Ascii.eqb "-" "-") with true. cbn iota.
  rewrite lire_mois_sur2 by lia.
  change (Ascii.eqb "-" "-") with true. cbn iota.
  rewrite lire_jour_sur2 by lia.
  assert (Hval : 1000 * (Date.year d / 1000 mod 10)
                 + 100 * (Date.year d / 100 mod 10)
                 + 10 * (Date.year d / 10 mod 10)
                 + Date.year d mod 10 = Date.year d)
    by (Z.div_mod_to_equations; lia).
  rewrite Hval.
  destruct (Z.leb_spec 1 (Date.year d)); [|lia].
  destruct (Z.leb_spec (Date.day d)
              (jours_du_mois (Date.year d) (Date.month d))); [|lia].
  cbn [andb]. now destruct d.
Qed.

(** X8. [_safe_date] gives a date only for a text that denotes a date of
    the calendar (year 1 to 9999, month 1 to 12, a day that the month
    has), so that a text such as a 30th of February reads as no date; it
    reads back every such date from its [%Y-%m-%d] text, and reads a
    missing or empty field as no date. *)
Theorem safe_date_sound_and_roundtrip :
  forall value,
    (forall d, _safe_date value = Some d -> date_valide d)
    /\ (forall d, date_valide d ->
          _safe_date (Some (strftime_Ymd d)) = Some d)
    /\ _safe_date None = None
    /\ _safe_date (Some "") = None
    /\ (forall y m j, value = Some (sur4 y ++ "-" ++ sur2 m ++ "-"
                                    ++ sur2 j)%string ->
          1 <= y <= 9999 -> 1 <= m <= 12 -> 1 <= j <= 31 ->
          jours_du_mois y m < j ->
          _safe_date value = None).
Proof.
  intro value. split; [|split; [|split; [|split]]].
  - intros d H. destruct value as [s|]; [|discriminate].
    unfold _safe_date in H. destruct (Str.falsy s); [discriminate|].
    now apply strptime_Ymd_valide in H.
  - intros d Hd. unfold _safe_date.
    replace (Str.falsy (strftime_Ymd d)) with false
      by (unfold strftime_Ymd, sur4; reflexivity).
    now apply strptime_strftime.
  - reflexivity.
  - reflexivity.
  - intros y m j -> Hy Hm Hj Hlong.
    unfold _safe_date, sur4. cbn [append Str.falsy].
    unfold strptime_Ymd, sur2. cbn [append list_ascii_of_string].
    rewrite !chiffre_de_mod10.
    change (Ascii.eqb "-" "-") with true. cbn iota.
    rewrite lire_mois_sur2 by lia.
    change (Ascii.eqb "-" "-") with true. cbn iota.
    rewrite lire_jour_sur2 by lia.
    assert (Hval : 1000 * (y / 1000 mod 10) + 100 * (y / 100 mod 10)
                   + 10 * (y / 10 mod 10) + y mod 10 = y)
      by (Z.div_mod_to_equations; lia).
    rewrite Hval.
    destruct (Z.leb_spec j (jours_du_mois y m)); [lia|].
    now rewrite andb_false_r.
Qed.

Lemma safe_date_sound_and_roundtrip_witness :
  _safe_date (Some (strftime_Ymd (Date.mk 2024 2 29)))
  = Some (Date.mk 2024 2 29).
Proof.
  apply (proj1 (proj2 (safe_date_sound_and_roundtrip None))).
  unfold date_valide. vm_compute. intuition discriminate.
Defined.

(** ** Reading the forms *)

Lemma lstrip_espaces_nil (l : list ascii) :
  lstrip_espaces l = [] <-> Forall (fun c => py_isspace c = true) l.
Proof.
  induction l as [|c l IH]; simpl.
  - split; [constructor|reflexivity].
  - destruct (py_isspace c) eqn:E.
    + rewrite IH. split; intro H; [now constructor|now inversion H].
    + split; [discriminate|]. intro H. inversion H; congruence.
Qed.

Lemma lstrip_espaces_tete (l r : list ascii) (c : ascii) :
  lstrip_espaces l = c :: r -> py_isspace c = false.
Proof.
  induction l as [|a l IH]; simpl; [discriminate|].
  destruct (py_isspace a) eqn:E; [exact IH|].
  intro H. injection H as -> _. exact E.
Qed.

Lemma all_chars_Forall (f : ascii -> bool) (s : string) :
  Str.all_chars f s = true
  <-> Forall (fun c => f c = true) (list_ascii_of_string s).
Proof.
  rewrite all_chars_forall, Forall_forall. reflexivity.
Qed.

(** [strip] leaves nothing exactly of the texts made of white space. *)
Lemma py_strip_vide (s : string) :
  py_strip s = "" <-> blanc s = true.
Proof.
  unfold py_strip, blanc. rewrite all_chars_Forall.
  set (l := list_ascii_of_string s).
  split.
  - intro H.
    assert (Hl : rev (lstrip_espaces (rev (lstrip_espaces l))) = []).
    { apply (f_equal list_ascii_of_string) in H.
      now rewrite list_ascii_of_string_of_list_ascii in H. }
    apply (f_equal (@rev ascii)) in Hl. rewrite rev_involutive in Hl.
    simpl in Hl. apply lstrip_espaces_nil in Hl.
    apply Forall_rev in Hl. rewrite rev_involutive in Hl.
    destruct (lstrip_espaces l) as [|c r] eqn:E.
    + now apply lstrip_espaces_nil.
    + apply lstrip_espaces_tete in E. inversion Hl; congruence.
  - intro H. apply lstrip_espaces_nil in H. now rewrite H.
Qed.

Lemma ou_None_strip (s : string) :
  ou_None (py_strip s) = if blanc s then None else Some (py_strip s).
Proof.
  unfold ou_None.
  destruct (blanc s) eqn:E.
  - apply py_strip_vide in E. now rewrite E.
  - destruct (py_strip s) eqn:Es; [|reflexivity].
    apply py_strip_vide in Es. congruence.
Qed.

Lemma falsy_strip (s : string) : Str.falsy (py_strip s) = blanc s.
Proof.
  destruct (blanc s) eqn:E.
  - apply py_strip_vide in E. now rewrite E.
  - destruct (py_strip s) eqn:Es; [|reflexivity].
    apply py_strip_vide in Es. congruence.
Qed.

Lemma falsy_opt_ou_None_strip (s : string) :
  Str.falsy_opt (ou_None (py_strip s)) = blanc s.
Proof.
  rewrite ou_None_strip. destruct (blanc s) eqn:E; [reflexivity|].
  simpl. now rewrite falsy_strip.
Qed.

(** X9. White space around a text field never counts. With the property
    of the form resolved, a last name or first name made of white space
    only (or missing) is answered with the names message for a property
    that is not commercial; for commercial premises a company name of
    white space only is answered with the company-name message, a SIRET
    of white space only with the SIRET-required message, and any other
    SIRET is judged on its text without the surrounding white space. *)
Theorem validate_parsed_locataire_ignores_white_space :
  forall py_float db form bien_id bien,
    let data := _parse_locataire_form py_float form in
    LocataireData.bien_id data = Some bien_id ->
    bien_id <> 0 ->
    Bien_query_get db bien_id = Some bien ->
    (Bien.type_bien bien <> "local_commercial" ->
     blanc (champ form "nom") = true \/ blanc (champ form "prenom") = true ->
     _validate_locataire_data db data = Some Msg.nom_prenom_requis)
    /\ (Bien.type_bien bien = "local_commercial" ->
        (blanc (champ form "raison_sociale") = true ->
         _validate_locataire_data db data
         = Some Msg.raison_sociale_requise)
        /\ (blanc (champ form "raison_sociale") = false ->
            blanc (champ form "siret") = true ->
            _validate_locataire_data db data = Some Msg.siret_requis)
        /\ (blanc (champ form "raison_sociale") = false ->
            blanc (champ form "siret") = false ->
            _validate_locataire_data db data
            = if siret_bien_forme (py_strip (champ form "siret"))
              then controles_du_bail data
              else Some Msg.siret_format)).
Proof.
  intros py_float db form bien_id bien data Hid Hnz Hget.
  unfold _validate_locataire_data. rewrite Hid.
  apply Z.eqb_neq in Hnz. rewrite Hnz, Hget. unfold champ.
  split.
  - intros Hty Hblanc. apply String.eqb_neq in Hty. rewrite Hty.
    unfold data, _parse_locataire_form.
    cbn [LocataireData.nom LocataireData.prenom].
    rewrite falsy_strip, falsy_opt_ou_None_strip.
    destruct Hblanc as [-> | ->]; [reflexivity|].
    now rewrite orb_true_r.
  - intros ->. cbn [String.eqb Ascii.eqb Bool.eqb].
    unfold data, _parse_locataire_form.
    cbn [LocataireData.raison_sociale LocataireData.siret].
    rewrite falsy_opt_ou_None_strip, ou_None_strip.
    split; [intros ->; reflexivity|].
    split.
    + intros -> ->. reflexivity.
    + intros H1 H2. rewrite H1, H2, falsy_strip, H2, siret_mal_forme_negb.
      fold (siret_bien_forme (py_strip (form_get_or form "siret" ""))).
      now destruct (siret_bien_forme _).
Qed.

Lemma validate_parsed_locataire_ignores_white_space_witness :
  _validate_locataire_data Demo.base
    (_parse_locataire_form lire_nombre formulaire_locataire_blanc)
  = Some Msg.nom_prenom_requis.
Proof.
  apply (proj1 (validate_parsed_locataire_ignores_white_space
                  lire_nombre Demo.base formulaire_locataire_blanc 1
                  Demo.appartement eq_refl ltac:(discriminate) eq_refl)).
  - discriminate.
  - left. reflexivity.
Defined.

(** ** What an accepted form guarantees *)

Lemma controles_du_bail_acceptes (data : LocataireData.t) :
  controles_du_bail data = None ->
  exists debut loyer,
    LocataireData.date_debut_bail data = Some debut
    /\ LocataireData.loyer_mensuel data = Some loyer
    /\ (loyer <? 0)%float = false
    /\ (forall g, LocataireData.depot_garantie data = Some g ->
                  (g <? 0)%float = false)
    /\ (forall j, LocataireData.jour_paiement data = Some j ->
                  1 <= j <= 28)
    /\ (forall fin, LocataireData.date_fin_bail data = Some fin ->
                    Date.ltb fin debut = false).
Proof.
  unfold controles_du_bail. intro H.
  destruct (LocataireData.date_debut_bail data) as [debut|];
    [|discriminate H].
  cbn [falsy_date] in H.
  destruct (LocataireData.loyer_mensuel data) as [l|]; [|discriminate H].
  destruct (l <? 0)%float eqn:El; [discriminate H|].
  exists debut, l. split; [reflexivity|]. split; [reflexivity|].
  split; [exact El|].
  assert (Hg : forall g, LocataireData.depot_garantie data = Some g ->
                         (g <? 0)%float = false).
  { intros g Eg. rewrite Eg in H.
    destruct (g <? 0)%float; [discriminate H|reflexivity]. }
  split; [exact Hg|].
  assert (H' : (if match LocataireData.jour_paiement data with
                   | Some j => (j <? 1) || (j >? 28)
                   | None => false
                   end
                then Some Msg.jour_paiement_bornes
                else if match LocataireData.date_fin_bail data with
                        | Some fin => Date.ltb fin debut
                        | None => false
                        end
                then Some Msg.fin_avant_debut
                else None) = None).
  { destruct (LocataireData.depot_garantie data) as [g|]; [|exact H].
    destruct (g <? 0)%float; [discriminate H|exact H]. }
  clear H. split.
  - intros j Ej. rewrite Ej in H'.
    destruct ((j <? 1) || (j >? 28)) eqn:E; [discriminate H'|].
    apply orb_false_iff in E.
    rewrite Z.ltb_ge, Z.gtb_ltb, Z.ltb_ge in E. lia.
  - intros fin Ef. rewrite Ef in H'.
    destruct (match LocataireData.jour_paiement data with
              | Some j => (j <? 1) || (j >? 28)
              | None => false
              end); [discriminate H'|].
    destruct (Date.ltb fin debut); [discriminate H'|reflexivity].
Qed.

Lemma colonne_float_Some (o : option float) (y : float) :
  colonne_float o = Some y ->
  exists x, o = Some x /\ sqlite_float x = Some y.
Proof.
  destruct o as [x|]; [|discriminate]. intro H. now exists x.
Qed.

(** The row that an accepted tenant form gives conforms to the rules;
    no row comes out of a rent that is [nan]. *)
Lemma locataire_cree_conforme (db : Base) (data : LocataireData.t)
  (id : Z) (actif : bool) :
  _validate_locataire_data db data = None ->
  match creer_locataire id actif data with
  | Some loc =>
      Locataire.id loc = id
      /\ Locataire.actif loc = actif
      /\ Locataire.nom loc = LocataireData.nom data
      /\ Locataire.prenom loc = LocataireData.prenom data
      /\ Locataire.raison_sociale loc = LocataireData.raison_sociale data
      /\ locataire_conforme db loc
  | None =>
      exists l, LocataireData.loyer_mensuel data = Some l
                /\ PrimFloat.is_nan l = true
  end.
Proof.
  unfold _validate_locataire_data.
  destruct (LocataireData.bien_id data) as [bien_id|] eqn:Eid;
    [|discriminate].
  destruct (bien_id =? 0); [discriminate|].
  destruct (Bien_query_get db bien_id) as [bien|] eqn:Eb; [|discriminate].
  intro H.
  assert (Hbail : controles_du_bail data = None).
  { destruct (String.eqb (Bien.type_bien bien) "local_commercial").
    - destruct (Str.falsy_opt (LocataireData.raison_sociale data));
        [discriminate|].
      destruct (LocataireData.siret data) as [s|]; [|discriminate].
      destruct (Str.falsy s); [discriminate|].
      destruct (siret_mal_forme s); [discriminate|assumption].
    - destruct (Str.falsy (LocataireData.nom data)
                || Str.falsy_opt (LocataireData.prenom data));
        [discriminate|assumption]. }
  destruct (controles_du_bail_acceptes data Hbail)
    as (debut & loyer & Hd & Hl & Hl0 & Hg & Hj & Hf).
  unfold creer_locataire. rewrite Eid, Hd, Hl.
  destruct (sqlite_float loyer) as [lu|] eqn:Es.
  2:{ exists loyer. split; [reflexivity|]. now apply sqlite_float_None. }
  destruct (sqlite_float_Some _ _ Es) as (_ & _ & _ & Hpos & _).
  cbn [Locataire.id Locataire.actif Locataire.nom Locataire.prenom
       Locataire.raison_sociale].
  repeat (split; [reflexivity|]).
  unfold locataire_conforme.
  cbn [Locataire.bien_id Locataire.loyer_mensuel Locataire.depot_garantie
       Locataire.jour_paiement Locataire.date_fin_bail
       Locataire.date_debut_bail Locataire.raison_sociale Locataire.siret
       Locataire.nom Locataire.prenom].
  split; [|split; [now apply Hpos|split; [|split; [|assumption]]]].
  - exists bien. split; [assumption|].
    destruct (String.eqb (Bien.type_bien bien) "local_commercial").
    + destruct (Str.falsy_opt (LocataireData.raison_sociale data));
        [discriminate|].
      split; [reflexivity|].
      destruct (LocataireData.siret data) as [s|]; [|discriminate].
      destruct (Str.falsy s); [discriminate|].
      destruct (siret_mal_forme s) eqn:Esi; [discriminate|].
      exists s. split; [reflexivity|].
      rewrite siret_mal_forme_negb in Esi. now apply negb_false_iff in Esi.
    + destruct (Str.falsy (LocataireData.nom data)) eqn:En;
        [discriminate|].
      destruct (Str.falsy_opt (LocataireData.prenom data)) eqn:Ep;
        [discriminate|]. now split.
  - intros g' Hg'. apply colonne_float_Some in Hg'.
    destruct Hg' as (g & Eg & Esg).
    destruct (sqlite_float_Some _ _ Esg) as (_ & _ & _ & Hgpos & _).
    apply Hgpos. now apply Hg.
  - destruct (LocataireData.jour_paiement data) as [j|];
      [now apply Hj|lia].
Qed.

Lemma Bien_query_get_In (db : Base) (id : Z) (bien : Bien.t) :
  Bien_query_get db id = Some bien -> In bien (biens db) /\ Bien.id bien = id.
Proof.
  unfold Bien_query_get. intro H. apply find_some in H.
  destruct H as [Hin Hid]. apply Z.eqb_eq in Hid. now split.
Qed.

(** X10. [ajouter_locataire] writes only after a form that the validator
    accepts and a commit that goes through: it then appends one active
    tenant with the id the database gave, attached to a property of the
    table and conforming to the validator's rules (rent at least 0,
    payment day from 1 to 28, lease end not before its start, names or
    company data present), and a database whose links are sound stays
    so; in every other case the database is left as it was and the form
    is shown again. A rent that is [nan] passes the validator, and is
    stopped by the column, which is not nullable: nothing is written. *)
Theorem ajouter_locataire_writes_conforming_row :
  forall py_float db m form id_frais commit_ok db' rep,
    ajouter_locataire py_float db m form id_frais commit_ok = (db', rep) ->
    ((db' = db
      /\ exists flash, rep = Page "locataires/formulaire.html" flash)
     \/ (m = POST /\ commit_ok = true
         /\ _validate_locataire_data db
              (_parse_locataire_form py_float form) = None
         /\ rep = Redirection "liste_locataires"
                    (success, Flash.locataire_ajoute)
         /\ exists loc,
              db' = avec_locataires db (locataires db ++ [loc])
              /\ Locataire.id loc = id_frais
              /\ Locataire.actif loc = true
              /\ locataire_conforme db loc))
    /\ (integrite db -> integrite db')
    /\ (forall l,
          LocataireData.loyer_mensuel (_parse_locataire_form py_float form)
          = Some l ->
          PrimFloat.is_nan l = true -> db' = db).
Proof.
  intros py_float db m form id_frais commit_ok db' rep H.
  unfold ajouter_locataire in H.
  destruct m.
  { injection H as <- <-. split; [left; split; eauto|]. now split. }
  destruct (_validate_locataire_data db
              (_parse_locataire_form py_float form)) as [err|] eqn:Ev.
  { injection H as <- <-. split; [left; split; eauto|]. now split. }
  pose proof (locataire_cree_conforme db _ id_frais true Ev) as Hcree.
  destruct (creer_locataire id_frais true
              (_parse_locataire_form py_float form)) as [loc|] eqn:Hc.
  2:{ injection H as <- <-. split; [left; split; eauto|]. now split. }
  destruct Hcree as (Hid & Hact & _ & _ & _ & Hconf).
  destruct commit_ok.
  - injection H as <- <-. split; [|split].
    + right. split; [reflexivity|]. split; [reflexivity|].
      split; [reflexivity|]. split; [reflexivity|].
      exists loc. split; [reflexivity|]. split; [assumption|].
      split; assumption.
    + intros [Hl Hp]. split.
      * intros l Hin. cbn in Hin. apply in_app_or in Hin.
        destruct Hin as [Hin|[<-|[]]]; [now apply Hl|].
        destruct Hconf as ((bien & Hb & _) & _).
        apply Bien_query_get_In in Hb. exists bien. cbn. tauto.
      * intros p Hin. cbn in Hin. destruct (Hp p Hin) as (l & Hin' & Hl').
        exists l. split; [|assumption]. cbn. apply in_or_app. now left.
    + intros l El Hnan. exfalso.
      unfold creer_locataire in Hc. rewrite El in Hc.
      unfold sqlite_float in Hc. rewrite Hnan in Hc.
      destruct (LocataireData.bien_id _); [|discriminate Hc].
      destruct (LocataireData.date_debut_bail _); discriminate Hc.
  - injection H as <- <-. split; [left; split; eauto|]. now split.
Qed.

Lemma integrite_demo : integrite Demo.base.
Proof.
  split.
  - intros l Hin. simpl in Hin.
    destruct Hin as [<- | [<- | [<- | []]]].
    + exists Demo.appartement. simpl. tauto.
    + exists Demo.appartement. simpl. tauto.
    + exists Demo.local. simpl. tauto.
  - intros p Hin. simpl in Hin.
    destruct Hin as [<- | [<- | [<- | [<- | [<- | [<- | [<- | []]]]]]]].
    + exists Demo.claire. simpl. tauto.
    + exists Demo.fournil. simpl. tauto.
    + exists Demo.claire. simpl. tauto.
    + exists Demo.claire. simpl. tauto.
    + exists Demo.ancien. simpl. tauto.
    + exists Demo.claire. simpl. tauto.
    + exists Demo.ancien. simpl. tauto.
Qed.

Lemma ajouter_locataire_writes_conforming_row_witness :
  integrite
    (fst (ajouter_locataire lire_nombre Demo.base POST
            formulaire_locataire_ok 4 true)).
Proof.
  exact (proj1 (proj2 (ajouter_locataire_writes_conforming_row lire_nombre
                         Demo.base POST formulaire_locataire_ok 4 true _ _
                         (surjective_pairing _))) integrite_demo).
Defined.

(** A rent sent as [nan] passes the validator and is refused by the
    database: the form is shown again after the message of a commit that
    failed. *)
Example ajouter_locataire_loyer_nan :
  _validate_locataire_data Demo.base
    (_parse_locataire_form lire_nombre formulaire_locataire_nan) = None
  /\ ajouter_locataire lire_nombre Demo.base POST formulaire_locataire_nan
       4 true
     = (Demo.base,
        Page "locataires/formulaire.html"
          (flash_danger Flash.erreur_enregistrement)).
Proof. split; vm_compute; reflexivity. Qed.

(** ** Payments *)

(** The row that an accepted payment form gives conforms to the rules;
    no row comes out of an amount that is [nan]. *)
Lemma paiement_cree_conforme (data : PaiementData.t) (id : Z) (q : bool) :
  _validate_paiement_data data = None ->
  match creer_paiement id q data with
  | Some p =>
      Paiement.id p = id
      /\ Paiement.quittance_generee p = q
      /\ Paiement.mois_concerne p = PaiementData.mois_concerne data
      /\ Paiement.categorie p = PaiementData.categorie data
      /\ PaiementData.locataire_id data = Some (Paiement.locataire_id p)
      /\ PaiementData.montant data = Some (Paiement.montant p)
      /\ paiement_conforme p
  | None =>
      exists mt, PaiementData.montant data = Some mt
                 /\ PrimFloat.is_nan mt = true
  end.
Proof.
  unfold _validate_paiement_data, falsy_int.
  destruct (PaiementData.locataire_id data) as [loc|] eqn:El;
    [|discriminate].
  destruct (Z.eqb_spec loc 0) as [|Hloc]; [discriminate|].
  destruct (PaiementData.montant data) as [mt|] eqn:Emt; [|discriminate].
  destruct (mt <=? 0)%float eqn:Em; [discriminate|].
  destruct (PaiementData.date_paiement data) as [d|] eqn:Ed;
    [|discriminate].
  cbn [falsy_date].
  destruct (Str.falsy (PaiementData.mois_concerne data)) eqn:Et;
    [discriminate|].
  intros _. unfold creer_paiement. rewrite El, Emt, Ed.
  destruct (sqlite_float mt) as [lu|] eqn:Es.
  2:{ exists mt. split; [reflexivity|]. now apply sqlite_float_None. }
  destruct (sqlite_float_Some _ _ Es) as (_ & _ & _ & _ & Hpos).
  destruct (Hpos Em) as [-> Hlt].
  cbn. repeat (split; [reflexivity|]).
  unfold paiement_conforme. cbn. split; [assumption|]. split.
  - exact Hlt.
  - intros Heq. rewrite Heq in Et. discriminate Et.
Qed.

Lemma paiement_conforme_nombre (p : Paiement.t) :
  paiement_conforme p -> PrimFloat.is_nan (Paiement.montant p) = false.
Proof.
  intros (_ & H & _). now apply ltb_zero_nombre.
Qed.

Lemma ajouter_paiement_issue (py_float : string -> option float)
  (db : Base) (m : methode) (form : Form) (id_frais : Z) (commit_ok : bool)
  (db' : Base) (rep : issue) :
  ajouter_paiement py_float db m form id_frais commit_ok = (db', rep) ->
  (db' = db
   /\ exists flash, rep = Page "paiements/formulaire.html" flash)
  \/ (m = POST /\ commit_ok = true
      /\ rep = Redirection "liste_paiements"
                 (success, Flash.paiement_enregistre)
      /\ exists p,
           db' = avec_paiements db (paiements db ++ [p])
           /\ Paiement.id p = id_frais
           /\ Paiement.quittance_generee p = false
           /\ paiement_conforme p
           /\ Paiement.mois_concerne p = champ form "mois_concerne"
           /\ _safe_int (form_get form "locataire_id") None
              = Some (Paiement.locataire_id p)
           /\ PaiementData.montant (_parse_paiement_form py_float form)
              = Some (Paiement.montant p)).
Proof.
  intro H. unfold ajouter_paiement in H.
  destruct m; [injection H as <- <-; left; split; eauto|].
  destruct (_validate_paiement_data (_parse_paiement_form py_float form))
    as [err|] eqn:Ev; [injection H as <- <-; left; split; eauto|].
  pose proof (paiement_cree_conforme _ id_frais false Ev) as Hcree.
  destruct (creer_paiement id_frais false
              (_parse_paiement_form py_float form)) as [p|];
    [|injection H as <- <-; left; split; eauto].
  destruct Hcree as (Hid & Hq & Htok & _ & Hloc & Hmt & Hconf).
  destruct commit_ok; [|injection H as <- <-; left; split; eauto].
  injection H as <- <-. right.
  split; [reflexivity|]. split; [reflexivity|]. split; [reflexivity|].
  exists p. split; [reflexivity|]. split; [assumption|].
  split; [assumption|]. split; [assumption|]. split; [exact Htok|].
  split; [exact Hloc|exact Hmt].
Qed.

(** X11. [ajouter_paiement] writes only after a form that the validator
    accepts and a commit that goes through: it then appends one payment
    with the id the database gave, a strictly positive amount, a token
    that is not empty and no receipt flag, and touches no other table.
    On the dashboard of [today] the collected amount is then the former
    one plus the amount of the payment when its token is the token of
    today's month, and is unchanged otherwise. In every other case the
    database is left as it was; so it is for an amount that is [nan],
    which passes the validator and is stopped by the column, which is
    not nullable. *)
Theorem ajouter_paiement_writes_and_dashboard :
  forall py_float db m form id_frais commit_ok db' rep,
    ajouter_paiement py_float db m form id_frais commit_ok = (db', rep) ->
    ((db' = db
      /\ exists flash, rep = Page "paiements/formulaire.html" flash)
     \/ (m = POST /\ commit_ok = true
         /\ rep = Redirection "liste_paiements"
                    (success, Flash.paiement_enregistre)
         /\ exists p,
              db' = avec_paiements db (paiements db ++ [p])
              /\ Paiement.id p = id_frais
              /\ Paiement.quittance_generee p = false
              /\ paiement_conforme p
              /\ Paiement.mois_concerne p = champ form "mois_concerne"
              /\ forall today,
                   Index.total_percu (index db' today)
                   = if String.eqb (Paiement.mois_concerne p)
                                   (strftime_Ym today)
                     then (Index.total_percu (index db today)
                           + Paiement.montant p)%float
                     else Index.total_percu (index db today)))
    /\ (forall mt,
          PaiementData.montant (_parse_paiement_form py_float form)
          = Some mt ->
          PrimFloat.is_nan mt = true -> db' = db).
Proof.
  intros py_float db m form id_frais commit_ok db' rep H.
  destruct (ajouter_paiement_issue _ _ _ _ _ _ _ _ H)
    as [Hleft | (Hm & Hc & Hrep & p & Hdb & Hid & Hq & Hconf & Htok & _
                 & Hmt)].
  { split; [now left|]. intros. now destruct Hleft. }
  split.
  - right. repeat (split; [assumption|]).
    exists p. repeat (split; [assumption|]).
    intro today. subst db'.
    cbn [index Index.total_percu avec_paiements paiements].
    rewrite filter_app, map_app. cbn [filter].
    destruct (String.eqb (Paiement.mois_concerne p) (strftime_Ym today)).
    + apply py_sum_snoc.
    + cbn [map]. now rewrite app_nil_r.
  - intros mt Emt Hnan. exfalso. rewrite Hmt in Emt. injection Emt as <-.
    rewrite (paiement_conforme_nombre p Hconf) in Hnan. discriminate Hnan.
Qed.

Lemma ajouter_paiement_writes_and_dashboard_witness :
  exists p,
    fst (ajouter_paiement lire_nombre Demo.base POST formulaire_paiement_ok
           8 true)
    = avec_paiements Demo.base (paiements Demo.base ++ [p])
    /\ Paiement.id p = 8.
Proof.
  destruct (proj1 (ajouter_paiement_writes_and_dashboard lire_nombre
                     Demo.base POST formulaire_paiement_ok 8 true _ _
                     (surjective_pairing _)))
    as [[_ [flash Hrep]] | (_ & _ & _ & p & Hdb & Hid & _)].
  - discriminate Hrep.
  - exists p. split; [exact Hdb|exact Hid].
Defined.

(** An amount sent as [nan] passes the validator and is refused by the
    database. *)
Example ajouter_paiement_montant_nan :
  _validate_paiement_data
    (_parse_paiement_form lire_nombre formulaire_paiement_nan) = None
  /\ ajouter_paiement lire_nombre Demo.base POST formulaire_paiement_nan
       8 true
     = (Demo.base,
        Page "paiements/formulaire.html"
          (flash_danger Flash.erreur_enregistrement)).
Proof. split; vm_compute; reflexivity. Qed.

(** ** Deletions *)

Lemma supprimer_premier_In (A : Type) (f : A -> bool) (l : list A) (x : A) :
  In x (supprimer_premier f l) -> In x l.
Proof.
  induction l as [|a l IH]; simpl; [trivial|].
  destruct (f a); [now right|].
  intros [-> | H]; [now left|right; now apply IH].
Qed.

Lemma supprimer_premier_garde (A : Type) (f : A -> bool) (l : list A)
  (x : A) :
  In x l -> f x = false -> In x (supprimer_premier f l).
Proof.
  induction l as [|a l IH]; simpl; [trivial|].
  intros [-> | H] Hx.
  - rewrite Hx. now left.
  - destruct (f a); [assumption|]. right. now apply IH.
Qed.

Lemma supprimer_premier_length (A : Type) (f : A -> bool) (l : list A)
  (y : A) :
  find f l = Some y ->
  S (List.length (supprimer_premier f l)) = List.length l.
Proof.
  induction l as [|a l IH]; simpl; [discriminate|].
  destruct (f a); [reflexivity|]. intro H. simpl. now rewrite IH.
Qed.

Lemma supprimer_premier_unique (A : Type) (cle : A -> Z) (id : Z)
  (l : list A) (x : A) :
  NoDup (map cle l) ->
  In x (supprimer_premier (fun a => cle a =? id) l) -> cle x <> id.
Proof.
  induction l as [|a l IH]; simpl; [intros _ []|].
  intro Hnd. inversion Hnd as [|? ? Hnot Hnd']; subst.
  destruct (Z.eqb_spec (cle a) id) as [E|E].
  - intros Hin Hx. apply Hnot. rewrite E, <- Hx. now apply in_map.
  - intros [<- | Hin]; [assumption|]. now apply IH.
Qed.

Lemma NoDup_map_inv_eq (A : Type) (cle : A -> Z) (l : list A) (x y : A) :
  NoDup (map cle l) -> In x l -> In y l -> cle x = cle y -> x = y.
Proof.
  induction l as [|a l IH]; simpl; [intros _ []|].
  intro Hnd. inversion Hnd as [|? ? Hnot Hnd']; subst.
  intros [-> | Hx] [-> | Hy] Heq.
  - reflexivity.
  - exfalso. apply Hnot. rewrite Heq. now apply in_map.
  - exfalso. apply Hnot. rewrite <- Heq. now apply in_map.
  - now apply IH.
Qed.

(** X12. [supprimer_bien] answers 404 for an unknown id and leaves the
    database as it was when the commit fails. Otherwise it removes the
    property, every tenant of the property and every payment of those
    tenants, and nothing else: the other properties, the tenants of
    other properties and the landlord stay, and so do, ids being unique,
    the payments of the tenants that stay; a database whose links are
    sound stays so. *)
Theorem supprimer_bien_cascade :
  forall db id commit_ok db' rep,
    supprimer_bien db id commit_ok = (db', rep) ->
    (Bien_query_get db id = None -> db' = db /\ rep = Introuvable)
    /\ (commit_ok = false -> db' = db)
    /\ (forall bien,
          Bien_query_get db id = Some bien ->
          commit_ok = true ->
          S (List.length (biens db')) = List.length (biens db)
          /\ (forall b, In b (biens db') -> In b (biens db))
          /\ (forall b, In b (biens db) -> Bien.id b <> id ->
                        In b (biens db'))
          /\ (NoDup (map Bien.id (biens db)) ->
              forall b, In b (biens db') -> Bien.id b <> id)
          /\ (forall l, In l (locataires db')
                        <-> In l (locataires db)
                            /\ Locataire.bien_id l <> id)
          /\ (forall p, In p (paiements db')
                        <-> In p (paiements db)
                            /\ forall l, In l (locataires db) ->
                                         Locataire.bien_id l = id ->
                                         Locataire.id l
                                         <> Paiement.locataire_id p)
          /\ (NoDup (map Locataire.id (locataires db)) ->
              forall l p, In l (locataires db') ->
                          In p (paiements db) ->
                          Paiement.locataire_id p = Locataire.id l ->
                          In p (paiements db'))
          /\ bailleurs db' = bailleurs db
          /\ (integrite db -> integrite db')).
Proof.
  intros db id commit_ok db' rep H. unfold supprimer_bien in H.
  unfold Bien_query_get_or_404 in H.
  destruct (Bien_query_get db id) as [bien|] eqn:Eb.
  2:{ injection H as <- <-. repeat split; try discriminate. }
  destruct (Bien_query_get_In db id bien Eb) as [Hbin Hbid].
  destruct commit_ok.
  2:{ injection H as <- <-.
      split; [discriminate|]. split; [reflexivity|].
      intros ? _ Hc. discriminate Hc. }
  injection H as <- <-.
  split; [discriminate|]. split; [discriminate|].
  intros bien' Hb' _. injection Hb' as <-.
  assert (Hloc : forall l, In l (locataires (delete_bien db bien))
                           <-> In l (locataires db)
                               /\ Locataire.bien_id l <> id).
  { intro l. cbn [delete_bien locataires]. rewrite filter_In, Hbid.
    rewrite negb_true_iff, Z.eqb_neq. reflexivity. }
  assert (Hpay : forall p, In p (paiements (delete_bien db bien))
                           <-> In p (paiements db)
                               /\ forall l, In l (locataires db) ->
                                            Locataire.bien_id l = id ->
                                            Locataire.id l
                                            <> Paiement.locataire_id p).
  { intro p. cbn [delete_bien paiements]. rewrite filter_In.
    rewrite negb_true_iff. unfold Bien_locataires. rewrite Hbid.
    split.
    - intros [Hin Hex]. split; [assumption|].
      intros l Hl Hlb Heq.
      assert (Ht : existsb
                     (fun l0 => Paiement.locataire_id p =? Locataire.id l0)
                     (filter (fun l0 => Locataire.bien_id l0 =? id)
                             (locataires db)) = true).
      { apply existsb_exists. exists l. split.
        - apply filter_In. split; [assumption|now apply Z.eqb_eq].
        - apply Z.eqb_eq. now symmetry. }
      congruence.
    - intros [Hin Hall]. split; [assumption|].
      destruct (existsb _ _) eqn:E; [|reflexivity].
      apply existsb_exists in E. destruct E as (l & Hl & Heq).
      apply filter_In in Hl. destruct Hl as [Hl Hlb].
      apply Z.eqb_eq in Hlb. apply Z.eqb_eq in Heq.
      exfalso. apply (Hall l Hl Hlb). now symmetry. }
  split.
  { cbn [delete_bien biens]. rewrite Hbid.
    now apply (supprimer_premier_length _ _ _ bien). }
  split.
  { intros b Hb. cbn [delete_bien biens] in Hb.
    now apply supprimer_premier_In in Hb. }
  split.
  { intros b Hb Hne. cbn [delete_bien biens].
    apply supprimer_premier_garde; [assumption|].
    rewrite Hbid. now apply Z.eqb_neq. }
  split.
  { intros Hnd b Hb. cbn [delete_bien biens] in Hb. rewrite Hbid in Hb.
    now apply (supprimer_premier_unique _ Bien.id id (biens db)). }
  split; [exact Hloc|]. split; [exact Hpay|].
  split.
  { intros Hnd l p Hl Hp Hid. apply Hpay. split; [assumption|].
    intros l0 Hl0 Hb0 Heq. apply Hloc in Hl. destruct Hl as [Hl Hlb].
    assert (l0 = l).
    { apply (NoDup_map_inv_eq _ Locataire.id (locataires db));
        try assumption. congruence. }
    subst l0. contradiction. }
  split; [reflexivity|].
  intros [Hl Hp]. split.
  - intros l Hin. apply Hloc in Hin. destruct Hin as [Hin Hne].
    destruct (Hl l Hin) as (b & Hb & Hbl). exists b. split; [|assumption].
    cbn [delete_bien biens]. apply supprimer_premier_garde; [assumption|].
    rewrite Hbid. apply Z.eqb_neq. congruence.
  - intros p Hin. apply Hpay in Hin. destruct Hin as [Hin Hall].
    destruct (Hp p Hin) as (l & Hlin & Hlid). exists l.
    split; [|assumption]. apply Hloc. split; [assumption|].
    intro Hb. exact (Hall l Hlin Hb Hlid).
Qed.

Lemma supprimer_bien_cascade_witness :
  integrite (fst (supprimer_bien Demo.base 1 true)).
Proof.
  apply (proj2 (proj2 (proj2 (proj2 (proj2 (proj2 (proj2 (proj2
    (proj2 (proj2 (supprimer_bien_cascade Demo.base 1 true _ _
                     (surjective_pairing _)))
       Demo.appartement eq_refl eq_refl))))))))).
  exact integrite_demo.
Defined.

(** X13. [supprimer_locataire] answers 404 for an unknown id and leaves
    the database as it was when the commit fails. Otherwise it removes
    the tenant and every payment that bears the tenant's id, and nothing
    else; a database whose links are sound stays so. *)
Theorem supprimer_locataire_cascade :
  forall db id commit_ok db' rep,
    supprimer_locataire db id commit_ok = (db', rep) ->
    (Locataire_query_get_or_404 db id = None ->
     db' = db /\ rep = Introuvable)
    /\ (commit_ok = false -> db' = db)
    /\ (forall loc,
          Locataire_query_get_or_404 db id = Some loc ->
          commit_ok = true ->
          biens db' = biens db
          /\ bailleurs db' = bailleurs db
          /\ S (List.length (locataires db')) = List.length (locataires db)
          /\ (forall l, In l (locataires db') -> In l (locataires db))
          /\ (forall l, In l (locataires db) -> Locataire.id l <> id ->
                        In l (locataires db'))
          /\ (forall p, In p (paiements db')
                        <-> In p (paiements db)
                            /\ Paiement.locataire_id p <> id)
          /\ (integrite db -> integrite db')).
Proof.
  intros db id commit_ok db' rep H. unfold supprimer_locataire in H.
  destruct (Locataire_query_get_or_404 db id) as [loc|] eqn:El.
  2:{ injection H as <- <-. repeat split; try discriminate. }
  assert (Hid : Locataire.id loc = id).
  { unfold Locataire_query_get_or_404 in El. apply find_some in El.
    now apply Z.eqb_eq. }
  destruct commit_ok.
  2:{ injection H as <- <-.
      split; [discriminate|]. split; [reflexivity|].
      intros ? _ Hc. discriminate Hc. }
  injection H as <- <-.
  split; [discriminate|]. split; [discriminate|].
  intros loc' Hloc' _. injection Hloc' as <-.
  assert (Hpay : forall p, In p (paiements (delete_locataire db loc))
                           <-> In p (paiements db)
                               /\ Paiement.locataire_id p <> id).
  { intro p. cbn [delete_locataire paiements].
    now rewrite filter_In, negb_true_iff, Z.eqb_neq, Hid. }
  split; [reflexivity|]. split; [reflexivity|].
  split.
  { cbn [delete_locataire locataires]. rewrite Hid.
    apply (supprimer_premier_length _ _ _ loc). exact El. }
  split.
  { intros l Hl. cbn [delete_locataire locataires] in Hl.
    now apply supprimer_premier_In in Hl. }
  split.
  { intros l Hl Hne. cbn [delete_locataire locataires].
    apply supprimer_premier_garde; [assumption|].
    rewrite Hid. now apply Z.eqb_neq. }
  split; [exact Hpay|].
  intros [Hl Hp]. split.
  - intros l Hin. cbn [delete_locataire locataires] in Hin.
    apply supprimer_premier_In in Hin. now apply Hl.
  - intros p Hin. apply Hpay in Hin. destruct Hin as [Hin Hne].
    destruct (Hp p Hin) as (l & Hlin & Hlid). exists l.
    split; [|assumption]. cbn [delete_locataire locataires].
    apply supprimer_premier_garde; [assumption|].
    rewrite Hid. apply Z.eqb_neq. congruence.
Qed.

Lemma supprimer_locataire_cascade_witness :
  integrite (fst (supprimer_locataire Demo.base 1 true)).
Proof.
  apply (proj2 (proj2 (proj2 (proj2 (proj2 (proj2
    (proj2 (proj2 (supprimer_locataire_cascade Demo.base 1 true _ _
                     (surjective_pairing _)))
       Demo.claire eq_refl eq_refl))))))).
  exact integrite_demo.
Defined.

(** ** Lateness after a payment *)

Lemma en_retard_In (db : Base) (today : Date.t) (loc : Locataire.t) :
  In loc (Index.loyers_en_retard (index db today))
  <-> In loc (locataires db)
      /\ Locataire.actif loc = true
      /\ existsb (fun p => String.eqb (Paiement.mois_concerne p)
                                      (strftime_Ym today))
                 (Locataire_paiements db loc) = false
      /\ (Date.day today >? Locataire.jour_paiement loc) = true.
Proof.
  cbn [index Index.loyers_en_retard].
  rewrite filter_In, filter_In, andb_true_iff, negb_true_iff. tauto.
Qed.

Lemma Locataire_paiements_snoc (db : Base) (p : Paiement.t)
  (loc : Locataire.t) :
  Locataire_paiements (avec_paiements db (paiements db ++ [p])) loc
  = Locataire_paiements db loc
    ++ (if Paiement.locataire_id p =? Locataire.id loc then [p] else []).
Proof.
  unfold Locataire_paiements. cbn [avec_paiements paiements].
  rewrite filter_app. reflexivity.
Qed.

(** X14. Recording a payment never makes a tenant late. When a payment
    is recorded under the token of today's month, the tenant it names is
    not on the late list afterwards, and for every other tenant being
    late or not is as before, whatever the token. *)
Theorem ajouter_paiement_and_lateness :
  forall py_float db m form id_frais commit_ok db' rep today,
    ajouter_paiement py_float db m form id_frais commit_ok = (db', rep) ->
    let nomme := _safe_int (form_get form "locataire_id") None in
    let en_retard d := Index.loyers_en_retard (index d today) in
    (forall loc, In loc (en_retard db') -> In loc (en_retard db))
    /\ (db' <> db ->
        champ form "mois_concerne" = strftime_Ym today ->
        forall loc, In loc (en_retard db') ->
                    nomme <> Some (Locataire.id loc))
    /\ (forall loc, nomme <> Some (Locataire.id loc) ->
          (In loc (en_retard db') <-> In loc (en_retard db))).
Proof.
  intros py_float db m form id_frais commit_ok db' rep today H nomme
         en_retard.
  destruct (ajouter_paiement_issue _ _ _ _ _ _ _ _ H)
    as [[-> _] | (_ & _ & _ & p & -> & _ & _ & _ & Htok & Hloc & _)].
  { split; [trivial|]. split; [congruence|]. intros loc _. reflexivity. }
  fold nomme in Hloc. unfold en_retard.
  assert (Hex : forall loc,
    existsb (fun q => String.eqb (Paiement.mois_concerne q)
                                 (strftime_Ym today))
            (Locataire_paiements
               (avec_paiements db (paiements db ++ [p])) loc)
    = existsb (fun q => String.eqb (Paiement.mois_concerne q)
                                   (strftime_Ym today))
              (Locataire_paiements db loc)
      || ((Paiement.locataire_id p =? Locataire.id loc)
          && String.eqb (Paiement.mois_concerne p) (strftime_Ym today))).
  { intro loc. rewrite Locataire_paiements_snoc, existsb_app.
    destruct (Paiement.locataire_id p =? Locataire.id loc); simpl.
    - now rewrite orb_false_r.
    - reflexivity. }
  split; [|split].
  - intros loc Hin. apply en_retard_In in Hin. apply en_retard_In.
    rewrite Hex in Hin. cbn [avec_paiements locataires] in Hin.
    destruct Hin as (H1 & H2 & H3 & H4).
    apply orb_false_iff in H3. tauto.
  - intros _ Hmois loc Hin Hn. apply en_retard_In in Hin.
    rewrite Hex in Hin. destruct Hin as (_ & _ & H3 & _).
    apply orb_false_iff in H3. destruct H3 as [_ H3].
    rewrite Hloc in Hn. injection Hn as Hn.
    rewrite Hn, Z.eqb_refl, Htok, Hmois, String.eqb_refl in H3.
    discriminate H3.
  - intros loc Hn. rewrite !en_retard_In, Hex.
    cbn [avec_paiements locataires].
    assert (Hne : (Paiement.locataire_id p =? Locataire.id loc) = false).
    { apply Z.eqb_neq. intro Heq. apply Hn. now rewrite Hloc, Heq. }
    rewrite Hne. cbn [andb]. now rewrite orb_false_r.
Qed.

Lemma ajouter_paiement_and_lateness_witness :
  ~ In Demo.fournil
       (Index.loyers_en_retard
          (index (fst (ajouter_paiement lire_nombre Demo.base POST
                         formulaire_paiement_ok 8 true))
                 Demo.aujourd_hui)).
Proof.
  intro Hin.
  apply (proj1 (proj2 (ajouter_paiement_and_lateness lire_nombre Demo.base
                         POST formulaire_paiement_ok 8 true _ _
                         Demo.aujourd_hui (surjective_pairing _)))
           ltac:(vm_compute; discriminate) eq_refl Demo.fournil Hin).
  reflexivity.
Defined.

(** ** Settings *)

(** X15. [parametres] writes only on a POST whose name and address are
    not white space and whose commit goes through. It then overwrites
    the first landlord row, keeping its id, or creates the row when the
    table is empty: a table that has a row never gets another, the rows
    after the first and the other tables are untouched, and the first
    row, the one the receipts show, carries the name and address of the
    form without surrounding white space and its other fields as sent.
    In every other case the database is left as it was. *)
Theorem parametres_keeps_one_landlord :
  forall db m form id_frais commit_ok db' rep,
    parametres db m form id_frais commit_ok = (db', rep) ->
    biens db' = biens db
    /\ locataires db' = locataires db
    /\ paiements db' = paiements db
    /\ (List.length (bailleurs db') = List.length (bailleurs db)
        \/ (bailleurs db = [] /\ List.length (bailleurs db') = 1%nat))
    /\ tl (bailleurs db') = tl (bailleurs db)
    /\ ((db' = db /\ exists flash, rep = Page "parametres.html" flash)
        \/ (m = POST /\ commit_ok = true
            /\ blanc (champ form "nom") = false
            /\ blanc (champ form "adresse") = false
            /\ rep = Redirection "parametres"
                       (success, Flash.parametres_enregistres)
            /\ exists b,
                 hd_error (bailleurs db') = Some b
                 /\ Bailleur.id b
                    = match bailleurs db with
                      | ancien :: _ => Bailleur.id ancien
                      | [] => id_frais
                      end
                 /\ Bailleur.nom b = py_strip (champ form "nom")
                 /\ Bailleur.adresse b = py_strip (champ form "adresse")
                 /\ Bailleur.nom b <> "" /\ Bailleur.adresse b <> ""
                 /\ Bailleur.code_postal b = champ form "code_postal"
                 /\ Bailleur.ville b = champ form "ville"
                 /\ Bailleur.siret b = champ form "siret")).
Proof.
  intros db m form id_frais commit_ok db' rep H.
  unfold parametres in H.
  assert (Hsame : forall flash,
             (db', rep) = (db, Page "parametres.html" flash) ->
             biens db' = biens db
             /\ locataires db' = locataires db
             /\ paiements db' = paiements db
             /\ (List.length (bailleurs db') = List.length (bailleurs db)
                 \/ (bailleurs db = []
                     /\ List.length (bailleurs db') = 1%nat))
             /\ tl (bailleurs db') = tl (bailleurs db)
             /\ ((db' = db
                  /\ exists flash, rep = Page "parametres.html" flash)
                 \/ (m = POST /\ commit_ok = true
                     /\ blanc (champ form "nom") = false
                     /\ blanc (champ form "adresse") = false
                     /\ rep = Redirection "parametres"
                                (success, Flash.parametres_enregistres)
                     /\ exists b,
                          hd_error (bailleurs db') = Some b
                          /\ Bailleur.id b
                             = match bailleurs db with
                               | ancien :: _ => Bailleur.id ancien
                               | [] => id_frais
                               end
                          /\ Bailleur.nom b = py_strip (champ form "nom")
                          /\ Bailleur.adresse b
                             = py_strip (champ form "adresse")
                          /\ Bailleur.nom b <> ""
                          /\ Bailleur.adresse b <> ""
                          /\ Bailleur.code_postal b
                             = champ form "code_postal"
                          /\ Bailleur.ville b = champ form "ville"
                          /\ Bailleur.siret b = champ form "siret"))).
  { intros flash Heq. injection Heq as -> ->.
    repeat (split; [reflexivity|]).
    split; [now left|].
    split; [reflexivity|]. left. split; eauto. }
  destruct m; [now apply (Hsame None)|].
  rewrite !falsy_strip in H. fold (champ form "nom") in H.
  fold (champ form "adresse") in H.
  destruct (blanc (champ form "nom")) eqn:En;
    [now apply (Hsame (flash_danger Flash.bailleur_requis))|].
  destruct (blanc (champ form "adresse")) eqn:Ea;
    [now apply (Hsame (flash_danger Flash.bailleur_requis))|].
  cbn [orb] in H.
  destruct commit_ok;
    [|now apply (Hsame (flash_danger Flash.parametres_erreur))].
  injection H as <- <-. clear Hsame.
  assert (Hn : py_strip (champ form "nom") <> "")
    by (intro Hv; apply py_strip_vide in Hv; congruence).
  assert (Had : py_strip (champ form "adresse") <> "")
    by (intro Hv; apply py_strip_vide in Hv; congruence).
  repeat (split; [reflexivity|]).
  cbn [avec_bailleurs bailleurs].
  split; [destruct (bailleurs db) as [|b l]; simpl; [now right|now left]|].
  split; [now destruct (bailleurs db)|].
  right. repeat (split; [reflexivity|]).
  destruct (bailleurs db) as [|ancien reste]; eexists;
    (split; [reflexivity|]); cbn; repeat split; assumption.
Qed.

Lemma parametres_keeps_one_landlord_witness :
  List.length
    (bailleurs (fst (parametres Demo.base POST formulaire_bailleur_ok 9
                       true)))
  = 1%nat.
Proof.
  destruct (parametres_keeps_one_landlord Demo.base POST
              formulaire_bailleur_ok 9 true _ _ (surjective_pairing _))
    as (_ & _ & _ & [Hlen | [Hvide _]] & _).
  - exact Hlen.
  - discriminate Hvide.
Defined.

(** ** Editing a tenant *)

Lemma modifier_premier_length (A : Type) (f : A -> bool) (g : A -> A)
  (l : list A) :
  List.length (modifier_premier f g l) = List.length l.
Proof.
  induction l as [|a l IH]; simpl; [reflexivity|].
  destruct (f a); simpl; [reflexivity|now rewrite IH].
Qed.

Lemma modifier_premier_trouve (A : Type) (f : A -> bool) (y a : A)
  (l : list A) :
  find f l = Some a -> In y (modifier_premier f (fun _ => y) l).
Proof.
  induction l as [|b l IH]; simpl; [discriminate|].
  destruct (f b); [intros _; now left|]. intro H. right. now apply IH.
Qed.

Lemma modifier_premier_In (A : Type) (cle : A -> Z) (id : Z) (y : A)
  (l : list A) (x : A) :
  NoDup (map cle l) ->
  In x (modifier_premier (fun a => cle a =? id) (fun _ => y) l) ->
  x = y \/ (In x l /\ cle x <> id).
Proof.
  induction l as [|a l IH]; simpl; [intros _ []|].
  intro Hnd. inversion Hnd as [|? ? Hnot Hnd']; subst.
  destruct (Z.eqb_spec (cle a) id) as [E|E].
  - intros [<- | Hin]; [now left|]. right. split; [now right|].
    intro Hx. apply Hnot. rewrite E, <- Hx. now apply in_map.
  - intros [<- | Hin]; [right; split; [now left|assumption]|].
    destruct (IH Hnd' Hin) as [-> | [Hl Hne]]; [now left|].
    right. split; [now right|assumption].
Qed.

(** X16. [modifier_locataire] answers 404 for an unknown id and writes
    only after a form that the validator accepts and a commit that goes
    through. It then replaces the tenant by a row with the same id that
    conforms to the validator's rules and is active exactly when the
    form carries the field [actif]; the other tables keep their rows and
    the tenant table its length. With unique ids every other tenant is
    as before, and a tenant saved without the field [actif] is no longer
    among the active tenants of the dashboard. *)
Theorem modifier_locataire_actif_checkbox :
  forall py_float db id m form commit_ok db' rep,
    modifier_locataire py_float db id m form commit_ok = (db', rep) ->
    (Locataire_query_get_or_404 db id = None ->
     db' = db /\ rep = Introuvable)
    /\ (db' <> db ->
        m = POST /\ commit_ok = true
        /\ biens db' = biens db
        /\ paiements db' = paiements db
        /\ bailleurs db' = bailleurs db
        /\ List.length (locataires db') = List.length (locataires db)
        /\ exists modifie,
             In modifie (locataires db')
             /\ Locataire.id modifie = id
             /\ Locataire.actif modifie = mem String.eqb "actif" form
             /\ locataire_conforme db modifie
             /\ (NoDup (map Locataire.id (locataires db)) ->
                 (forall l, In l (locataires db') ->
                            l = modifie
                            \/ (In l (locataires db)
                                /\ Locataire.id l <> id))
                 /\ (mem String.eqb "actif" form = false ->
                     forall today l,
                       In l (Index.locataires_actifs (index db' today)) ->
                       Locataire.id l <> id))).
Proof.
  intros py_float db id m form commit_ok db' rep H.
  unfold modifier_locataire in H.
  destruct (Locataire_query_get_or_404 db id) as [loc|] eqn:El.
  2:{ injection H as <- <-. split; [now split|congruence]. }
  split; [discriminate|].
  destruct m; [injection H as <- <-; congruence|].
  destruct (_validate_locataire_data db
              (_parse_locataire_form py_float form)) as [err|] eqn:Ev;
    [injection H as <- <-; congruence|].
  pose proof (locataire_cree_conforme db _ id
                (mem String.eqb "actif" form) Ev) as Hcree.
  destruct (creer_locataire id (mem String.eqb "actif" form)
              (_parse_locataire_form py_float form)) as [modifie|];
    [|injection H as <- <-; congruence].
  destruct Hcree as (Hid & Hact & _ & _ & _ & Hconf).
  destruct commit_ok; [|injection H as <- <-; congruence].
  injection H as <- <-. intros _.
  split; [reflexivity|]. split; [reflexivity|].
  split; [reflexivity|]. split; [reflexivity|]. split; [reflexivity|].
  cbn [avec_locataires locataires].
  split; [apply modifier_premier_length|].
  exists modifie.
  split; [apply (modifier_premier_trouve _ _ _ loc); exact El|].
  split; [assumption|]. split; [assumption|]. split; [assumption|].
  intro Hnd.
  assert (Hin : forall l,
             In l (modifier_premier (fun l0 => Locataire.id l0 =? id)
                     (fun _ => modifie) (locataires db)) ->
             l = modifie \/ (In l (locataires db) /\ Locataire.id l <> id)).
  { intros l Hl.
    now apply (modifier_premier_In _ Locataire.id id modifie
                 (locataires db)). }
  split; [exact Hin|].
  intros Hoff today l Hl.
  cbn [index Index.locataires_actifs avec_locataires locataires] in Hl.
  apply filter_In in Hl. destruct Hl as [Hl Hactif].
  destruct (Hin l Hl) as [-> | [_ Hne]]; [|assumption].
  rewrite Hact, Hoff in Hactif. discriminate Hactif.
Qed.

Lemma modifier_locataire_actif_checkbox_witness :
  List.length
    (locataires (fst (modifier_locataire lire_nombre Demo.base 1 POST
                        formulaire_locataire_inactif true)))
  = 3%nat.
Proof.
  destruct (proj2 (modifier_locataire_actif_checkbox lire_nombre Demo.base
                     1 POST formulaire_locataire_inactif true _ _
                     (surjective_pairing _))
              ltac:(vm_compute; discriminate))
    as (_ & _ & _ & _ & _ & Hlen & _).
  exact Hlen.
Defined.

(** ** Properties *)

Lemma controles_du_bien_acceptes (py_float : string -> option float)
  (form : Form) (id : Z) :
  controles_du_bien (_parse_bien_form py_float form) = None ->
  blanc (champ form "nom") = false
  /\ blanc (champ form "adresse") = false
  /\ bien_conforme (creer_bien id (_parse_bien_form py_float form)).
Proof.
  unfold controles_du_bien, _parse_bien_form.
  cbn [BienData.nom BienData.adresse BienData.charges_mensuelles].
  rewrite !falsy_strip. fold (champ form "nom") (champ form "adresse").
  destruct (blanc (champ form "nom")) eqn:En; [discriminate|].
  destruct (blanc (champ form "adresse")) eqn:Ea; [discriminate|].
  intro H. split; [reflexivity|]. split; [reflexivity|].
  unfold bien_conforme, creer_bien.
  cbn [Bien.nom Bien.adresse Bien.charges_mensuelles BienData.nom
       BienData.adresse BienData.charges_mensuelles].
  fold (champ form "nom") (champ form "adresse").
  split; [intro Hv; apply py_strip_vide in Hv; congruence|].
  split; [intro Hv; apply py_strip_vide in Hv; congruence|].
  intros c' Hc'. apply colonne_float_Some in Hc'.
  destruct Hc' as (c & Ec & Es). rewrite Ec in H.
  destruct (c <? 0)%float eqn:Eneg; [discriminate H|].
  destruct (sqlite_float_Some _ _ Es) as (_ & _ & _ & Hpos & _).
  now apply Hpos.
Qed.

(** X17. [ajouter_bien] checks the name first, then the address, then
    the charges: a name of white space only is answered with the name
    message whatever the address, an address of white space only with
    the address message. It writes only when the three checks pass and
    the commit goes through, and then appends one property with the id
    the database gave, a name and an address without surrounding white
    space and not empty, and charges that, when the row has some, are at
    least 0: they are 0 when the field is missing or cannot be read as a
    number, and the row has none when the field reads as [nan], which
    passes the check and is stored as [NULL]. *)
Theorem ajouter_bien_checks_and_writes :
  forall py_float db m form id_frais commit_ok db' rep,
    ajouter_bien py_float db m form id_frais commit_ok = (db', rep) ->
    (m = POST -> blanc (champ form "nom") = true ->
     db' = db
     /\ rep = Page "biens/formulaire.html"
                (flash_danger Flash.bien_nom_requis))
    /\ (m = POST -> blanc (champ form "nom") = false ->
        blanc (champ form "adresse") = true ->
        db' = db
        /\ rep = Page "biens/formulaire.html"
                   (flash_danger Flash.bien_adresse_requise))
    /\ (db' <> db ->
        m = POST /\ commit_ok = true
        /\ rep = Redirection "liste_biens" (success, Flash.bien_ajoute)
        /\ exists b,
             db' = avec_biens db (biens db ++ [b])
             /\ Bien.id b = id_frais
             /\ bien_conforme b
             /\ Bien.nom b = py_strip (champ form "nom")
             /\ Bien.adresse b = py_strip (champ form "adresse")
             /\ (form_get form "charges_mensuelles" = None ->
                 Bien.charges_mensuelles b = Some 0%float)
             /\ (forall s, form_get form "charges_mensuelles" = Some s ->
                           py_float s = None ->
                           Bien.charges_mensuelles b = Some 0%float)
             /\ (forall s x, form_get form "charges_mensuelles" = Some s ->
                             s <> "" ->
                             py_float s = Some x ->
                             PrimFloat.is_nan x = true ->
                             Bien.charges_mensuelles b = None)).
Proof.
  intros py_float db m form id_frais commit_ok db' rep H.
  unfold ajouter_bien in H.
  destruct m.
  { injection H as <- <-. repeat split; try discriminate; congruence. }
  destruct (controles_du_bien (_parse_bien_form py_float form))
    as [msg|] eqn:Ec.
  - injection H as <- <-.
    unfold controles_du_bien, _parse_bien_form in Ec.
    cbn [BienData.nom BienData.adresse BienData.charges_mensuelles] in Ec.
    rewrite !falsy_strip in Ec.
    fold (champ form "nom") (champ form "adresse") in Ec.
    split; [|split; [|congruence]].
    + intros _ Hn. rewrite Hn in Ec. injection Ec as <-. now split.
    + intros _ Hn Ha. rewrite Hn, Ha in Ec. injection Ec as <-. now split.
  - destruct (controles_du_bien_acceptes py_float form id_frais Ec)
      as (Hn & Ha & Hconf).
    split; [intros _ Hb; congruence|].
    split; [intros _ _ Hb; congruence|].
    destruct commit_ok; [|injection H as <- <-; congruence].
    injection H as <- <-. intros _.
    split; [reflexivity|]. split; [reflexivity|]. split; [reflexivity|].
    eexists. split; [reflexivity|]. split; [reflexivity|].
    split; [exact Hconf|]. split; [reflexivity|]. split; [reflexivity|].
    cbn [creer_bien Bien.charges_mensuelles _parse_bien_form
         BienData.charges_mensuelles]. unfold _safe_float.
    split; [|split].
    + intros ->. reflexivity.
    + intros s -> Hs. destruct (Str.falsy s); [reflexivity|].
      now rewrite Hs.
    + intros s x -> Hne Hs Hnan. destruct s as [|c s]; [congruence|].
      cbn [Str.falsy]. rewrite Hs. cbn [colonne_float].
      now apply sqlite_float_None.
Qed.

Lemma ajouter_bien_checks_and_writes_witness :
  exists b,
    fst (ajouter_bien lire_nombre Demo.base POST formulaire_bien_ok 3 true)
    = avec_biens Demo.base (biens Demo.base ++ [b])
    /\ Bien.id b = 3.
Proof.
  destruct (proj2 (proj2 (ajouter_bien_checks_and_writes lire_nombre
                            Demo.base POST formulaire_bien_ok 3 true _ _
                            (surjective_pairing _)))
              ltac:(vm_compute; discriminate))
    as (_ & _ & _ & b & Hdb & Hid & _).
  exists b. split; [exact Hdb|exact Hid].
Defined.

(** Charges sent as [nan] pass the check and are stored as [NULL]: the
    total rent of a tenant of the property then raises. *)
Example ajouter_bien_charges_nan :
  fst (ajouter_bien lire_nombre (mkBase [] [Demo.claire] [] []) POST
         formulaire_bien_nan 1 true)
  = base_sans_charges
  /\ loyer_total base_sans_charges Demo.claire = None.
Proof. split; vm_compute; reflexivity. Qed.

Lemma modifier_premier_cles (A : Type) (cle : A -> Z) (f : A -> bool)
  (g : A -> A) (l : list A) :
  (forall a, cle (g a) = cle a) ->
  map cle (modifier_premier f g l) = map cle l.
Proof.
  intro Hg. induction l as [|a l IH]; simpl; [reflexivity|].
  destruct (f a); simpl; [now rewrite Hg|now rewrite IH].
Qed.

Lemma find_modifier_premier (A : Type) (f : A -> bool) (g : A -> A)
  (l : list A) (a : A) :
  find f l = Some a -> f (g a) = true ->
  find f (modifier_premier f g l) = Some (g a).
Proof.
  induction l as [|b l IH]; simpl; [discriminate|].
  destruct (f b) eqn:E.
  - intros H Hg. injection H as <-. simpl. now rewrite Hg.
  - intros H Hg. simpl. rewrite E. now apply IH.
Qed.

Lemma find_modifier_premier_autre (A : Type) (f h : A -> bool)
  (g : A -> A) (l : list A) :
  (forall a, f a = true -> h a = false) ->
  (forall a, f a = true -> h (g a) = false) ->
  find h (modifier_premier f g l) = find h l.
Proof.
  intros H1 H2. induction l as [|b l IH]; simpl; [reflexivity|].
  destruct (f b) eqn:E; simpl.
  - now rewrite (H1 b E), (H2 b E).
  - now rewrite IH.
Qed.

(** X18. [modifier_bien] answers 404 for an unknown id and writes only
    when the checks on the form pass and the commit goes through. It
    then overwrites the property in place, keeping its id, so that the
    ids of the property table and the other tables are unchanged and a
    database whose links are sound stays so; the total rent of every
    tenant of the property then counts the charges stored from the form,
    and raises when the row has none; the total rent of the tenants of
    the other properties is as before. *)
Theorem modifier_bien_keeps_links :
  forall py_float db id m form commit_ok db' rep,
    modifier_bien py_float db id m form commit_ok = (db', rep) ->
    (Bien_query_get db id = None -> db' = db /\ rep = Introuvable)
    /\ (db' <> db ->
        m = POST /\ commit_ok = true
        /\ controles_du_bien (_parse_bien_form py_float form) = None
        /\ map Bien.id (biens db') = map Bien.id (biens db)
        /\ locataires db' = locataires db
        /\ paiements db' = paiements db
        /\ bailleurs db' = bailleurs db
        /\ (integrite db -> integrite db')
        /\ (exists b, Bien_query_get db' id = Some b
                      /\ Bien.id b = id /\ bien_conforme b
                      /\ Bien.charges_mensuelles b
                         = colonne_float
                             (BienData.charges_mensuelles
                                (_parse_bien_form py_float form))
                      /\ forall loc, Locataire.bien_id loc = id ->
                           loyer_total db' loc
                           = option_map
                               (fun charges =>
                                  (Locataire.loyer_mensuel loc
                                   + charges)%float)
                               (Bien.charges_mensuelles b))
        /\ (forall loc, Locataire.bien_id loc <> id ->
                        loyer_total db' loc = loyer_total db loc)).
Proof.
  intros py_float db id m form commit_ok db' rep H.
  unfold modifier_bien, Bien_query_get_or_404 in H.
  destruct (Bien_query_get db id) as [bien|] eqn:Eb.
  2:{ injection H as <- <-. split; [now split|congruence]. }
  split; [discriminate|].
  destruct m; [injection H as <- <-; congruence|].
  destruct (controles_du_bien (_parse_bien_form py_float form))
    as [msg|] eqn:Ec; [injection H as <- <-; congruence|].
  destruct commit_ok; [|injection H as <- <-; congruence].
  injection H as <- <-. intros _.
  destruct (Bien_query_get_In db id bien Eb) as [Hbin Hbid].
  set (data := _parse_bien_form py_float form) in *.
  assert (Hids : map Bien.id
                   (modifier_premier (fun b => Bien.id b =? id)
                      (fun b => creer_bien (Bien.id b) data) (biens db))
                 = map Bien.id (biens db))
    by (apply modifier_premier_cles; reflexivity).
  assert (Hget : Bien_query_get
                   (avec_biens db
                      (modifier_premier (fun b => Bien.id b =? id)
                         (fun b => creer_bien (Bien.id b) data)
                         (biens db))) id
                 = Some (creer_bien (Bien.id bien) data)).
  { unfold Bien_query_get. cbn [avec_biens biens].
    apply (find_modifier_premier _ _
             (fun b => creer_bien (Bien.id b) data) _ bien);
      [exact Eb|]. cbn. rewrite Hbid. apply Z.eqb_refl. }
  split; [reflexivity|]. split; [reflexivity|]. split; [reflexivity|].
  split; [exact Hids|].
  split; [reflexivity|]. split; [reflexivity|]. split; [reflexivity|].
  split.
  { intros [Hl Hp]. split; [|exact Hp].
    intros l Hin. destruct (Hl l Hin) as (b & Hb & Hbl).
    assert (Hx : In (Locataire.bien_id l)
                    (map Bien.id
                       (modifier_premier (fun b0 => Bien.id b0 =? id)
                          (fun b0 => creer_bien (Bien.id b0) data)
                          (biens db)))).
    { rewrite Hids, <- Hbl. now apply in_map. }
    apply in_map_iff in Hx. destruct Hx as (b' & Hb' & Hin').
    exists b'. now split. }
  split.
  { exists (creer_bien (Bien.id bien) data).
    split; [exact Hget|]. split; [exact Hbid|].
    split; [apply (controles_du_bien_acceptes py_float form _ Ec)|].
    split; [reflexivity|].
    intros loc Hloc. unfold loyer_total, Locataire_bien.
    rewrite Hloc, Hget.
    now destruct (Bien.charges_mensuelles (creer_bien (Bien.id bien) data)). }
  intros loc Hne. unfold loyer_total, Locataire_bien, Bien_query_get.
  cbn [avec_biens biens].
  rewrite (find_modifier_premier_autre _ (fun b => Bien.id b =? id)
             (fun b => Bien.id b =? Locataire.bien_id loc)).
  - reflexivity.
  - intros a Ha. apply Z.eqb_eq in Ha. apply Z.eqb_neq. congruence.
  - intros a Ha. apply Z.eqb_eq in Ha. cbn. apply Z.eqb_neq. congruence.
Qed.

Lemma modifier_bien_keeps_links_witness :
  integrite (fst (modifier_bien lire_nombre Demo.base 1 POST
                    formulaire_bien_ok true)).
Proof.
  destruct (proj2 (modifier_bien_keeps_links lire_nombre Demo.base 1 POST
                     formulaire_bien_ok true _ _ (surjective_pairing _))
              ltac:(vm_compute; discriminate))
    as (_ & _ & _ & _ & _ & _ & _ & Hint & _).
  exact (Hint integrite_demo).
Defined.

(** ** Display names *)

(** X19. For a tenant row that conforms to the validator's rules the
    display name is never empty and never shows a missing first name:
    it is the company name when there is one, and otherwise the first
    name, a space and the last name, both present, the property being
    then not commercial. A row with neither company name nor first name
    would show the word None before the last name. *)
Theorem nom_complet_of_conforming_tenant :
  forall db loc,
    (locataire_conforme db loc ->
     (est_professionnel loc = true ->
      exists r, Locataire.raison_sociale loc = Some r /\ r <> ""
                /\ nom_complet loc = r)
     /\ (est_professionnel loc = false ->
         exists p bien,
           Locataire.prenom loc = Some p /\ p <> ""
           /\ Locataire.nom loc <> ""
           /\ nom_complet loc = (p ++ " " ++ Locataire.nom loc)%string
           /\ Bien_query_get db (Locataire.bien_id loc) = Some bien
           /\ Bien.type_bien bien <> "local_commercial")
     /\ nom_complet loc <> "")
    /\ (Locataire.raison_sociale loc = None ->
        Locataire.prenom loc = None ->
        nom_complet loc = ("None " ++ Locataire.nom loc)%string).
Proof.
  intros db loc. split.
  - intros ((bien & Hb & Hkind) & _).
    unfold est_professionnel, nom_complet.
    destruct (Locataire.raison_sociale loc) as [[|c r]|] eqn:Er;
      cbn [Str.falsy_opt Str.falsy negb str_ou_None].
    + (* an empty company name *)
      destruct (String.eqb (Bien.type_bien bien) "local_commercial")
        eqn:Et; [destruct Hkind as [Hk _]; discriminate Hk|].
      destruct Hkind as [Hn Hp].
      destruct (Locataire.prenom loc) as [[|c p]|]; try discriminate Hp.
      destruct (Locataire.nom loc) as [|c' n] eqn:En;
        [discriminate Hn|].
      split; [discriminate|]. split; [|discriminate].
      intros _. exists (String c p), bien.
      repeat split; try discriminate; try assumption.
      now apply String.eqb_neq.
    + split; [|split; [discriminate|discriminate]].
      intros _. exists (String c r). repeat split. discriminate.
    + destruct (String.eqb (Bien.type_bien bien) "local_commercial")
        eqn:Et; [destruct Hkind as [Hk _]; discriminate Hk|].
      destruct Hkind as [Hn Hp].
      destruct (Locataire.prenom loc) as [[|c p]|]; try discriminate Hp.
      destruct (Locataire.nom loc) as [|c' n] eqn:En;
        [discriminate Hn|].
      split; [discriminate|]. split; [|discriminate].
      intros _. exists (String c p), bien.
      repeat split; try discriminate; try assumption.
      now apply String.eqb_neq.
  - intros Hr Hp. unfold nom_complet. now rewrite Hr, Hp.
Qed.

Lemma locataire_conforme_claire : locataire_conforme Demo.base Demo.claire.
Proof.
  unfold locataire_conforme. split; [|split; [|split; [|split]]].
  - exists Demo.appartement. split; [reflexivity|]. now split.
  - reflexivity.
  - intros g Hg. injection Hg as <-. reflexivity.
  - cbn. lia.
  - discriminate.
Qed.

Lemma nom_complet_of_conforming_tenant_witness :
  nom_complet Demo.claire <> "".
Proof.
  exact (proj2 (proj2 (proj1 (nom_complet_of_conforming_tenant Demo.base
                                Demo.claire)
                         locataire_conforme_claire))).
Defined.

(** ** Reading a payment form *)

Lemma safe_int_None (v : option string) :
  _safe_int v None = match v with Some s => Str.int s | None => None end.
Proof.
  unfold _safe_int. destruct v as [s|]; [|reflexivity].
  destruct s; [reflexivity|]. cbn [Str.falsy].
  now destruct (Str.int _).
Qed.

(** X20. A payment form is answered with the tenant message exactly
    when its tenant field holds no integer other than 0 (missing, empty
    and unreadable fields included). The month token is taken as sent,
    without stripping: once tenant, amount and date pass, the form is
    accepted exactly when the token field is not empty, so that a token
    of white space passes; and a missing category is read as rent. *)
Theorem validate_parsed_paiement :
  forall py_float form,
    let data := _parse_paiement_form py_float form in
    (_validate_paiement_data data = Some Msg.locataire_requis
     <-> forall n, Str.int (champ form "locataire_id") = Some n -> n = 0)
    /\ (forall id mt d,
          PaiementData.locataire_id data = Some id -> id <> 0 ->
          PaiementData.montant data = Some mt ->
          (0 <? mt)%float = true ->
          PaiementData.date_paiement data = Some d ->
          (_validate_paiement_data data = None
           <-> champ form "mois_concerne" <> "")
          /\ (champ form "mois_concerne" <> "" ->
              blanc (champ form "mois_concerne") = true ->
              _validate_paiement_data data = None))
    /\ (form_get form "categorie" = None ->
        PaiementData.categorie data = "loyer").
Proof.
  intros py_float form data.
  assert (Hid : PaiementData.locataire_id data
                = Str.int (champ form "locataire_id")).
  { unfold data, _parse_paiement_form, champ, form_get_or.
    cbn [PaiementData.locataire_id]. rewrite safe_int_None.
    now destruct (form_get form "locataire_id"). }
  split; [|split].
  - unfold _validate_paiement_data. rewrite Hid. unfold falsy_int.
    destruct (Str.int (champ form "locataire_id")) as [n|].
    + destruct (Z.eqb_spec n 0) as [-> | Hn].
      * split; [intros _ n Hn; now injection Hn as <-|reflexivity].
      * split.
        -- intro H. exfalso.
           destruct (PaiementData.montant data) as [mt|];
             [destruct (mt <=? 0)%float|];
             try (vm_compute in H; discriminate H).
           destruct (falsy_date (PaiementData.date_paiement data));
             [vm_compute in H; discriminate H|].
           destruct (Str.falsy (PaiementData.mois_concerne data));
             [vm_compute in H; discriminate H|discriminate H].
        -- intro H. exfalso. apply Hn. now apply H.
    + split; [intros _ n Hn; discriminate Hn|reflexivity].
  - intros id mt d Hl Hnz Hm Hpos Hd.
    assert (Hv : _validate_paiement_data data
                 = if Str.falsy (champ form "mois_concerne")
                   then Some Msg.mois_requis else None).
    { unfold _validate_paiement_data. rewrite Hl, Hm, Hd.
      cbn [falsy_int falsy_date].
      apply Z.eqb_neq in Hnz. rewrite Hnz.
      now rewrite (ltb_zero_pas_negatif mt Hpos). }
    rewrite Hv.
    destruct (champ form "mois_concerne") as [|c s] eqn:Et;
      cbn [Str.falsy].
    + split; [split; [discriminate|congruence]|congruence].
    + split; [split; [discriminate|reflexivity]|reflexivity].
  - intro H. unfold data, _parse_paiement_form, form_get_or.
    cbn [PaiementData.categorie]. now rewrite H.
Qed.

Lemma validate_parsed_paiement_witness :
  _validate_paiement_data
    (_parse_paiement_form lire_nombre
       [("locataire_id", "3"); ("montant", "10");
        ("date_paiement", "2024-03-20"); ("mois_concerne", "  ")])
  = None.
Proof.
  apply (proj2 (proj1 (proj2 (validate_parsed_paiement lire_nombre
           [("locataire_id", "3"); ("montant", "10");
            ("date_paiement", "2024-03-20"); ("mois_concerne", "  ")]))
           3 10%float (Date.mk 2024 3 20) eq_refl
           ltac:(discriminate) eq_refl eq_refl eq_refl)).
  - discriminate.
  - reflexivity.
Defined.

(** ** Editing and deleting a payment *)

(** X21. [modifier_paiement] and [supprimer_paiement] answer 404 for an
    unknown id and touch nothing but the payment table. When it writes,
    [modifier_paiement] keeps the number of payments and puts in the
    table a payment with the same id and the same receipt flag as the
    one found, a strictly positive amount and a token that is not empty;
    [supprimer_paiement] removes exactly one payment, keeps every
    payment with another id, and with unique ids leaves no payment with
    the id; a database whose links are sound stays so under the
    deletion. *)
Theorem modifier_et_supprimer_paiement :
  forall py_float db id m form commit_ok,
    let modif := modifier_paiement py_float db id m form commit_ok in
    let suppr := supprimer_paiement db id commit_ok in
    (Paiement_query_get_or_404 db id = None ->
     modif = (db, Introuvable) /\ suppr = (db, Introuvable))
    /\ biens (fst modif) = biens db
    /\ locataires (fst modif) = locataires db
    /\ bailleurs (fst modif) = bailleurs db
    /\ biens (fst suppr) = biens db
    /\ locataires (fst suppr) = locataires db
    /\ bailleurs (fst suppr) = bailleurs db
    /\ List.length (paiements (fst modif)) = List.length (paiements db)
    /\ (forall ancien,
          Paiement_query_get_or_404 db id = Some ancien ->
          (fst modif <> db ->
           exists p, In p (paiements (fst modif))
                     /\ Paiement.id p = id
                     /\ Paiement.quittance_generee p
                        = Paiement.quittance_generee ancien
                     /\ paiement_conforme p)
          /\ (commit_ok = true ->
              S (List.length (paiements (fst suppr)))
              = List.length (paiements db)
              /\ (forall p, In p (paiements (fst suppr)) ->
                            In p (paiements db))
              /\ (forall p, In p (paiements db) -> Paiement.id p <> id ->
                            In p (paiements (fst suppr)))
              /\ (NoDup (map Paiement.id (paiements db)) ->
                  forall p, In p (paiements (fst suppr)) ->
                            Paiement.id p <> id)
              /\ (integrite db -> integrite (fst suppr)))
          /\ (commit_ok = false -> fst suppr = db)).
Proof.
  intros py_float db id m form commit_ok modif suppr.
  unfold modif, suppr, modifier_paiement, supprimer_paiement.
  destruct (Paiement_query_get_or_404 db id) as [ancien|] eqn:Ep.
  2:{ cbn. repeat split; try reflexivity; discriminate. }
  split; [discriminate|].
  assert (Hmodif :
    forall r, r = modifier_paiement py_float db id m form commit_ok ->
      biens (fst r) = biens db /\ locataires (fst r) = locataires db
      /\ bailleurs (fst r) = bailleurs db
      /\ List.length (paiements (fst r)) = List.length (paiements db)
      /\ (fst r <> db ->
          exists p, In p (paiements (fst r))
                    /\ Paiement.id p = id
                    /\ Paiement.quittance_generee p
                       = Paiement.quittance_generee ancien
                    /\ paiement_conforme p)).
  { intros r ->. unfold modifier_paiement. rewrite Ep.
    destruct m; [cbn; repeat split; congruence|].
    destruct (_validate_paiement_data
                (_parse_paiement_form py_float form)) as [err|] eqn:Ev;
      [cbn; repeat split; congruence|].
    pose proof (paiement_cree_conforme _ id
                  (Paiement.quittance_generee ancien) Ev) as Hcree.
    destruct (creer_paiement id (Paiement.quittance_generee ancien)
                (_parse_paiement_form py_float form)) as [p|];
      [|cbn; repeat split; congruence].
    destruct Hcree as (Hid & Hq & _ & _ & _ & _ & Hconf).
    destruct commit_ok; [|cbn; repeat split; congruence].
    cbn [fst avec_paiements biens locataires bailleurs paiements].
    repeat (split; [reflexivity|]).
    split; [apply modifier_premier_length|].
    intros _. exists p.
    split; [apply (modifier_premier_trouve _ _ _ ancien); exact Ep|].
    split; [exact Hid|]. split; [exact Hq|exact Hconf]. }
  destruct (Hmodif _ eq_refl) as (H1 & H2 & H3 & H4 & H5).
  unfold modifier_paiement in H1, H2, H3, H4, H5. rewrite Ep in *.
  split; [exact H1|]. split; [exact H2|]. split; [exact H3|].
  assert (Hidp : Paiement.id ancien = id).
  { unfold Paiement_query_get_or_404 in Ep. apply find_some in Ep.
    now apply Z.eqb_eq. }
  destruct commit_ok;
    cbn [fst delete_paiement avec_paiements biens locataires bailleurs
         paiements].
  - repeat (split; [reflexivity|]). split; [exact H4|].
    intros ancien' Heq. injection Heq as <-.
    split; [exact H5|]. split; [|discriminate].
    intros _. rewrite Hidp.
    split; [apply (supprimer_premier_length _ _ _ ancien); exact Ep|].
    split; [intros p Hp; now apply supprimer_premier_In in Hp|].
    split.
    { intros p Hp Hne. apply supprimer_premier_garde; [assumption|].
      now apply Z.eqb_neq. }
    split.
    { intros Hnd p Hp.
      now apply (supprimer_premier_unique _ Paiement.id id
                   (paiements db)). }
    intros [Hl Hp]. split; [exact Hl|].
    intros p Hin. cbn [avec_paiements paiements locataires] in *.
    apply supprimer_premier_In in Hin. now apply Hp.
  - repeat (split; [reflexivity|]). split; [exact H4|].
    intros ancien' Heq. injection Heq as <-.
    split; [exact H5|]. split; [discriminate|reflexivity].
Qed.

Lemma modifier_et_supprimer_paiement_witness :
  S (List.length (paiements (fst (supprimer_paiement Demo.base 2 true))))
  = List.length (paiements Demo.base).
Proof.
  destruct (proj2 (proj2 (proj2 (proj2 (proj2 (proj2 (proj2 (proj2
              (modifier_et_supprimer_paiement lire_nombre Demo.base 2 GET
                 [] true))))))))
              (Demo.versement 2 3 1700%float (Date.mk 2024 2 9) "2024-02"
                 "loyer") eq_refl)
    as (_ & Hs & _).
  exact (proj1 (Hs eq_refl)).
Defined.

(** ** The validators as walks over the rules *)

(** X22. On a tenant form whose rent and deposit are numbers and whose
    SIRET is made of ASCII characters, and once the property of the form
    is resolved, tenant validation walks the rules in the order of the
    specification (company name, SIRET present, SIRET of 14 digits for
    commercial premises; last and first name otherwise; then lease
    start, rent, deposit, payment day, lease end) and returns the message
    of the first rule that does not hold: it returns no error exactly
    when every rule holds, and when a rule is violated while all the
    rules before it hold, that rule's message is the result whatever the
    later rules say. *)
Theorem validate_locataire_first_violated_rule :
  forall db data bien_id bien,
    LocataireData.bien_id data = Some bien_id ->
    bien_id <> 0 ->
    Bien_query_get db bien_id = Some bien ->
    formulaire_ordinaire data ->
    let regles := ReglesLocataire.pour_type (Bien.type_bien bien) in
    (Bien.type_bien bien = "local_commercial" ->
       regles = (ReglesLocataire.professionnel ++ ReglesLocataire.bail)%list)
    /\ (Bien.type_bien bien <> "local_commercial" ->
       regles = (ReglesLocataire.particulier ++ ReglesLocataire.bail)%list)
    /\ _validate_locataire_data db data = premiere_violation regles data
    /\ (_validate_locataire_data db data = None
        <-> toutes_respectees regles data)
    /\ (forall avant r apres,
          regles = (avant ++ r :: apres)%list ->
          toutes_respectees avant data ->
          respecte r data = false ->
          _validate_locataire_data db data = Some (message r)).
Proof.
  intros db data bien_id bien Hid Hnz Hget Hord regles.
  pose proof (validate_locataire_resolu db data bien_id bien Hid Hnz Hget
                Hord) as Heq.
  fold regles in Heq.
  repeat split.
  - intro Ht. unfold regles, ReglesLocataire.pour_type.
    now rewrite Ht.
  - intro Ht. unfold regles, ReglesLocataire.pour_type.
    apply String.eqb_neq in Ht. now rewrite Ht.
  - exact Heq.
  - rewrite Heq. apply premiere_violation_None.
  - rewrite Heq. apply premiere_violation_None.
  - intros avant r apres Hsplit Hav Hr.
    rewrite Heq, Hsplit. now apply premiere_violation_earliest.
Qed.

Lemma formulaire_pro_ordinaire : formulaire_ordinaire Demo.formulaire_pro.
Proof.
  split; [|split].
  - intros l H. injection H as <-. reflexivity.
  - intros g H. injection H as <-. reflexivity.
  - intros s H. injection H as <-. reflexivity.
Qed.

Lemma validate_locataire_first_violated_rule_witness :
  let regles := ReglesLocataire.pour_type (Bien.type_bien Demo.local) in
  _validate_locataire_data Demo.base Demo.formulaire_pro
  = premiere_violation regles Demo.formulaire_pro.
Proof.
  exact (proj1 (proj2 (proj2
    (validate_locataire_first_violated_rule Demo.base Demo.formulaire_pro
       2 Demo.local eq_refl ltac:(discriminate) eq_refl
       formulaire_pro_ordinaire)))).
Defined.

(** X23. On a payment form whose amount is a number, payment validation
    walks four rules in order (tenant id given, amount given and strictly
    positive, payment date given, month token not empty, with no check of
    its format) and returns the message of the first one that does not
    hold, no error exactly when all hold; the amount message is only ever
    returned for a form whose tenant id is given. *)
Theorem validate_paiement_first_violated_rule :
  forall data,
    paiement_ordinaire data ->
    _validate_paiement_data data
    = premiere_violation ReglesPaiement.toutes data
    /\ (_validate_paiement_data data = None
        <-> toutes_respectees ReglesPaiement.toutes data)
    /\ (forall avant r apres,
          ReglesPaiement.toutes = (avant ++ r :: apres)%list ->
          toutes_respectees avant data ->
          respecte r data = false ->
          _validate_paiement_data data = Some (message r))
    /\ (_validate_paiement_data data = Some Msg.montant_positif ->
        exists id, PaiementData.locataire_id data = Some id /\ id <> 0)
    /\ (respecte ReglesPaiement.locataire_present data = true ->
        respecte ReglesPaiement.montant_strictement_positif data = true ->
        respecte ReglesPaiement.date_presente data = true ->
        PaiementData.mois_concerne data <> "" ->
        _validate_paiement_data data = None).
Proof.
  intros data Hord. pose proof (validate_paiement_regles data Hord) as Heq.
  split; [exact Heq|].
  split; [rewrite Heq; apply premiere_violation_None|].
  split.
  { intros avant r apres Hsplit Hav Hr.
    rewrite Heq, Hsplit. now apply premiere_violation_earliest. }
  split.
  - unfold _validate_paiement_data, falsy_int.
    destruct (PaiementData.locataire_id data) as [id|].
    + destruct (Z.eqb_spec id 0) as [->|Hne].
      * intro H. vm_compute in H. discriminate H.
      * intros _. now exists id.
    + intro H. vm_compute in H. discriminate H.
  - intros H1 H2 H3 Htok. rewrite Heq. apply premiere_violation_None.
    repeat constructor; try assumption.
    cbn. now destruct (PaiementData.mois_concerne data).
Qed.

Lemma validate_paiement_first_violated_rule_witness :
  exists id,
    PaiementData.locataire_id
      (PaiementData.mk (Some 7) (Some (-5)%float) None "" "" "" "")
    = Some id
    /\ id <> 0.
Proof.
  apply (proj1 (proj2 (proj2 (proj2
    (validate_paiement_first_violated_rule
       (PaiementData.mk (Some 7) (Some (-5)%float) None "" "" "" "")
       ltac:(intros m H; injection H as <-; reflexivity)))))).
  reflexivity.
Defined.
